(** * The asynchronous chat server of task3_async_chat/server.py

    A shallow embedding of [ChatRoom], [ClientConnection] and
    [AsyncChatServer], and the properties of the specification settled on it.

    Modelling conventions.
    - Python objects have identity: rooms and connections live in two object
      stores of the server state and are named by their index ([room_ref],
      [client_ref]); allocation appends to the store.
    - [dict] is a [gmap], [set] a [gset], [asyncio.Queue] (unbounded, FIFO)
      a list whose head is the next item [get] returns.
    - A coroutine is a function in the state-and-exception monad [M]; an
      [await] of another coroutine is a bind.  The two duties that
      [handle_client] runs as tasks interleave at the granularity of one
      loop iteration ([duty_step]).
    - Text is ASCII: [str] is [string], and whitespace is what [str.strip]
      and [str.split] take as whitespace below code point 128.
    - [logger.info] lines are left out; [logger.warning] and [logger.error]
      append a tagged record to [log]. *)

From Stdlib Require Import Ascii String DecimalString ZArith.
From stdpp Require Import gmap strings list relations.

Open Scope string_scope.
Open Scope list_scope.
Open Scope nat_scope.

(** ** Python's [str] methods used by the server *)

Module PyStr.

(** [str.isspace] on one ASCII character: TAB..CR, FS..US and the space. *)
Definition isspace (a : ascii) : bool :=
  let n := nat_of_ascii a in
  (((9 <=? n) && (n <=? 13)) || ((28 <=? n) && (n <=? 32)))%nat.

Fixpoint lstrip (s : string) : string :=
  match s with
  | EmptyString => EmptyString
  | String a s' => if isspace a then lstrip s' else s
  end.

Definition is_empty (s : string) : bool :=
  match s with EmptyString => true | String _ _ => false end.

Fixpoint rstrip (s : string) : string :=
  match s with
  | EmptyString => EmptyString
  | String a s' =>
      let r := rstrip s' in
      if isspace a && is_empty r then EmptyString else String a r
  end.

(** [s.strip()] *)
Definition strip (s : string) : string := rstrip (lstrip s).

(** The longest prefix without whitespace, and what follows it. *)
Fixpoint take_word (s : string) : string * string :=
  match s with
  | EmptyString => (EmptyString, EmptyString)
  | String a s' =>
      if isspace a then (EmptyString, s)
      else let '(w, r) := take_word s' in (String a w, r)
  end.

(** [s.split(maxsplit=1)]: leading whitespace is skipped, the first word is
    cut, the whitespace after it is skipped and the remainder, when it is
    not empty, is kept as it is (trailing whitespace included). *)
Definition split_maxsplit1 (s : string) : list string :=
  let s1 := lstrip s in
  if is_empty s1 then []
  else
    let '(w, r) := take_word s1 in
    let r' := lstrip r in
    if is_empty r' then [w] else [w; r'].

Definition lower_ascii (a : ascii) : ascii :=
  let n := nat_of_ascii a in
  if ((65 <=? n) && (n <=? 90))%nat then ascii_of_nat (n + 32) else a.

(** [s.lower()] *)
Fixpoint lower (s : string) : string :=
  match s with
  | EmptyString => EmptyString
  | String a s' => String (lower_ascii a) (lower s')
  end.

(** [s.lstrip('@')] *)
Fixpoint lstrip_at (s : string) : string :=
  match s with
  | String "@"%char s' => lstrip_at s'
  | _ => s
  end.

(** [s.startswith('/')] *)
Definition startswith_slash (s : string) : bool :=
  match s with String "/"%char _ => true | _ => false end.

(** [sep.join(l)] *)
Fixpoint join (sep : string) (l : list string) : string :=
  match l with
  | [] => ""
  | [x] => x
  | x :: l' => x +:+ sep +:+ join sep l'
  end.

(** [str(n)] for a non-negative integer. *)
Definition str_of_nat (n : nat) : string :=
  NilZero.string_of_uint (Nat.to_uint n).

(** [s.split('/')] *)
Fixpoint split_slash (s : string) : list string :=
  match s with
  | EmptyString => [EmptyString]
  | String a s' =>
      match split_slash s' with
      | [] => [String a EmptyString]
      | w :: ws => if Ascii.eqb a "/"%char then EmptyString :: w :: ws
                   else String a w :: ws
      end
  end.

End PyStr.

(** ** Messages, time, exceptions *)

(** A message is a dict literal with string keys; a value is a [str] or
    [None].  The pairs are kept in insertion order, the order [json.dumps]
    writes them in. *)
Definition message := list (string * option string).

Fixpoint msg_get (k : string) (m : message) : option (option string) :=
  match m with
  | [] => None
  | (k', v) :: m' => if String.eqb k k' then Some v else msg_get k m'
  end.

Definition msg_has (k : string) (m : message) : bool :=
  match msg_get k m with Some _ => true | None => false end.

(** What an f-string prints for a value that is a [str] or [None]. *)
Definition fmt (u : option string) : string := default "None" u.

Record datetime := {
  year : nat; month : nat; day : nat;
  hour : nat; minute : nat; second : nat }.

Fixpoint zeros (n : nat) : string :=
  match n with O => "" | S n' => "0" +:+ zeros n' end.

Definition zfill (w n : nat) : string :=
  let d := PyStr.str_of_nat n in zeros (w - String.length d) +:+ d.

(** [d.strftime("%Y-%m-%d %H:%M:%S")] *)
Definition strftime (d : datetime) : string :=
  zfill 4 (year d) +:+ "-" +:+ zfill 2 (month d) +:+ "-" +:+ zfill 2 (day d)
  +:+ " " +:+ zfill 2 (hour d) +:+ ":" +:+ zfill 2 (minute d) +:+ ":"
  +:+ zfill 2 (second d).

(** The exceptions that occur.  [CancelledError] derives from
    [BaseException], so [except Exception] lets it through; the others
    derive from [Exception].  [NoFuel] is not an exception of the program:
    it marks that the iteration bound of a modelled loop was reached, and
    no handler catches it. *)
Inductive exn :=
| CancelledError
| KeyError (key : string)
| IndexError
| TypeError
| ConnectionError
| OSError (msg : string)
| NoFuel.

Definition is_Exception (e : exn) : bool :=
  match e with CancelledError | NoFuel => false | _ => true end.

(** [str(error)] *)
Definition str_exn (e : exn) : string :=
  match e with
  | CancelledError => ""
  | KeyError k => "'" +:+ k +:+ "'"
  | IndexError => "list index out of range"
  | TypeError => "sequence item 0: expected str instance, NoneType found"
  | ConnectionError => "Connection lost"
  | OSError msg => msg
  | NoFuel => ""
  end.

(** ** The file system seen through [pathlib] and [open] *)

Inductive node := File (content : list Byte.byte) | Dir.

(** [Path(s)]: whether the text starts at the root, and its components;
    empty components and [.] are dropped as [pathlib] does. *)
Record PurePath := { anchored : bool; parts : list string }.

Definition keep_part (c : string) : bool :=
  negb (PyStr.is_empty c) && negb (String.eqb c ".").

Definition Path (s : string) : PurePath :=
  {| anchored := PyStr.startswith_slash s;
     parts := filter (λ c, keep_part c = true) (PyStr.split_slash s) |}.

(** [p.name]: the last component, or the empty string. *)
Definition path_name (p : list string) : string := List.last p "".

(** [str(p)] for an absolute path. *)
Definition str_path (p : list string) : string := "/" +:+ PyStr.join "/" p.

(** The files and directories, by their location: the components from the
    root, without [..].  There are no links. *)
Abbreviation filesystem := (gmap (list string) node).

(** Resolution of the components [comps] from the location [cur]: every
    component is looked up in a directory, [..] is the parent. *)
Fixpoint walk (fs : filesystem) (cur : list string) (comps : list string)
  : option (list string) :=
  match comps with
  | [] => Some cur
  | c :: rest =>
      match fs !! cur with
      | Some Dir =>
          walk fs (if String.eqb c ".." then removelast cur else cur ++ [c]) rest
      | _ => None
      end
  end.

(** [os.stat(p)]: the location and the node an absolute path names. *)
Definition stat (fs : filesystem) (p : list string) : option (list string * node) :=
  match walk fs [] p with
  | Some q => match fs !! q with Some n => Some (q, n) | None => None end
  | None => None
  end.

(** [p.exists()] and [p.is_file()] *)
Definition path_exists (fs : filesystem) (p : list string) : bool :=
  match stat fs p with Some _ => true | None => false end.

Definition path_is_file (fs : filesystem) (p : list string) : bool :=
  match stat fs p with Some (_, File _) => true | _ => false end.

(** [open(p, 'rb')]: the location read from. *)
Definition open_rb (fs : filesystem) (p : list string) : exn + list string :=
  match stat fs p with
  | Some (q, File _) => inr q
  | Some (_, Dir) => inl (OSError ("[Errno 21] Is a directory: '" +:+ str_path p +:+ "'"))
  | None => inl (OSError ("[Errno 2] No such file or directory: '" +:+ str_path p +:+ "'"))
  end.

(** [open(p, 'wb')]: an existing file is truncated, a missing one is
    created empty in its directory; the location written to and the file
    system after the call. *)
Definition open_wb (fs : filesystem) (p : list string)
  : exn + (list string * filesystem) :=
  match stat fs p with
  | Some (q, File _) => inr (q, <[q := File []]> fs)
  | Some (_, Dir) => inl (OSError ("[Errno 21] Is a directory: '" +:+ str_path p +:+ "'"))
  | None =>
      match stat fs (removelast p) with
      | Some (d, Dir) =>
          if PyStr.is_empty (path_name p) || String.eqb (path_name p) ".."
          then inl (OSError ("[Errno 2] No such file or directory: '" +:+ str_path p +:+ "'"))
          else inr (d ++ [path_name p], <[d ++ [path_name p] := File []]> fs)
      | _ => inl (OSError ("[Errno 2] No such file or directory: '" +:+ str_path p +:+ "'"))
      end
  end.

(** [f.read()] on a handle opened at location [q]. *)
Definition read_at (fs : filesystem) (q : list string) : list Byte.byte :=
  match fs !! q with Some (File b) => b | _ => [] end.

(** ** Objects and the server state *)

Abbreviation client_ref := nat.
Abbreviation room_ref := nat.

(** The [StreamWriter] of a connection: the data handed to [write], in
    order; whether [write]/[drain] raise; whether [close] was called. *)
Record StreamWriter := {
  write_calls : list message;
  broken : bool;
  closed : bool }.

(** What [readline] finds next on a [StreamReader]: a chunk of data (a line
    with its newline, or an unterminated last line) or a failure of the
    socket.  When nothing is left the peer has closed: [readline] returns
    the empty bytes. *)
Inductive rd_event := Data (line : string) | ReadFault.

Record ClientConnection := {
  reader : list rd_event;
  writer : StreamWriter;
  username : option string;
  current_room : option room_ref;
  private_queue : list message }.

Record ChatRoom := {
  name : string;
  members : gset client_ref;
  message_queue : list message }.

Inductive log_record :=
| LogSendError (user : option string) (e : exn)
| LogReceiveError (user : option string)
| LogClientError (e : exn)
| LogRoomSendError (e : exn)
| LogPrivateSendError (e : exn)
| LogUploadWarning (msg : string)
| LogUploadError (e : exn).

Record AsyncChatServer := {
  rooms : gmap string room_ref;
  clients : gset client_ref;
  uploads_dir : list string;
  room_objs : list ChatRoom;
  client_objs : list ClientConnection;
  fs : filesystem;
  cwd : list string;
  now : datetime;
  log : list log_record }.

#[global] Instance StreamWriter_inhabited : Inhabited StreamWriter :=
  populate {| write_calls := []; broken := false; closed := false |}.
#[global] Instance ClientConnection_inhabited : Inhabited ClientConnection :=
  populate {| reader := []; writer := inhabitant; username := None;
              current_room := None; private_queue := [] |}.
#[global] Instance ChatRoom_inhabited : Inhabited ChatRoom :=
  populate {| name := ""; members := ∅; message_queue := [] |}.

(** Field updates. *)
Definition set_write_calls (f : list message → list message) (w : StreamWriter) :=
  {| write_calls := f (write_calls w); broken := broken w; closed := closed w |}.
Definition set_closed (b : bool) (w : StreamWriter) :=
  {| write_calls := write_calls w; broken := broken w; closed := b |}.

Definition set_reader (f : list rd_event → list rd_event) (c : ClientConnection) :=
  {| reader := f (reader c); writer := writer c; username := username c;
     current_room := current_room c; private_queue := private_queue c |}.
Definition set_writer (f : StreamWriter → StreamWriter) (c : ClientConnection) :=
  {| reader := reader c; writer := f (writer c); username := username c;
     current_room := current_room c; private_queue := private_queue c |}.
Definition set_username (u : option string) (c : ClientConnection) :=
  {| reader := reader c; writer := writer c; username := u;
     current_room := current_room c; private_queue := private_queue c |}.
Definition set_current_room (r : option room_ref) (c : ClientConnection) :=
  {| reader := reader c; writer := writer c; username := username c;
     current_room := r; private_queue := private_queue c |}.
Definition set_private_queue (f : list message → list message) (c : ClientConnection) :=
  {| reader := reader c; writer := writer c; username := username c;
     current_room := current_room c; private_queue := f (private_queue c) |}.

Definition set_members (f : gset client_ref → gset client_ref) (r : ChatRoom) :=
  {| name := name r; members := f (members r); message_queue := message_queue r |}.
Definition set_message_queue (f : list message → list message) (r : ChatRoom) :=
  {| name := name r; members := members r; message_queue := f (message_queue r) |}.

Definition set_rooms (f : gmap string room_ref → gmap string room_ref) (s : AsyncChatServer) :=
  {| rooms := f (rooms s); clients := clients s; uploads_dir := uploads_dir s;
     room_objs := room_objs s; client_objs := client_objs s; fs := fs s;
     cwd := cwd s; now := now s; log := log s |}.
Definition set_clients (f : gset client_ref → gset client_ref) (s : AsyncChatServer) :=
  {| rooms := rooms s; clients := f (clients s); uploads_dir := uploads_dir s;
     room_objs := room_objs s; client_objs := client_objs s; fs := fs s;
     cwd := cwd s; now := now s; log := log s |}.
Definition set_room_objs (f : list ChatRoom → list ChatRoom) (s : AsyncChatServer) :=
  {| rooms := rooms s; clients := clients s; uploads_dir := uploads_dir s;
     room_objs := f (room_objs s); client_objs := client_objs s; fs := fs s;
     cwd := cwd s; now := now s; log := log s |}.
Definition set_client_objs (f : list ClientConnection → list ClientConnection)
    (s : AsyncChatServer) :=
  {| rooms := rooms s; clients := clients s; uploads_dir := uploads_dir s;
     room_objs := room_objs s; client_objs := f (client_objs s); fs := fs s;
     cwd := cwd s; now := now s; log := log s |}.
Definition set_fs (f : filesystem → filesystem) (s : AsyncChatServer) :=
  {| rooms := rooms s; clients := clients s; uploads_dir := uploads_dir s;
     room_objs := room_objs s; client_objs := client_objs s; fs := f (fs s);
     cwd := cwd s; now := now s; log := log s |}.
Definition add_log (l : log_record) (s : AsyncChatServer) :=
  {| rooms := rooms s; clients := clients s; uploads_dir := uploads_dir s;
     room_objs := room_objs s; client_objs := client_objs s; fs := fs s;
     cwd := cwd s; now := now s; log := log s ++ [l] |}.

(** Dereferencing and updating an object. *)
Abbreviation client_of s c := (client_objs s !!! (c : client_ref)).
Abbreviation room_of s r := (room_objs s !!! (r : room_ref)).
Definition upd_client (c : client_ref) (f : ClientConnection → ClientConnection) :=
  set_client_objs (alter f c).
Definition upd_room (r : room_ref) (f : ChatRoom → ChatRoom) :=
  set_room_objs (alter f r).

(** ** Coroutines: state and exceptions *)

Inductive outcome (A : Type) := Ok (a : A) | Raise (e : exn).
Arguments Ok {A} a.
Arguments Raise {A} e.

Definition M (A : Type) : Type := AsyncChatServer → outcome A * AsyncChatServer.

#[global] Instance M_ret : MRet M := λ A a s, (Ok a, s).
#[global] Instance M_bind : MBind M := λ A B k m s,
  match m s with
  | (Ok a, s') => k a s'
  | (Raise e, s') => (Raise e, s')
  end.

Definition raise {A} (e : exn) : M A := λ s, (Raise e, s).
Definition gets {A} (f : AsyncChatServer → A) : M A := λ s, (Ok (f s), s).
Definition modify (f : AsyncChatServer → AsyncChatServer) : M unit := λ s, (Ok tt, f s).

(** [try: body  except Exception as error: handler(error)] *)
Definition try_except {A} (body : M A) (handler : exn → M A) : M A := λ s,
  match body s with
  | (Raise e, s') => if is_Exception e then handler e s' else (Raise e, s')
  | r => r
  end.

(** [try: body  finally: cleanup] *)
Definition try_finally {A} (body : M A) (cleanup : M unit) : M A := λ s,
  match body s with
  | (Raise NoFuel, s') => (Raise NoFuel, s')
  | (r, s') =>
      match cleanup s' with
      | (Ok _, s'') => (r, s'')
      | (Raise e, s'') => (Raise e, s'')
      end
  end.

(** ** class ChatRoom *)

(** [ChatRoom(name)]: a new room object with no member and an empty queue. *)
Definition ChatRoom_init (nm : string) : M room_ref := λ s,
  (Ok (length (room_objs s)),
   set_room_objs (λ l, l ++ [{| name := nm; members := ∅; message_queue := [] |}]) s).

(** [await room.message_queue.put(message)]; the queue is unbounded, so
    [put] never waits. *)
Definition queue_put (r : room_ref) (m : message) : M unit :=
  modify (upd_room r (set_message_queue (λ q, q ++ [m]))).

(** [datetime.now().strftime("%Y-%m-%d %H:%M:%S")] *)
Definition timestamp : M string := gets (λ s, strftime (now s)).

Definition add_member (r : room_ref) (client : client_ref) : M unit :=
  modify (upd_room r (set_members (λ ms, ms ∪ {[client]})));;
  u ← gets (λ s, username (client_of s client));
  t ← timestamp;
  queue_put r [("type", Some "system");
               ("content", Some (fmt u +:+ " joined the room"));
               ("time", Some t)].

Definition remove_member (r : room_ref) (client : client_ref) : M unit :=
  modify (upd_room r (set_members (λ ms, ms ∖ {[client]})));;
  u ← gets (λ s, username (client_of s client));
  t ← timestamp;
  queue_put r [("type", Some "system");
               ("content", Some (fmt u +:+ " left the room"));
               ("time", Some t)].

Definition post_message (r : room_ref) (client : client_ref) (content : string)
  : M unit :=
  u ← gets (λ s, username (client_of s client));
  t ← timestamp;
  queue_put r [("type", Some "message"); ("sender", u);
               ("content", Some content); ("time", Some t)].

(** The loop over [self.members] that stops at the first member named
    [to_username]; the members are visited in the order [elements] lists
    them. *)
Definition find_member (s : AsyncChatServer) (r : room_ref) (to_username : string)
  : option client_ref :=
  List.find (λ m, bool_decide (username (client_of s m) = Some to_username))
            (elements (members (room_of s r))).

Definition private_message (from : option string) (content t : string) : message :=
  [("type", Some "private"); ("from", from);
   ("content", Some content); ("time", Some t)].

Definition send_private_message (r : room_ref) (from_client : client_ref)
    (to_username content : string) : M bool :=
  target_member ← gets (λ s, find_member s r to_username);
  match target_member with
  | Some target =>
      u ← gets (λ s, username (client_of s from_client));
      t ← timestamp;
      modify (upd_client target
                (set_private_queue (λ q, q ++ [private_message u content t])));;
      mret true
  | None => mret false
  end.

(** ** class ClientConnection *)

Definition ClientConnection_init (rd : list rd_event) (w : StreamWriter)
  : M client_ref := λ s,
  (Ok (length (client_objs s)),
   set_client_objs (λ l, l ++ [{| reader := rd; writer := w; username := None;
                                  current_room := None; private_queue := [] |}]) s).

(** [writer.write(...)] followed by [await writer.drain()]. *)
Definition writer_write (client : client_ref) (data : message) : M unit :=
  modify (upd_client client (set_writer (set_write_calls (λ l, l ++ [data]))));;
  w ← gets (λ s, writer (client_of s client));
  if broken w || closed w then raise ConnectionError else mret tt.

Definition send_message (client : client_ref) (data : message) : M unit :=
  try_except
    (writer_write client data)
    (λ error,
       u ← gets (λ s, username (client_of s client));
       modify (add_log (LogSendError u error))).

(** [await reader.readline()] *)
Definition readline (client : client_ref) : M string := λ s,
  match reader (client_of s client) with
  | [] => (Ok "", s)
  | Data d :: rest => (Ok d, upd_client client (set_reader (λ _, rest)) s)
  | ReadFault :: rest =>
      (Raise ConnectionError, upd_client client (set_reader (λ _, rest)) s)
  end.

Definition receive_message (client : client_ref) : M (option string) :=
  try_except
    (data ← readline client;
     if PyStr.is_empty data then mret None else mret (Some (PyStr.strip data)))
    (λ error,
       u ← gets (λ s, username (client_of s client));
       modify (add_log (LogReceiveError u));;
       mret None).

(** Truth value of what [receive_message] returns: [None] and the empty
    string are false. *)
Definition truthy (o : option string) : bool :=
  match o with Some v => negb (PyStr.is_empty v) | None => false end.

(** ** class AsyncChatServer *)

(** [uploads_dir.mkdir(exist_ok=True)] *)
Definition mkdir_exist_ok (fs0 : filesystem) (p : list string) : exn + filesystem :=
  match stat fs0 p with
  | Some (_, Dir) => inr fs0
  | Some (_, File _) => inl (OSError ("[Errno 17] File exists: '" +:+ str_path p +:+ "'"))
  | None =>
      match stat fs0 (removelast p) with
      | Some (d, Dir) => inr (<[d ++ [path_name p] := Dir]> fs0)
      | _ => inl (OSError ("[Errno 2] No such file or directory: '" +:+ str_path p +:+ "'"))
      end
  end.

(** [AsyncChatServer()], for the directory [program_dir] of the script, in
    an environment with the files [fs0], the working directory [cwd0] and
    the clock at [t0]. *)
Definition AsyncChatServer_init (program_dir : list string) (fs0 : filesystem)
    (cwd0 : list string) (t0 : datetime) : exn + AsyncChatServer :=
  let up := program_dir ++ ["uploaded_files"] in
  match mkdir_exist_ok fs0 up with
  | inl e => inl e
  | inr fs1 =>
      inr {| rooms := ∅; clients := ∅; uploads_dir := up;
             room_objs := []; client_objs := []; fs := fs1;
             cwd := cwd0; now := t0; log := [] |}
  end.

(** [self.uploads_dir / file_name] *)
Definition path_join (d : list string) (file_name : string) : list string :=
  if PyStr.is_empty file_name then d else d ++ [file_name].

Definition _upload_file (client : client_ref) (file_path : string) : M unit :=
  try_except
    (let file_path := PyStr.strip file_path in
     let p := Path file_path in
     wd ← gets cwd;
     let file_path_obj := if anchored p then parts p else wd ++ parts p in
     fs0 ← gets fs;
     if negb (path_exists fs0 file_path_obj) then
       let error_msg := "File not found: " +:+ str_path file_path_obj in
       modify (add_log (LogUploadWarning error_msg));;
       send_message client [("type", Some "error"); ("content", Some error_msg)]
     else if negb (path_is_file fs0 file_path_obj) then
       let error_msg := "Path is not a file: " +:+ str_path file_path_obj in
       modify (add_log (LogUploadWarning error_msg));;
       send_message client [("type", Some "error"); ("content", Some error_msg)]
     else
       let file_name := path_name file_path_obj in
       up ← gets uploads_dir;
       let destination_path := path_join up file_name in
       match open_rb fs0 file_path_obj with
       | inl e => raise e
       | inr source =>
           match open_wb fs0 destination_path with
           | inl e => raise e
           | inr (dest, fs1) =>
               modify (set_fs (λ _, fs1));;
               let content := read_at fs1 source in
               modify (set_fs (λ f, <[dest := File content]> f));;
               send_message client
                 [("type", Some "system");
                  ("content", Some ("File " +:+ file_name +:+ " uploaded successfully ("
                                    +:+ PyStr.str_of_nat (length content) +:+ " bytes)"))];;
               room ← gets (λ s, current_room (client_of s client));
               match room with
               | Some r =>
                   u ← gets (λ s, username (client_of s client));
                   queue_put r [("type", Some "system");
                                ("content", Some (fmt u +:+ " uploaded file: " +:+ file_name))]
               | None => mret tt
               end
           end
       end)
    (λ error,
       modify (add_log (LogUploadError error));;
       send_message client
         [("type", Some "error");
          ("content", Some ("File upload error: " +:+ str_exn error))]).

Definition help_text : message :=
  [("type", Some "system");
   ("content",
    Some (PyStr.join (String "010" "")
            ["=== Available Commands ===";
             "/help - show this help";
             "/list - show room members";
             "/private @name message - send private message";
             "/file - upload file";
             "/quit - exit chat"]))].

(** [', '.join(usernames)]: a [TypeError] when an item is [None]. *)
Definition join_usernames (l : list (option string)) : M string :=
  match mapM id l with
  | Some names => mret (PyStr.join ", " names)
  | None => raise TypeError
  end.

Definition _handle_command (client : client_ref) (command : string) : M unit :=
  match PyStr.split_maxsplit1 command with
  | [] => raise IndexError
  | p0 :: rest =>
      let command_type := PyStr.lower p0 in
      if String.eqb command_type "/help" then
        send_message client help_text
      else if String.eqb command_type "/list" then
        room ← gets (λ s, current_room (client_of s client));
        match room with
        | Some r =>
            usernames ← gets (λ s, (λ m, username (client_of s m))
                                     <$> elements (members (room_of s r)));
            txt ← join_usernames usernames;
            send_message client
              [("type", Some "system"); ("content", Some ("Room members: " +:+ txt))]
        | None => mret tt
        end
      else if String.eqb command_type "/private" then
        match rest with
        | remainder :: _ =>
            match PyStr.split_maxsplit1 remainder with
            | p :: text :: _ =>
                let to_username := PyStr.lstrip_at p in
                room ← gets (λ s, current_room (client_of s client));
                match room with
                | Some r =>
                    success ← send_private_message r client to_username text;
                    send_message client
                      (if success : bool
                       then [("type", Some "system");
                             ("content", Some ("Private message sent to " +:+ to_username))]
                       else [("type", Some "error");
                             ("content", Some ("User " +:+ to_username +:+ " not found"))])
                | None => mret tt
                end
            | _ => mret tt
            end
        | [] => mret tt
        end
      else if String.eqb command_type "/file" then
        file_path ←
          match rest with
          | p :: _ => mret (Some p)
          | [] =>
              send_message client
                [("type", Some "system"); ("content", Some "Send file path to upload")];;
              receive_message client
          end;
        match file_path with
        | Some p => if PyStr.is_empty p then mret tt else _upload_file client p
        | None => mret tt
        end
      else if String.eqb command_type "/quit" then
        raise CancelledError
      else mret tt
  end.

(** The loop of [_receive_from_client], at most [fuel] iterations. *)
Fixpoint _receive_from_client (fuel : nat) (client : client_ref) : M unit :=
  match fuel with
  | O => raise NoFuel
  | S fuel' =>
      message ← receive_message client;
      match message with
      | Some msg =>
          if PyStr.is_empty msg then mret tt
          else
            (if PyStr.startswith_slash msg then _handle_command client msg
             else
               room ← gets (λ s, current_room (client_of s client));
               match room with
               | Some r => post_message r client msg
               | None => mret tt
               end);;
            _receive_from_client fuel' client
      | None => mret tt
      end
  end.

(** [await room.message_queue.get()] when an item is there; [None] when the
    queue is empty and [get] would wait. *)
Definition queue_get (r : room_ref) : M (option message) := λ s,
  match message_queue (room_of s r) with
  | [] => (Ok None, s)
  | m :: q => (Ok (Some m), upd_room r (set_message_queue (λ _, q)) s)
  end.

Definition private_queue_get (client : client_ref) : M (option message) := λ s,
  match private_queue (client_of s client) with
  | [] => (Ok None, s)
  | m :: q => (Ok (Some m), upd_client client (set_private_queue (λ _, q)) s)
  end.

(** One iteration of the loop of [_broadcast_room_messages]; the result is
    whether the iteration ran (it does not when there is no room or the
    queue is empty). *)
Definition _broadcast_room_messages (client : client_ref) : M bool :=
  room ← gets (λ s, current_room (client_of s client));
  match room with
  | Some r =>
      try_except
        (message ← queue_get r;
         match message with
         | Some m => send_message client m;; mret true
         | None => mret false
         end)
        (λ error, modify (add_log (LogRoomSendError error));; mret false)
  | None => mret false
  end.

(** One iteration of the loop of [_send_private_messages]. *)
Definition _send_private_messages (client : client_ref) : M bool :=
  try_except
    (message ← private_queue_get client;
     match message with
     | Some m => send_message client m;; mret true
     | None => mret false
     end)
    (λ error, modify (add_log (LogPrivateSendError error));; mret false).

Definition _disconnect_client (client : client_ref) : M unit :=
  modify (set_clients (λ cs, cs ∖ {[client]}));;
  room ← gets (λ s, current_room (client_of s client));
  match room with
  | Some r =>
      remove_member r client;;
      n ← gets (λ s, size (members (room_of s r)));
      if (n =? 0)%nat then
        nm ← gets (λ s, name (room_of s r));
        known ← gets (λ s, rooms s !! nm);
        match known with
        | Some _ => modify (set_rooms (delete nm))
        | None => raise (KeyError nm)
        end
      else mret tt
  | None => mret tt
  end;;
  modify (upd_client client (set_writer (set_closed true))).

(** Lines 162-164 of [handle_client]: the connection object is created and
    added to [self.clients]. *)
Definition accept (rd : list rd_event) (w : StreamWriter) : M client_ref :=
  client ← ClientConnection_init rd w;
  modify (set_clients (λ cs, cs ∪ {[client]}));;
  mret client.

(** Lines 170-209: the two requests and the join; the result is [false]
    where the code returns early. *)
Definition handshake (client : client_ref) : M bool :=
  send_message client
    [("type", Some "request"); ("message", Some "Enter your username:")];;
  uname ← receive_message client;
  if negb (truthy uname) then mret false
  else
    modify (upd_client client (set_username uname));;
    send_message client
      [("type", Some "request"); ("message", Some "Enter room name:")];;
    room_name ← receive_message client;
    match room_name with
    | Some room_name =>
        if PyStr.is_empty room_name then mret false
        else
          known ← gets (λ s, rooms s !! room_name);
          room ← match known with
                 | Some r => mret r
                 | None =>
                     r ← ChatRoom_init room_name;
                     modify (set_rooms (<[room_name := r]>));;
                     mret r
                 end;
          modify (upd_client client (set_current_room (Some room)));;
          add_member room client;;
          send_message client
            [("type", Some "success");
             ("message", Some ("Welcome to room '" +:+ room_name
                               +:+ "'! (Type /help for commands)"))];;
          mret true
    | None => mret false
    end.

(** Lines 214-225.  The write duty leaves its loops only on an exception,
    and [send_message] raises none, so [asyncio.wait] returns when the read
    duty ends, however it ends; its result is not retrieved.  Every
    iteration takes an event from the reader or meets its end. *)
Definition serve (client : client_ref) : M unit := λ s,
  match _receive_from_client (S (length (reader (client_of s client)))) client s with
  | (Raise NoFuel, s') => (Raise NoFuel, s')
  | (_, s') => (Ok tt, s')
  end.

(** The [except] clauses of [handle_client]. *)
Definition handle_errors (body : M unit) : M unit := λ s,
  match body s with
  | (Raise CancelledError, s') => (Ok tt, s')
  | (Raise e, s') =>
      if is_Exception e then (Ok tt, add_log (LogClientError e) s')
      else (Raise e, s')
  | r => r
  end.

(** [handle_client] for one connection, with the read duty run to its end;
    the deliveries of the write duty are the steps of [duty_step]. *)
Definition handle_client (rd : list rd_event) (w : StreamWriter) : M client_ref :=
  client ← accept rd w;
  try_finally
    (handle_errors
       (joined ← handshake client;
        if joined : bool then serve client else mret tt))
    (_disconnect_client client);;
  mret client.

(** The deliveries of the write duties of the connected clients, one loop
    iteration at a time. *)
Inductive duty_step : relation AsyncChatServer :=
| step_broadcast s s' client :
    client ∈ clients s →
    _broadcast_room_messages client s = (Ok true, s') →
    duty_step s s'
| step_private s s' client :
    client ∈ clients s →
    _send_private_messages client s = (Ok true, s') →
    duty_step s s'.

(** ** Sequences of joins and leaves on one room *)

Inductive room_op := Join (client : client_ref) | Leave (client : client_ref).

Definition run_op (r : room_ref) (op : room_op) : M unit :=
  match op with
  | Join c => add_member r c
  | Leave c => remove_member r c
  end.

Fixpoint run_ops (r : room_ref) (ops : list room_op) : M unit :=
  match ops with
  | [] => mret tt
  | op :: ops' => run_op r op;; run_ops r ops'
  end.

Fixpoint joins (ops : list room_op) : nat :=
  match ops with
  | [] => 0
  | Join _ :: ops' => S (joins ops')
  | Leave _ :: ops' => joins ops'
  end.

Fixpoint leaves (ops : list room_op) : nat :=
  match ops with
  | [] => 0
  | Join _ :: ops' => leaves ops'
  | Leave _ :: ops' => S (leaves ops')
  end.

(** The sequences the server issues: a session is added when it is not a
    member and removed when it is one. *)
Fixpoint proper_ops (ms : gset client_ref) (ops : list room_op) : bool :=
  match ops with
  | [] => true
  | Join c :: ops' => bool_decide (c ∉ ms) && proper_ops (ms ∪ {[c]}) ops'
  | Leave c :: ops' => bool_decide (c ∈ ms) && proper_ops (ms ∖ {[c]}) ops'
  end.

(** ** Where a message is *)

Definition occurrences (m : message) (l : list message) : nat :=
  length (filter (λ x, x = m) l).

(** The copies of [m] a connection holds: handed to its writer or waiting
    in its private queue. *)
Definition held_by (m : message) (c : ClientConnection) : nat :=
  occurrences m (write_calls (writer c)) + occurrences m (private_queue c).

(** All the copies of [m] in the server: at the connections and in the
    queues of the rooms. *)
Definition copies (m : message) (s : AsyncChatServer) : nat :=
  sum_list_with (held_by m) (client_objs s)
  + sum_list_with (λ r, occurrences m (message_queue r)) (room_objs s).

(** The data handed to the writer of a connection. *)
Definition sent_to (s : AsyncChatServer) (client : client_ref) : list message :=
  write_calls (writer (client_of s client)).

(** ** A concrete server and its clients *)

Module Scenario.

Definition nl : string := String "010" "".

Definition t0 : datetime :=
  {| year := 2024; month := 3; day := 9; hour := 7; minute := 5; second := 0 |}.

Definition program_dir : list string := ["srv"; "chat"].

Definition fs0 : filesystem :=
  <[["srv"; "chat"; "notes.txt"] := File [Byte.x68; Byte.x69]]>
    (<[["srv"; "chat"] := Dir]> (<[["srv"] := Dir]> (<[[] := Dir]> ∅))).

Definition server0 : AsyncChatServer :=
  {| rooms := ∅; clients := ∅; uploads_dir := program_dir ++ ["uploaded_files"];
     room_objs := []; client_objs := [];
     fs := <[["srv"; "chat"; "uploaded_files"] := Dir]> fs0;
     cwd := program_dir; now := t0; log := [] |}.

Definition w0 : StreamWriter :=
  {| write_calls := []; broken := false; closed := false |}.

Definition state_of {A} (r : outcome A * AsyncChatServer) : AsyncChatServer := r.2.

(** A connection is accepted and answers the two requests. *)
Definition join (user room : string) (rest : list rd_event) : M bool :=
  client ← accept (Data (user +:+ nl) :: Data (room +:+ nl) :: rest) w0;
  handshake client.

(** Alice (connection 0) and then Bob (connection 1) join "lobby";
    Alice's line "hello everyone" is read and posted. *)
Definition two_members : AsyncChatServer :=
  state_of ((join "Alice" "lobby" [Data ("hello everyone" +:+ nl)];;
             join "Bob" "lobby" [];;
             _receive_from_client 1 0) server0).

Definition hello : message :=
  [("type", Some "message"); ("sender", Some "Alice");
   ("content", Some "hello everyone"); ("time", Some "2024-03-09 07:05:00")].

(** Alice joins alone; her notice is still in the queue when Bob joins. *)
Definition late_joiner : AsyncChatServer :=
  state_of ((join "Alice" "lobby" [];; join "Bob" "lobby" []) server0).

Definition alice_joined : message :=
  [("type", Some "system"); ("content", Some "Alice joined the room");
   ("time", Some "2024-03-09 07:05:00")].

(** A connection whose writer fails. *)
Definition broken_writer : AsyncChatServer :=
  state_of (accept [] {| write_calls := []; broken := true; closed := false |} server0).

(** Alice alone in "lobby", nothing read yet after the handshake. *)
Definition alice_in_lobby (rest : list rd_event) : AsyncChatServer :=
  state_of (join "Alice" "lobby" rest server0).

(** The same, with a directory in the way of the copy of notes.txt. *)
Definition blocked_uploads : AsyncChatServer :=
  set_fs (<[["srv"; "chat"; "uploaded_files"; "notes.txt"] := Dir]>)
    (alice_in_lobby []).

(** The same, after notes.txt was uploaded once. *)
Definition uploaded_once : AsyncChatServer :=
  state_of (_upload_file 0 "notes.txt" (alice_in_lobby [])).

(** A connection and a new room, before anyone joined it. *)
Definition empty_room : AsyncChatServer :=
  state_of ((accept [] w0;; ChatRoom_init "lobby") server0).

End Scenario.

(** ** The states the operations lead to

    The coroutines above are functions of the state; the definitions below
    name the states they produce, so that statements can refer to them. *)

(** After [send_message]: the data is handed to the writer, and a failing
    writer leaves a record in the log. *)
Definition send_message_state (c : client_ref) (m : message) (s : AsyncChatServer) :=
  let s1 := upd_client c (set_writer (set_write_calls (λ l, l ++ [m]))) s in
  let w := writer (client_of s1 c) in
  if broken w || closed w
  then add_log (LogSendError (username (client_of s1 c)) ConnectionError) s1
  else s1.

(** After [receive_message] took an event: the events left are [rest]. *)
Definition take_event (c : client_ref) (rest : list rd_event) :=
  upd_client c (set_reader (λ _, rest)).

Definition join_notice (s : AsyncChatServer) (c : client_ref) : message :=
  [("type", Some "system");
   ("content", Some (fmt (username (client_of s c)) +:+ " joined the room"));
   ("time", Some (strftime (now s)))].

Definition leave_notice (s : AsyncChatServer) (c : client_ref) : message :=
  [("type", Some "system");
   ("content", Some (fmt (username (client_of s c)) +:+ " left the room"));
   ("time", Some (strftime (now s)))].

Definition room_message (s : AsyncChatServer) (c : client_ref) (content : string)
  : message :=
  [("type", Some "message"); ("sender", username (client_of s c));
   ("content", Some content); ("time", Some (strftime (now s)))].

Definition add_member_state (r : room_ref) (c : client_ref) (s : AsyncChatServer) :=
  upd_room r (set_message_queue (λ q, q ++ [join_notice s c]))
    (upd_room r (set_members (λ ms, ms ∪ {[c]})) s).

Definition remove_member_state (r : room_ref) (c : client_ref) (s : AsyncChatServer) :=
  upd_room r (set_message_queue (λ q, q ++ [leave_notice s c]))
    (upd_room r (set_members (λ ms, ms ∖ {[c]})) s).

(** What [_disconnect_client] does before the writer is closed, and
    whether it gets that far. *)
Definition disconnect_room (c : client_ref) (s : AsyncChatServer)
  : outcome unit * AsyncChatServer :=
  let s0 := set_clients (λ cs, cs ∖ {[c]}) s in
  match current_room (client_of s c) with
  | Some r =>
      let s1 := remove_member_state r c s0 in
      if size (members (room_of s1 r)) =? 0 then
        let nm := name (room_of s1 r) in
        match rooms s !! nm with
        | Some _ => (Ok tt, set_rooms (delete nm) s1)
        | None => (Raise (KeyError nm), s1)
        end
      else (Ok tt, s1)
  | None => (Ok tt, s0)
  end.

(** Whether [_disconnect_client] ends in the [KeyError] of
    [del self.rooms[...]]. *)
Definition disconnect_fails (c : client_ref) (s : AsyncChatServer) : bool :=
  match current_room (client_of s c) with
  | Some r =>
      (size (members (room_of s r) ∖ {[c]}) =? 0)
      && bool_decide (rooms s !! name (room_of s r) = None)
  | None => false
  end.

Definition request_name : message :=
  [("type", Some "request"); ("message", Some "Enter your username:")].
Definition request_room : message :=
  [("type", Some "request"); ("message", Some "Enter room name:")].
Definition welcome (room_name : string) : message :=
  [("type", Some "success");
   ("message", Some ("Welcome to room '" +:+ room_name
                     +:+ "'! (Type /help for commands)"))].
Definition file_prompt : message :=
  [("type", Some "system"); ("content", Some "Send file path to upload")].

(** After [accept]. *)
Definition accepted_state (rd : list rd_event) (w : StreamWriter) (s : AsyncChatServer) :=
  set_clients (λ cs, cs ∪ {[length (client_objs s)]})
    (set_client_objs
       (λ l, l ++ [{| reader := rd; writer := w; username := None;
                      current_room := None; private_queue := [] |}]) s).

(** In [handshake]: the name was asked for and the answer taken. *)
Definition named_state (c : client_ref) (pending : list rd_event) (s : AsyncChatServer) :=
  take_event c pending (send_message_state c request_name s).

(** In [handshake]: the room was asked for and the answer taken. *)
Definition asked_room_state (c : client_ref) (u : string) (pending rest : list rd_event)
    (s : AsyncChatServer) :=
  take_event c rest
    (send_message_state c request_room
       (upd_client c (set_username (Some u)) (named_state c pending s))).

(** The room of that name, created and registered when there is none. *)
Definition room_for (nm : string) (s : AsyncChatServer) : room_ref * AsyncChatServer :=
  match rooms s !! nm with
  | Some r => (r, s)
  | None =>
      (length (room_objs s),
       set_rooms (<[nm := length (room_objs s)]>)
         (set_room_objs
            (λ l, l ++ [{| name := nm; members := ∅; message_queue := [] |}]) s))
  end.

(** After a [handshake] that joined: the name is [u], the room [nm]. *)
Definition joined_state (c : client_ref) (u nm : string) (pending rest : list rd_event)
    (s : AsyncChatServer) :=
  let rs := room_for nm (asked_room_state c u pending rest s) in
  send_message_state c (welcome nm)
    (add_member_state rs.1 c (upd_client c (set_current_room (Some rs.1)) rs.2)).

(** The room a session that asks for [nm] is put in. *)
Definition joined_room (nm : string) (s : AsyncChatServer) : room_ref :=
  default (length (room_objs s)) (rooms s !! nm).

(** The registry names rooms that exist, by their own name. *)
Definition registry_ok (s : AsyncChatServer) : Prop :=
  ∀ nm r, rooms s !! nm = Some r →
          r < length (room_objs s) ∧ name (room_of s r) = nm.

(** A line of whitespace only: data is there, and nothing is left of it
    after [strip]. *)
Definition blank_line (d : string) : Prop :=
  PyStr.is_empty d = false ∧ PyStr.strip d = "".

(** Some member of the room is named [u]. *)
Definition has_member_named (s : AsyncChatServer) (r : room_ref) (u : string) : Prop :=
  ∃ m, m ∈ members (room_of s r) ∧ username (client_of s m) = Some u.

#[global] Arguments send_message_state : simpl never.
#[global] Arguments accepted_state : simpl never.
#[global] Arguments named_state : simpl never.
#[global] Arguments asked_room_state : simpl never.
#[global] Arguments joined_state : simpl never.

(** In [_upload_file]: the absolute path the text names, and the path the
    copy is written to. *)
Definition upload_path (s : AsyncChatServer) (file_path : string) : list string :=
  let p := Path (PyStr.strip file_path) in
  if anchored p then parts p else cwd s ++ parts p.

Definition upload_dest (s : AsyncChatServer) (file_path : string) : list string :=
  path_join (uploads_dir s) (path_name (upload_path s file_path)).

Definition upload_error (text : string) : message :=
  [("type", Some "error"); ("content", Some text)].

Definition upload_confirmation (file_name : string) (size : nat) : message :=
  [("type", Some "system");
   ("content", Some ("File " +:+ file_name +:+ " uploaded successfully ("
                     +:+ PyStr.str_of_nat size +:+ " bytes)"))].

Definition upload_notice (user : option string) (file_name : string) : message :=
  [("type", Some "system");
   ("content", Some (fmt user +:+ " uploaded file: " +:+ file_name))].

(** After an upload that copied [content] to the location [dest]. *)
Definition uploaded_state (c : client_ref) (file_name : string) (dest : list string)
    (content : list Byte.byte) (s : AsyncChatServer) :=
  let s2 := send_message_state c (upload_confirmation file_name (length content))
              (set_fs (λ f, <[dest := File content]> f) s) in
  match current_room (client_of s c) with
  | Some r =>
      upd_room r (set_message_queue
                    (λ q, q ++ [upload_notice (username (client_of s c)) file_name])) s2
  | None => s2
  end.

Definition user_not_found (to_username : string) : message :=
  [("type", Some "error"); ("content", Some ("User " +:+ to_username +:+ " not found"))].

(** The slash commands that [_handle_command] knows. *)
Definition commands : list string := ["/help"; "/list"; "/private"; "/file"; "/quit"].

#[global] Arguments uploaded_state : simpl never.

(** ** What the duties of a session leave alone *)

(** The registry, the sessions, the names and members of the rooms, and
    who and where each connection is are in [s'] what they are in [s];
    no connection has more left to read. *)
Definition same_sessions (s s' : AsyncChatServer) : Prop :=
  rooms s' = rooms s
  ∧ clients s' = clients s
  ∧ uploads_dir s' = uploads_dir s
  ∧ cwd s' = cwd s
  ∧ now s' = now s
  ∧ length (room_objs s') = length (room_objs s)
  ∧ length (client_objs s') = length (client_objs s)
  ∧ (∀ r, name (room_of s' r) = name (room_of s r))
  ∧ (∀ r, members (room_of s' r) = members (room_of s r))
  ∧ (∀ c, username (client_of s' c) = username (client_of s c))
  ∧ (∀ c, current_room (client_of s' c) = current_room (client_of s c))
  ∧ (∀ c, broken (writer (client_of s' c)) = broken (writer (client_of s c)))
  ∧ (∀ c, closed (writer (client_of s' c)) = closed (writer (client_of s c)))
  ∧ (∀ c, length (reader (client_of s' c)) ≤ length (reader (client_of s c))).

(** A line that the read loop posts to the room: something is left of it
    after [strip], and that does not start with a slash. *)
Definition plain_line (d : string) : bool :=
  negb (PyStr.is_empty (PyStr.strip d))
  && negb (PyStr.startswith_slash (PyStr.strip d)).

(** The [while True:] of a delivery loop around its iteration: the loop
    goes on for as long as an iteration runs, and is left where the
    iteration breaks or [get] would wait; at most [fuel] iterations. *)
Fixpoint deliver (fuel : nat) (iteration : M bool) : M unit :=
  match fuel with
  | O => raise NoFuel
  | S fuel' =>
      again ← iteration;
      if again : bool then deliver fuel' iteration else mret tt
  end.

(** In [/list]: the names of the members, in the order the set is
    visited, and the reply. *)
Definition member_names (s : AsyncChatServer) (r : room_ref) : list (option string) :=
  (λ m, username (client_of s m)) <$> elements (members (room_of s r)).

Definition list_reply (names : list string) : message :=
  [("type", Some "system");
   ("content", Some ("Room members: " +:+ PyStr.join ", " names))].

(** In [/private]: the confirmation to the sender. *)
Definition private_sent (to_username : string) : message :=
  [("type", Some "system");
   ("content", Some ("Private message sent to " +:+ to_username))].

(** Lines 246-253: what the read loop does with a line that is not empty. *)
Definition handle_line (client : client_ref) (message : string) : M unit :=
  if PyStr.startswith_slash message then _handle_command client message
  else
    room ← gets (λ s, current_room (client_of s client));
    match room with
    | Some r => post_message r client message
    | None => mret tt
    end.

(** The rooms, their queues included, the registry and the set of clients
    are in [s'] what they are in [s], and every connection is in the room
    it was in, with its writer open or closed as it was, and has a name
    when it had one. *)
Definition same_rooms (s s' : AsyncChatServer) : Prop :=
  rooms s' = rooms s
  ∧ room_objs s' = room_objs s
  ∧ clients s' = clients s
  ∧ length (client_objs s') = length (client_objs s)
  ∧ (∀ c, current_room (client_of s' c) = current_room (client_of s c))
  ∧ (∀ c, closed (writer (client_of s' c)) = closed (writer (client_of s c)))
  ∧ (∀ c, is_Some (username (client_of s c)) → is_Some (username (client_of s' c))).

(** Every member of a room is a connection that has a name. *)
Definition members_named (s : AsyncChatServer) : Prop :=
  ∀ r c, c ∈ members (room_of s r) → is_Some (username (client_of s c)).

(** * Properties *)

(** ** The string functions at work *)

Example strip_line : PyStr.strip ("  Alice " +:+ String "010" "") = "Alice".
Proof. reflexivity. Qed.

Example split_private :
  PyStr.split_maxsplit1 "/private @Bob  hi there " = ["/private"; "@Bob  hi there "].
Proof. reflexivity. Qed.

Example split_bare : PyStr.split_maxsplit1 "/file   " = ["/file"].
Proof. reflexivity. Qed.

Example split_path : PyStr.split_slash "/a//b" = [""; "a"; ""; "b"].
Proof. reflexivity. Qed.

Example strftime_ex :
  strftime {| year := 2024; month := 3; day := 9;
              hour := 7; minute := 5; second := 0 |} = "2024-03-09 07:05:00".
Proof. reflexivity. Qed.

Example server_init :
  AsyncChatServer_init Scenario.program_dir Scenario.fs0 Scenario.program_dir Scenario.t0
  = inr Scenario.server0.
Proof. vm_compute. reflexivity. Qed.

(** ** The object stores *)

Ltac munfold :=
  unfold mbind, M_bind, mret, M_ret, gets, modify, raise, try_except,
    timestamp, queue_put in *.

Section Store.
Implicit Types (s : AsyncChatServer) (c : client_ref) (r : room_ref).

Lemma client_of_upd_client s c c' f :
  client_of (upd_client c f s) c' =
    if decide (c = c' ∧ c < length (client_objs s)) then f (client_of s c)
    else client_of s c'.
Proof. simpl. apply list_lookup_total_alter. Qed.

Lemma client_of_upd_client_eq s c f :
  c < length (client_objs s) → client_of (upd_client c f s) c = f (client_of s c).
Proof. intros. simpl. by apply list_lookup_total_alter_eq. Qed.

Lemma client_of_upd_client_ne s c c' f :
  c ≠ c' → client_of (upd_client c f s) c' = client_of s c'.
Proof. intros. simpl. by apply list_lookup_total_alter_ne. Qed.

Lemma room_of_upd_room s r r' f :
  room_of (upd_room r f s) r' =
    if decide (r = r' ∧ r < length (room_objs s)) then f (room_of s r)
    else room_of s r'.
Proof. simpl. apply list_lookup_total_alter. Qed.

Lemma client_of_invalid s c :
  length (client_objs s) ≤ c → client_of s c = inhabitant.
Proof. intros H. rewrite list_lookup_total_alt. by rewrite lookup_ge_None_2. Qed.

Lemma room_of_invalid s r :
  length (room_objs s) ≤ r → room_of s r = inhabitant.
Proof. intros H. rewrite list_lookup_total_alt. by rewrite lookup_ge_None_2. Qed.

Lemma client_valid s c : client_of s c ≠ inhabitant → c < length (client_objs s).
Proof.
  intros H. destruct (decide (c < length (client_objs s))); [done |].
  exfalso. apply H, client_of_invalid. lia.
Qed.

Lemma reader_valid s c e rest :
  reader (client_of s c) = e :: rest → c < length (client_objs s).
Proof. intros H. apply client_valid. intros E. by rewrite E in H. Qed.

Lemma username_valid s c u :
  username (client_of s c) = Some u → c < length (client_objs s).
Proof. intros H. apply client_valid. intros E. by rewrite E in H. Qed.

Lemma current_room_valid s c r :
  current_room (client_of s c) = Some r → c < length (client_objs s).
Proof. intros H. apply client_valid. intros E. by rewrite E in H. Qed.

End Store.

Lemma not_elem_of_remove (x : nat) (X : gset nat) : x ∉ X ∖ {[x]}.
Proof. set_solver. Qed.

Lemma remove_remove (x : nat) (X : gset nat) : X ∖ {[x]} ∖ {[x]} = X ∖ {[x]}.
Proof. set_solver. Qed.

Lemma not_elem_of_add_remove (x : nat) (X : gset nat) : x ∉ (X ∪ {[x]}) ∖ {[x]}.
Proof. set_solver. Qed.

(** ** Projections of an updated state *)

Section Projections.
Variable s : AsyncChatServer.

Lemma rooms_upd_client (c : client_ref) (f : ClientConnection → ClientConnection) :
  rooms (upd_client c f s) = rooms s.
Proof. reflexivity. Qed.
Lemma clients_upd_client (c : client_ref) (f : ClientConnection → ClientConnection) :
  clients (upd_client c f s) = clients s.
Proof. reflexivity. Qed.
Lemma uploads_dir_upd_client (c : client_ref) (f : ClientConnection → ClientConnection) :
  uploads_dir (upd_client c f s) = uploads_dir s.
Proof. reflexivity. Qed.
Lemma room_objs_upd_client (c : client_ref) (f : ClientConnection → ClientConnection) :
  room_objs (upd_client c f s) = room_objs s.
Proof. reflexivity. Qed.
Lemma client_objs_upd_client (c : client_ref) (f : ClientConnection → ClientConnection) :
  client_objs (upd_client c f s) = alter f c (client_objs s).
Proof. reflexivity. Qed.
Lemma fs_upd_client (c : client_ref) (f : ClientConnection → ClientConnection) :
  fs (upd_client c f s) = fs s.
Proof. reflexivity. Qed.
Lemma cwd_upd_client (c : client_ref) (f : ClientConnection → ClientConnection) :
  cwd (upd_client c f s) = cwd s.
Proof. reflexivity. Qed.
Lemma now_upd_client (c : client_ref) (f : ClientConnection → ClientConnection) :
  now (upd_client c f s) = now s.
Proof. reflexivity. Qed.
Lemma log_upd_client (c : client_ref) (f : ClientConnection → ClientConnection) :
  log (upd_client c f s) = log s.
Proof. reflexivity. Qed.
Lemma rooms_upd_room (r : room_ref) (f : ChatRoom → ChatRoom) :
  rooms (upd_room r f s) = rooms s.
Proof. reflexivity. Qed.
Lemma clients_upd_room (r : room_ref) (f : ChatRoom → ChatRoom) :
  clients (upd_room r f s) = clients s.
Proof. reflexivity. Qed.
Lemma uploads_dir_upd_room (r : room_ref) (f : ChatRoom → ChatRoom) :
  uploads_dir (upd_room r f s) = uploads_dir s.
Proof. reflexivity. Qed.
Lemma room_objs_upd_room (r : room_ref) (f : ChatRoom → ChatRoom) :
  room_objs (upd_room r f s) = alter f r (room_objs s).
Proof. reflexivity. Qed.
Lemma client_objs_upd_room (r : room_ref) (f : ChatRoom → ChatRoom) :
  client_objs (upd_room r f s) = client_objs s.
Proof. reflexivity. Qed.
Lemma fs_upd_room (r : room_ref) (f : ChatRoom → ChatRoom) :
  fs (upd_room r f s) = fs s.
Proof. reflexivity. Qed.
Lemma cwd_upd_room (r : room_ref) (f : ChatRoom → ChatRoom) :
  cwd (upd_room r f s) = cwd s.
Proof. reflexivity. Qed.
Lemma now_upd_room (r : room_ref) (f : ChatRoom → ChatRoom) :
  now (upd_room r f s) = now s.
Proof. reflexivity. Qed.
Lemma log_upd_room (r : room_ref) (f : ChatRoom → ChatRoom) :
  log (upd_room r f s) = log s.
Proof. reflexivity. Qed.
Lemma rooms_set_rooms (f : gmap string room_ref → gmap string room_ref) :
  rooms (set_rooms f s) = f (rooms s).
Proof. reflexivity. Qed.
Lemma clients_set_rooms (f : gmap string room_ref → gmap string room_ref) :
  clients (set_rooms f s) = clients s.
Proof. reflexivity. Qed.
Lemma uploads_dir_set_rooms (f : gmap string room_ref → gmap string room_ref) :
  uploads_dir (set_rooms f s) = uploads_dir s.
Proof. reflexivity. Qed.
Lemma room_objs_set_rooms (f : gmap string room_ref → gmap string room_ref) :
  room_objs (set_rooms f s) = room_objs s.
Proof. reflexivity. Qed.
Lemma client_objs_set_rooms (f : gmap string room_ref → gmap string room_ref) :
  client_objs (set_rooms f s) = client_objs s.
Proof. reflexivity. Qed.
Lemma fs_set_rooms (f : gmap string room_ref → gmap string room_ref) :
  fs (set_rooms f s) = fs s.
Proof. reflexivity. Qed.
Lemma cwd_set_rooms (f : gmap string room_ref → gmap string room_ref) :
  cwd (set_rooms f s) = cwd s.
Proof. reflexivity. Qed.
Lemma now_set_rooms (f : gmap string room_ref → gmap string room_ref) :
  now (set_rooms f s) = now s.
Proof. reflexivity. Qed.
Lemma log_set_rooms (f : gmap string room_ref → gmap string room_ref) :
  log (set_rooms f s) = log s.
Proof. reflexivity. Qed.
Lemma rooms_set_clients (f : gset client_ref → gset client_ref) :
  rooms (set_clients f s) = rooms s.
Proof. reflexivity. Qed.
Lemma clients_set_clients (f : gset client_ref → gset client_ref) :
  clients (set_clients f s) = f (clients s).
Proof. reflexivity. Qed.
Lemma uploads_dir_set_clients (f : gset client_ref → gset client_ref) :
  uploads_dir (set_clients f s) = uploads_dir s.
Proof. reflexivity. Qed.
Lemma room_objs_set_clients (f : gset client_ref → gset client_ref) :
  room_objs (set_clients f s) = room_objs s.
Proof. reflexivity. Qed.
Lemma client_objs_set_clients (f : gset client_ref → gset client_ref) :
  client_objs (set_clients f s) = client_objs s.
Proof. reflexivity. Qed.
Lemma fs_set_clients (f : gset client_ref → gset client_ref) :
  fs (set_clients f s) = fs s.
Proof. reflexivity. Qed.
Lemma cwd_set_clients (f : gset client_ref → gset client_ref) :
  cwd (set_clients f s) = cwd s.
Proof. reflexivity. Qed.
Lemma now_set_clients (f : gset client_ref → gset client_ref) :
  now (set_clients f s) = now s.
Proof. reflexivity. Qed.
Lemma log_set_clients (f : gset client_ref → gset client_ref) :
  log (set_clients f s) = log s.
Proof. reflexivity. Qed.
Lemma rooms_set_room_objs (f : list ChatRoom → list ChatRoom) :
  rooms (set_room_objs f s) = rooms s.
Proof. reflexivity. Qed.
Lemma clients_set_room_objs (f : list ChatRoom → list ChatRoom) :
  clients (set_room_objs f s) = clients s.
Proof. reflexivity. Qed.
Lemma uploads_dir_set_room_objs (f : list ChatRoom → list ChatRoom) :
  uploads_dir (set_room_objs f s) = uploads_dir s.
Proof. reflexivity. Qed.
Lemma room_objs_set_room_objs (f : list ChatRoom → list ChatRoom) :
  room_objs (set_room_objs f s) = f (room_objs s).
Proof. reflexivity. Qed.
Lemma client_objs_set_room_objs (f : list ChatRoom → list ChatRoom) :
  client_objs (set_room_objs f s) = client_objs s.
Proof. reflexivity. Qed.
Lemma fs_set_room_objs (f : list ChatRoom → list ChatRoom) :
  fs (set_room_objs f s) = fs s.
Proof. reflexivity. Qed.
Lemma cwd_set_room_objs (f : list ChatRoom → list ChatRoom) :
  cwd (set_room_objs f s) = cwd s.
Proof. reflexivity. Qed.
Lemma now_set_room_objs (f : list ChatRoom → list ChatRoom) :
  now (set_room_objs f s) = now s.
Proof. reflexivity. Qed.
Lemma log_set_room_objs (f : list ChatRoom → list ChatRoom) :
  log (set_room_objs f s) = log s.
Proof. reflexivity. Qed.
Lemma rooms_set_client_objs (f : list ClientConnection → list ClientConnection) :
  rooms (set_client_objs f s) = rooms s.
Proof. reflexivity. Qed.
Lemma clients_set_client_objs (f : list ClientConnection → list ClientConnection) :
  clients (set_client_objs f s) = clients s.
Proof. reflexivity. Qed.
Lemma uploads_dir_set_client_objs (f : list ClientConnection → list ClientConnection) :
  uploads_dir (set_client_objs f s) = uploads_dir s.
Proof. reflexivity. Qed.
Lemma room_objs_set_client_objs (f : list ClientConnection → list ClientConnection) :
  room_objs (set_client_objs f s) = room_objs s.
Proof. reflexivity. Qed.
Lemma client_objs_set_client_objs (f : list ClientConnection → list ClientConnection) :
  client_objs (set_client_objs f s) = f (client_objs s).
Proof. reflexivity. Qed.
Lemma fs_set_client_objs (f : list ClientConnection → list ClientConnection) :
  fs (set_client_objs f s) = fs s.
Proof. reflexivity. Qed.
Lemma cwd_set_client_objs (f : list ClientConnection → list ClientConnection) :
  cwd (set_client_objs f s) = cwd s.
Proof. reflexivity. Qed.
Lemma now_set_client_objs (f : list ClientConnection → list ClientConnection) :
  now (set_client_objs f s) = now s.
Proof. reflexivity. Qed.
Lemma log_set_client_objs (f : list ClientConnection → list ClientConnection) :
  log (set_client_objs f s) = log s.
Proof. reflexivity. Qed.
Lemma rooms_set_fs (f : filesystem → filesystem) :
  rooms (set_fs f s) = rooms s.
Proof. reflexivity. Qed.
Lemma clients_set_fs (f : filesystem → filesystem) :
  clients (set_fs f s) = clients s.
Proof. reflexivity. Qed.
Lemma uploads_dir_set_fs (f : filesystem → filesystem) :
  uploads_dir (set_fs f s) = uploads_dir s.
Proof. reflexivity. Qed.
Lemma room_objs_set_fs (f : filesystem → filesystem) :
  room_objs (set_fs f s) = room_objs s.
Proof. reflexivity. Qed.
Lemma client_objs_set_fs (f : filesystem → filesystem) :
  client_objs (set_fs f s) = client_objs s.
Proof. reflexivity. Qed.
Lemma fs_set_fs (f : filesystem → filesystem) :
  fs (set_fs f s) = f (fs s).
Proof. reflexivity. Qed.
Lemma cwd_set_fs (f : filesystem → filesystem) :
  cwd (set_fs f s) = cwd s.
Proof. reflexivity. Qed.
Lemma now_set_fs (f : filesystem → filesystem) :
  now (set_fs f s) = now s.
Proof. reflexivity. Qed.
Lemma log_set_fs (f : filesystem → filesystem) :
  log (set_fs f s) = log s.
Proof. reflexivity. Qed.
Lemma rooms_add_log (l : log_record) :
  rooms (add_log l s) = rooms s.
Proof. reflexivity. Qed.
Lemma clients_add_log (l : log_record) :
  clients (add_log l s) = clients s.
Proof. reflexivity. Qed.
Lemma uploads_dir_add_log (l : log_record) :
  uploads_dir (add_log l s) = uploads_dir s.
Proof. reflexivity. Qed.
Lemma room_objs_add_log (l : log_record) :
  room_objs (add_log l s) = room_objs s.
Proof. reflexivity. Qed.
Lemma client_objs_add_log (l : log_record) :
  client_objs (add_log l s) = client_objs s.
Proof. reflexivity. Qed.
Lemma fs_add_log (l : log_record) :
  fs (add_log l s) = fs s.
Proof. reflexivity. Qed.
Lemma cwd_add_log (l : log_record) :
  cwd (add_log l s) = cwd s.
Proof. reflexivity. Qed.
Lemma now_add_log (l : log_record) :
  now (add_log l s) = now s.
Proof. reflexivity. Qed.
Lemma log_add_log (l : log_record) :
  log (add_log l s) = log s ++ [l].
Proof. reflexivity. Qed.

End Projections.

Create Rewrite HintDb store.
#[global] Hint Rewrite rooms_upd_client clients_upd_client
  uploads_dir_upd_client room_objs_upd_client client_objs_upd_client
  fs_upd_client cwd_upd_client now_upd_client log_upd_client rooms_upd_room
  clients_upd_room uploads_dir_upd_room room_objs_upd_room
  client_objs_upd_room fs_upd_room cwd_upd_room now_upd_room log_upd_room
  rooms_set_rooms clients_set_rooms uploads_dir_set_rooms room_objs_set_rooms
  client_objs_set_rooms fs_set_rooms cwd_set_rooms now_set_rooms log_set_rooms
  rooms_set_clients clients_set_clients uploads_dir_set_clients
  room_objs_set_clients client_objs_set_clients fs_set_clients cwd_set_clients
  now_set_clients log_set_clients rooms_set_room_objs clients_set_room_objs
  uploads_dir_set_room_objs room_objs_set_room_objs client_objs_set_room_objs
  fs_set_room_objs cwd_set_room_objs now_set_room_objs log_set_room_objs
  rooms_set_client_objs clients_set_client_objs uploads_dir_set_client_objs
  room_objs_set_client_objs client_objs_set_client_objs fs_set_client_objs
  cwd_set_client_objs now_set_client_objs log_set_client_objs rooms_set_fs
  clients_set_fs uploads_dir_set_fs room_objs_set_fs client_objs_set_fs
  fs_set_fs cwd_set_fs now_set_fs log_set_fs rooms_add_log clients_add_log
  uploads_dir_add_log room_objs_add_log client_objs_add_log fs_add_log
  cwd_add_log now_add_log log_add_log : store.

(** ** Fields that an update leaves alone *)

Section Frames.
Context {A B : Type} `{!Inhabited A}.

Lemma field_alter (g : A → B) (f : A → A) (i j : nat) (l : list A) :
  (∀ x, g (f x) = g x) → g (alter f i l !!! j) = g (l !!! j).
Proof.
  intros H. rewrite list_lookup_total_alter. case_decide as E; [| done].
  destruct E as [-> _]. apply H.
Qed.

End Frames.

Section FieldFrames.
Context {A : Type} (i j : nat).

Lemma reader_alter f (l : list ClientConnection) :
  (∀ x, reader (f x) = reader x) → reader (alter f i l !!! j) = reader (l !!! j).
Proof. apply field_alter. Qed.
Lemma writer_alter f (l : list ClientConnection) :
  (∀ x, writer (f x) = writer x) → writer (alter f i l !!! j) = writer (l !!! j).
Proof. apply field_alter. Qed.
Lemma username_alter f (l : list ClientConnection) :
  (∀ x, username (f x) = username x) →
  username (alter f i l !!! j) = username (l !!! j).
Proof. apply field_alter. Qed.
Lemma current_room_alter f (l : list ClientConnection) :
  (∀ x, current_room (f x) = current_room x) →
  current_room (alter f i l !!! j) = current_room (l !!! j).
Proof. apply field_alter. Qed.
Lemma private_queue_alter f (l : list ClientConnection) :
  (∀ x, private_queue (f x) = private_queue x) →
  private_queue (alter f i l !!! j) = private_queue (l !!! j).
Proof. apply field_alter. Qed.
Lemma name_alter f (l : list ChatRoom) :
  (∀ x, name (f x) = name x) → name (alter f i l !!! j) = name (l !!! j).
Proof. apply field_alter. Qed.
Lemma members_alter f (l : list ChatRoom) :
  (∀ x, members (f x) = members x) →
  members (alter f i l !!! j) = members (l !!! j).
Proof. apply field_alter. Qed.
Lemma message_queue_alter f (l : list ChatRoom) :
  (∀ x, message_queue (f x) = message_queue x) →
  message_queue (alter f i l !!! j) = message_queue (l !!! j).
Proof. apply field_alter. Qed.

End FieldFrames.

#[global] Hint Rewrite @length_alter : store.
#[global] Hint Rewrite reader_alter writer_alter username_alter current_room_alter
  private_queue_alter name_alter members_alter message_queue_alter
  using (intros; reflexivity) : store.

Ltac store_cbn :=
  cbn [reader writer username current_room private_queue
       name members message_queue write_calls broken closed
       set_reader set_writer set_username set_current_room
       set_private_queue set_members set_message_queue set_write_calls
       set_closed fst snd].

Ltac store_simpl :=
  unfold take_event, add_member_state, remove_member_state in *;
  repeat (progress (autorewrite with store; store_cbn)).

(** ** [send_message] *)


Lemma send_message_eq c m s : send_message c m s = (Ok tt, send_message_state c m s).
Proof.
  unfold send_message, send_message_state, writer_write. munfold. simpl.
  destruct (broken _ || closed _); reflexivity.
Qed.

Section SendMessage.
Variables (c : client_ref) (m : message) (s : AsyncChatServer).

Lemma send_message_rooms : rooms (send_message_state c m s) = rooms s.
Proof. unfold send_message_state; simpl. by destruct (_ || _). Qed.
Lemma send_message_clients : clients (send_message_state c m s) = clients s.
Proof. unfold send_message_state; simpl. by destruct (_ || _). Qed.
Lemma send_message_room_objs : room_objs (send_message_state c m s) = room_objs s.
Proof. unfold send_message_state; simpl. by destruct (_ || _). Qed.
Lemma send_message_fs : fs (send_message_state c m s) = fs s.
Proof. unfold send_message_state; simpl. by destruct (_ || _). Qed.
Lemma send_message_cwd : cwd (send_message_state c m s) = cwd s.
Proof. unfold send_message_state; simpl. by destruct (_ || _). Qed.
Lemma send_message_now : now (send_message_state c m s) = now s.
Proof. unfold send_message_state; simpl. by destruct (_ || _). Qed.
Lemma send_message_uploads_dir :
  uploads_dir (send_message_state c m s) = uploads_dir s.
Proof. unfold send_message_state; simpl. by destruct (_ || _). Qed.
Lemma send_message_client_objs :
  client_objs (send_message_state c m s)
  = alter (set_writer (set_write_calls (λ l, l ++ [m]))) c (client_objs s).
Proof. unfold send_message_state; simpl. by destruct (_ || _). Qed.

Lemma send_message_length :
  length (client_objs (send_message_state c m s)) = length (client_objs s).
Proof. rewrite send_message_client_objs. apply length_alter. Qed.

Lemma send_message_client c' :
  client_of (send_message_state c m s) c' =
    if decide (c = c' ∧ c < length (client_objs s))
    then set_writer (set_write_calls (λ l, l ++ [m])) (client_of s c)
    else client_of s c'.
Proof. rewrite send_message_client_objs. apply list_lookup_total_alter. Qed.

Lemma send_message_reader c' :
  reader (client_of (send_message_state c m s) c') = reader (client_of s c').
Proof. rewrite send_message_client. by case_decide; destruct_and?; subst. Qed.
Lemma send_message_username c' :
  username (client_of (send_message_state c m s) c') = username (client_of s c').
Proof. rewrite send_message_client. by case_decide; destruct_and?; subst. Qed.
Lemma send_message_current_room c' :
  current_room (client_of (send_message_state c m s) c')
  = current_room (client_of s c').
Proof. rewrite send_message_client. by case_decide; destruct_and?; subst. Qed.
Lemma send_message_private_queue c' :
  private_queue (client_of (send_message_state c m s) c')
  = private_queue (client_of s c').
Proof. rewrite send_message_client. by case_decide; destruct_and?; subst. Qed.
Lemma send_message_broken c' :
  broken (writer (client_of (send_message_state c m s) c'))
  = broken (writer (client_of s c')).
Proof. rewrite send_message_client. by case_decide; destruct_and?; subst. Qed.
Lemma send_message_closed c' :
  closed (writer (client_of (send_message_state c m s) c'))
  = closed (writer (client_of s c')).
Proof. rewrite send_message_client. by case_decide; destruct_and?; subst. Qed.

Lemma send_message_sent_to :
  c < length (client_objs s) →
  sent_to (send_message_state c m s) c = sent_to s c ++ [m].
Proof.
  intros H. unfold sent_to. rewrite send_message_client.
  by rewrite decide_True.
Qed.

Lemma send_message_sent_to_ne c' :
  c ≠ c' → sent_to (send_message_state c m s) c' = sent_to s c'.
Proof.
  intros H. unfold sent_to. rewrite send_message_client.
  by rewrite decide_False by (intros [? _]; done).
Qed.

Lemma send_message_log :
  log (send_message_state c m s) =
    if broken (writer (client_of s c)) || closed (writer (client_of s c))
    then log s ++ [LogSendError (username (client_of s c)) ConnectionError]
    else log s.
Proof.
  unfold send_message_state.
  rewrite (client_of_upd_client s c c). case_decide as H.
  - simpl. by destruct (_ || _).
  - simpl. by destruct (_ || _).
Qed.

End SendMessage.


#[global] Hint Rewrite send_message_rooms send_message_clients send_message_room_objs
  send_message_fs send_message_cwd send_message_now send_message_uploads_dir
  send_message_length send_message_reader send_message_username
  send_message_current_room send_message_private_queue send_message_broken
  send_message_closed : store.

(** ** [_disconnect_client] *)



Lemma remove_member_eq r c s :
  remove_member r c s = (Ok tt, remove_member_state r c s).
Proof. reflexivity. Qed.

Lemma members_remove_member_state r c s r' :
  members (room_of (remove_member_state r c s) r') =
    if decide (r = r' ∧ r < length (room_objs s))
    then members (room_of s r) ∖ {[c]} else members (room_of s r').
Proof.
  unfold remove_member_state. simpl.
  rewrite !list_lookup_total_alter, length_alter.
  repeat case_decide; try done; destruct_and?; subst; tauto.
Qed.

Lemma name_remove_member_state r c s r' :
  name (room_of (remove_member_state r c s) r') = name (room_of s r').
Proof.
  unfold remove_member_state. simpl.
  rewrite !list_lookup_total_alter, length_alter.
  repeat case_decide; try done; destruct_and?; by subst.
Qed.


Lemma _disconnect_client_eq c s :
  _disconnect_client c s =
    match disconnect_room c s with
    | (Ok _, s') => (Ok tt, upd_client c (set_writer (set_closed true)) s')
    | (Raise e, s') => (Raise e, s')
    end.
Proof.
  unfold _disconnect_client, disconnect_room, remove_member, remove_member_state,
    leave_notice.
  munfold. simpl.
  destruct (current_room (client_of s c)) as [r|]; [| done].
  destruct (size _ =? 0); simpl; [| reflexivity].
  destruct (rooms s !! _); reflexivity.
Qed.

Section Disconnect.
Variables (c : client_ref) (s : AsyncChatServer).

Let after := (_disconnect_client c s).2.


Lemma members_after_removal r :
  members (room_of (remove_member_state r c (set_clients (λ cs, cs ∖ {[c]}) s)) r)
  = members (room_of s r) ∖ {[c]}.
Proof.
  rewrite members_remove_member_state. simpl.
  case_decide as H; [done |].
  rewrite room_of_invalid by (apply not_and_l in H as [|]; [done | lia]).
  simpl. set_solver.
Qed.

Lemma disconnect_outcome :
  (_disconnect_client c s).1 =
    if disconnect_fails c s
    then Raise (KeyError (name (room_of s (default 0 (current_room (client_of s c))))))
    else Ok tt.
Proof.
  rewrite _disconnect_client_eq. unfold disconnect_room, disconnect_fails.
  destruct (current_room (client_of s c)) as [r|]; [| done].
  rewrite members_after_removal, name_remove_member_state. simpl.
  destruct (size _ =? 0); [| done]. simpl.
  destruct (rooms s !! _); done.
Qed.

Lemma disconnect_clients : clients after = clients s ∖ {[c]}.
Proof.
  subst after. rewrite _disconnect_client_eq. unfold disconnect_room.
  destruct (current_room (client_of s c)) as [r|]; [| done].
  destruct (size _ =? 0); [| done].
  destruct (rooms s !! _); done.
Qed.

Lemma disconnect_room_objs_length : length (room_objs after) = length (room_objs s).
Proof.
  subst after. rewrite _disconnect_client_eq. unfold disconnect_room.
  destruct (current_room (client_of s c)) as [r|]; [| done].
  destruct (size _ =? 0); [| by simpl; rewrite !length_alter].
  destruct (rooms s !! _); by simpl; rewrite !length_alter.
Qed.

Lemma disconnect_client_objs :
  client_objs after =
    if disconnect_fails c s then client_objs s
    else alter (set_writer (set_closed true)) c (client_objs s).
Proof.
  subst after. rewrite _disconnect_client_eq. unfold disconnect_room, disconnect_fails.
  destruct (current_room (client_of s c)) as [r|]; [| done].
  rewrite members_after_removal, name_remove_member_state. simpl.
  destruct (size _ =? 0); [| done]. simpl.
  destruct (rooms s !! _); done.
Qed.

Lemma disconnect_current_room c' :
  current_room (client_of after c') = current_room (client_of s c').
Proof.
  rewrite disconnect_client_objs. destruct (disconnect_fails c s); [done |].
  rewrite list_lookup_total_alter. by case_decide; destruct_and?; subst.
Qed.

Lemma disconnect_closed c' :
  closed (writer (client_of after c')) =
    if negb (disconnect_fails c s) && bool_decide (c' = c ∧ c < length (client_objs s))
    then true else closed (writer (client_of s c')).
Proof.
  rewrite disconnect_client_objs. destruct (disconnect_fails c s); [done |]. simpl.
  rewrite list_lookup_total_alter.
  case_decide as H.
  - rewrite bool_decide_eq_true_2 by (destruct H; by subst). done.
  - rewrite bool_decide_eq_false_2 by (intros [-> ?]; by apply H). done.
Qed.

Lemma disconnect_length : length (client_objs after) = length (client_objs s).
Proof.
  rewrite disconnect_client_objs. destruct (disconnect_fails c s); [done |].
  apply length_alter.
Qed.

Lemma disconnect_name r' : name (room_of after r') = name (room_of s r').
Proof.
  subst after. rewrite _disconnect_client_eq. unfold disconnect_room.
  destruct (current_room (client_of s c)) as [r|]; [| done].
  destruct (size _ =? 0);
    [| exact (name_remove_member_state r c (set_clients (λ cs, cs ∖ {[c]}) s) r')].
  destruct (rooms s !! _);
    exact (name_remove_member_state r c (set_clients (λ cs, cs ∖ {[c]}) s) r').
Qed.

Lemma disconnect_members r' :
  members (room_of after r') =
    if decide (current_room (client_of s c) = Some r')
    then members (room_of s r') ∖ {[c]} else members (room_of s r').
Proof.
  assert (Hrm : ∀ r, members (room_of (remove_member_state r c
                        (set_clients (λ cs, cs ∖ {[c]}) s)) r') =
                     if decide (Some r = Some r')
                     then members (room_of s r') ∖ {[c]} else members (room_of s r')).
  { intros r. case_decide as Hr.
    - injection Hr as ->. apply members_after_removal.
    - rewrite members_remove_member_state. simpl.
      case_decide as H; [destruct H; congruence | done]. }
  subst after. rewrite _disconnect_client_eq. unfold disconnect_room.
  destruct (current_room (client_of s c)) as [r|]; [| by case_decide].
  destruct (size _ =? 0); [| apply Hrm].
  destruct (rooms s !! _); apply Hrm.
Qed.

Lemma disconnect_rooms :
  rooms after =
    match current_room (client_of s c) with
    | Some r =>
        if size (members (room_of s r) ∖ {[c]}) =? 0
        then delete (name (room_of s r)) (rooms s) else rooms s
    | None => rooms s
    end.
Proof.
  subst after. rewrite _disconnect_client_eq. unfold disconnect_room.
  destruct (current_room (client_of s c)) as [r|]; [| done].
  rewrite members_after_removal, name_remove_member_state. simpl.
  destruct (size _ =? 0); [| done].
  destruct (rooms s !! _) eqn:E; [done |].
  simpl. by rewrite delete_id.
Qed.

End Disconnect.

Lemma disconnect_fails_again c s :
  disconnect_fails c s = true → disconnect_fails c (_disconnect_client c s).2 = true.
Proof.
  unfold disconnect_fails at 1. intros H.
  unfold disconnect_fails.
  rewrite disconnect_current_room.
  destruct (current_room (client_of s c)) as [r|] eqn:Hr; [| done].
  apply andb_true_iff in H as [Hsz Hk]. apply bool_decide_eq_true in Hk.
  rewrite disconnect_members, decide_True by done.
  replace (members (room_of s r) ∖ {[c]} ∖ {[c]})
    with (members (room_of s r) ∖ {[c]}) by set_solver.
  rewrite Hsz. simpl. apply bool_decide_eq_true.
  rewrite disconnect_name, disconnect_rooms, Hr, Hsz.
  apply lookup_delete_eq.
Qed.




(** ** [receive_message] *)


Lemma receive_message_eof c s :
  reader (client_of s c) = [] → receive_message c s = (Ok None, s).
Proof.
  intros H. unfold receive_message, readline. munfold. by rewrite H.
Qed.

Lemma receive_message_data c s d rest :
  reader (client_of s c) = Data d :: rest →
  receive_message c s =
    (Ok (if PyStr.is_empty d then None else Some (PyStr.strip d)),
     take_event c rest s).
Proof.
  intros H. unfold receive_message, readline. munfold. rewrite H.
  by destruct (PyStr.is_empty d).
Qed.

Lemma receive_message_fault c s rest :
  reader (client_of s c) = ReadFault :: rest →
  receive_message c s =
    (Ok None, add_log (LogReceiveError (username (client_of s c))) (take_event c rest s)).
Proof.
  intros H. unfold receive_message, readline. munfold. rewrite H. simpl.
  by rewrite list_lookup_total_alter_eq by (by eapply reader_valid).
Qed.

Lemma strip_empty_is_empty d : PyStr.is_empty d = true → PyStr.strip d = "".
Proof. by destruct d. Qed.

(** What a caller tests: the line read is falsy exactly when its strip is
    empty. *)
Lemma truthy_received d :
  truthy (if PyStr.is_empty d then None else Some (PyStr.strip d))
  = negb (PyStr.is_empty (PyStr.strip d)).
Proof. destruct d; done. Qed.

Lemma reader_take_event c rest s :
  c < length (client_objs s) → reader (client_of (take_event c rest s) c) = rest.
Proof. intros H. unfold take_event. simpl. by rewrite list_lookup_total_alter_eq. Qed.

(** ** [add_member] *)



Lemma add_member_eq r c s : add_member r c s = (Ok tt, add_member_state r c s).
Proof. reflexivity. Qed.

Lemma members_add_member_state r c s r' :
  members (room_of (add_member_state r c s) r') =
    if decide (r = r' ∧ r < length (room_objs s))
    then members (room_of s r) ∪ {[c]} else members (room_of s r').
Proof.
  unfold add_member_state. simpl.
  rewrite !list_lookup_total_alter, length_alter.
  repeat case_decide; try done; destruct_and?; subst; tauto.
Qed.

Lemma message_queue_add_member_state r c s :
  r < length (room_objs s) →
  message_queue (room_of (add_member_state r c s) r)
  = message_queue (room_of s r) ++ [join_notice s c].
Proof.
  intros H. unfold add_member_state. simpl.
  rewrite !list_lookup_total_alter_eq by (by rewrite ?length_alter). done.
Qed.

Lemma message_queue_remove_member_state r c s :
  r < length (room_objs s) →
  message_queue (room_of (remove_member_state r c s) r)
  = message_queue (room_of s r) ++ [leave_notice s c].
Proof.
  intros H. unfold remove_member_state. simpl.
  rewrite !list_lookup_total_alter_eq by (by rewrite ?length_alter). done.
Qed.

Lemma length_add_member_state r c s :
  length (room_objs (add_member_state r c s)) = length (room_objs s).
Proof. unfold add_member_state. simpl. by rewrite !length_alter. Qed.

Lemma length_remove_member_state r c s :
  length (room_objs (remove_member_state r c s)) = length (room_objs s).
Proof. unfold remove_member_state. simpl. by rewrite !length_alter. Qed.



(** ** [handshake] *)







Lemma strip_nonempty d : PyStr.strip d ≠ "" → PyStr.is_empty d = false.
Proof. destruct d; [intros H; by destruct H | done]. Qed.

Lemma is_empty_false v : v ≠ "" → PyStr.is_empty v = false.
Proof. by destruct v. Qed.

Lemma is_empty_true v : v = "" → PyStr.is_empty v = true.
Proof. by intros ->. Qed.

Lemma handshake_no_name c s d rest :
  reader (client_of s c) = Data d :: rest → PyStr.strip d = "" →
  handshake c s = (Ok false, named_state c rest s).
Proof.
  intros Hrd Hd. unfold handshake.
  unfold mbind at 1, M_bind at 1. rewrite send_message_eq.
  unfold mbind at 1, M_bind at 1.
  rewrite (receive_message_data _ _ d rest) by (by autorewrite with store).
  rewrite truthy_received, Hd. reflexivity.
Qed.

Lemma handshake_eof c s :
  reader (client_of s c) = [] →
  handshake c s = (Ok false, send_message_state c request_name s).
Proof.
  intros Hrd. unfold handshake.
  unfold mbind at 1, M_bind at 1. rewrite send_message_eq.
  unfold mbind at 1, M_bind at 1.
  rewrite receive_message_eof by (by autorewrite with store).
  reflexivity.
Qed.

Lemma reader_named_state c pending s :
  c < length (client_objs s) → reader (client_of (named_state c pending s) c) = pending.
Proof.
  intros H. unfold named_state. apply reader_take_event.
  by rewrite send_message_length.
Qed.

Lemma handshake_no_room c s d1 d2 rest :
  reader (client_of s c) = Data d1 :: Data d2 :: rest →
  PyStr.strip d1 ≠ "" → PyStr.strip d2 = "" →
  handshake c s = (Ok false, asked_room_state c (PyStr.strip d1) (Data d2 :: rest) rest s).
Proof.
  intros Hrd H1 H2. pose proof (reader_valid _ _ _ _ Hrd) as Hc.
  unfold handshake.
  unfold mbind at 1, M_bind at 1. rewrite send_message_eq.
  unfold mbind at 1, M_bind at 1.
  rewrite (receive_message_data _ _ d1 (Data d2 :: rest)) by (by autorewrite with store).
  rewrite truthy_received, (is_empty_false _ H1), (strip_nonempty _ H1).
  cbn [negb]. cbv iota.
  unfold mbind at 1, M_bind at 1, modify at 1.
  unfold mbind at 1, M_bind at 1. rewrite send_message_eq.
  unfold mbind at 1, M_bind at 1.
  rewrite (receive_message_data _ _ d2 rest).
  2:{ store_simpl.
      by rewrite list_lookup_total_alter_eq by (by autorewrite with store). }
  destruct (PyStr.is_empty d2) eqn:E; [reflexivity |].
  rewrite (is_empty_true _ H2). reflexivity.
Qed.

Lemma handshake_join c s d1 d2 rest :
  reader (client_of s c) = Data d1 :: Data d2 :: rest →
  PyStr.strip d1 ≠ "" → PyStr.strip d2 ≠ "" →
  handshake c s =
    (Ok true, joined_state c (PyStr.strip d1) (PyStr.strip d2) (Data d2 :: rest) rest s).
Proof.
  intros Hrd H1 H2. pose proof (reader_valid _ _ _ _ Hrd) as Hc.
  unfold handshake.
  unfold mbind at 1, M_bind at 1. rewrite send_message_eq.
  unfold mbind at 1, M_bind at 1.
  rewrite (receive_message_data _ _ d1 (Data d2 :: rest)) by (by autorewrite with store).
  rewrite truthy_received, (is_empty_false _ H1), (strip_nonempty _ H1).
  cbn [negb]. cbv iota.
  unfold mbind at 1, M_bind at 1, modify at 1.
  unfold mbind at 1, M_bind at 1. rewrite send_message_eq.
  unfold mbind at 1, M_bind at 1.
  rewrite (receive_message_data _ _ d2 rest).
  2:{ store_simpl.
      by rewrite list_lookup_total_alter_eq by (by autorewrite with store). }
  rewrite (strip_nonempty _ H2), (is_empty_false _ H2).
  unfold joined_state, room_for, asked_room_state, named_state.
  set (s5 := take_event c rest _).
  munfold. unfold ChatRoom_init. cbv beta iota.
  destruct (rooms s5 !! PyStr.strip d2) as [r|]; cbv beta iota;
    rewrite add_member_eq, send_message_eq; reflexivity.
Qed.

(** ** [accept] and [handle_client] *)


Lemma accept_eq rd w s :
  accept rd w s = (Ok (length (client_objs s)), accepted_state rd w s).
Proof. reflexivity. Qed.

Lemma accepted_client rd w s :
  client_of (accepted_state rd w s) (length (client_objs s))
  = {| reader := rd; writer := w; username := None;
       current_room := None; private_queue := [] |}.
Proof.
  unfold accepted_state. simpl.
  rewrite lookup_total_app_r by done. by rewrite Nat.sub_diag.
Qed.

Lemma accepted_client_old rd w s c :
  c < length (client_objs s) → client_of (accepted_state rd w s) c = client_of s c.
Proof. intros H. unfold accepted_state. simpl. by rewrite lookup_total_app_l. Qed.

Lemma accepted_length rd w s :
  length (client_objs (accepted_state rd w s)) = S (length (client_objs s)).
Proof. unfold accepted_state. simpl. rewrite length_app. simpl. lia. Qed.


(** When the handshake returns early, what is left of [handle_client] is
    the [finally] clause. *)
Lemma handle_client_early rd w s s1 :
  handshake (length (client_objs s)) (accepted_state rd w s) = (Ok false, s1) →
  handle_client rd w s =
    match _disconnect_client (length (client_objs s)) s1 with
    | (Ok _, s2) => (Ok (length (client_objs s)), s2)
    | (Raise e, s2) => (Raise e, s2)
    end.
Proof.
  intros H. unfold handle_client.
  unfold mbind at 1, M_bind at 1. rewrite accept_eq.
  unfold mbind at 1, M_bind at 1, try_finally, handle_errors.
  unfold mbind at 1, M_bind at 1. rewrite H.
  unfold mret, M_ret.
  destruct (_disconnect_client _ s1) as [[[]|e] s2]; reflexivity.
Qed.

Section NamedState.
Variables (c : client_ref) (pending : list rd_event) (s : AsyncChatServer).

Lemma named_state_rooms : rooms (named_state c pending s) = rooms s.
Proof. unfold named_state. by store_simpl. Qed.
Lemma named_state_clients : clients (named_state c pending s) = clients s.
Proof. unfold named_state. by store_simpl. Qed.
Lemma named_state_room_objs : room_objs (named_state c pending s) = room_objs s.
Proof. unfold named_state. by store_simpl. Qed.
Lemma named_state_length :
  length (client_objs (named_state c pending s)) = length (client_objs s).
Proof. unfold named_state. by store_simpl. Qed.
Lemma named_state_username c' :
  username (client_of (named_state c pending s) c') = username (client_of s c').
Proof. unfold named_state. by store_simpl. Qed.
Lemma named_state_current_room c' :
  current_room (client_of (named_state c pending s) c') = current_room (client_of s c').
Proof. unfold named_state. by store_simpl. Qed.
Lemma named_state_closed c' :
  closed (writer (client_of (named_state c pending s) c'))
  = closed (writer (client_of s c')).
Proof. unfold named_state. by store_simpl. Qed.

End NamedState.

#[global] Hint Rewrite named_state_rooms named_state_clients named_state_room_objs
  named_state_length named_state_username named_state_current_room
  named_state_closed : store.

Section AskedRoomState.
Variables (c : client_ref) (u : string) (pending rest : list rd_event)
  (s : AsyncChatServer).

Lemma asked_room_state_rooms : rooms (asked_room_state c u pending rest s) = rooms s.
Proof. unfold asked_room_state, named_state. by store_simpl. Qed.
Lemma asked_room_state_clients :
  clients (asked_room_state c u pending rest s) = clients s.
Proof. unfold asked_room_state, named_state. by store_simpl. Qed.
Lemma asked_room_state_room_objs :
  room_objs (asked_room_state c u pending rest s) = room_objs s.
Proof. unfold asked_room_state, named_state. by store_simpl. Qed.
Lemma asked_room_state_length :
  length (client_objs (asked_room_state c u pending rest s)) = length (client_objs s).
Proof. unfold asked_room_state, named_state. by store_simpl. Qed.
Lemma asked_room_state_current_room c' :
  current_room (client_of (asked_room_state c u pending rest s) c')
  = current_room (client_of s c').
Proof. unfold asked_room_state, named_state. by store_simpl. Qed.
Lemma asked_room_state_closed c' :
  closed (writer (client_of (asked_room_state c u pending rest s) c'))
  = closed (writer (client_of s c')).
Proof. unfold asked_room_state, named_state. by store_simpl. Qed.
Lemma asked_room_state_reader :
  c < length (client_objs s) →
  reader (client_of (asked_room_state c u pending rest s) c) = rest.
Proof.
  intros H. unfold asked_room_state, named_state. store_simpl.
  by rewrite list_lookup_total_alter_eq by (by store_simpl).
Qed.
Lemma asked_room_state_username :
  c < length (client_objs s) →
  username (client_of (asked_room_state c u pending rest s) c) = Some u.
Proof.
  intros H. unfold asked_room_state, named_state. store_simpl.
  by rewrite list_lookup_total_alter_eq by (by store_simpl).
Qed.
Lemma asked_room_state_username_ne c' :
  c ≠ c' →
  username (client_of (asked_room_state c u pending rest s) c')
  = username (client_of s c').
Proof.
  intros H. unfold asked_room_state, named_state. store_simpl.
  rewrite list_lookup_total_alter_ne by done. by store_simpl.
Qed.

End AskedRoomState.

#[global] Hint Rewrite asked_room_state_rooms asked_room_state_clients
  asked_room_state_room_objs asked_room_state_length
  asked_room_state_current_room asked_room_state_closed : store.

(** What [handle_client] leaves behind when the handshake returned early in
    a state [s1] where the session has no room. *)
Lemma handle_client_early_spec rd w s s1 :
  let c := length (client_objs s) in
  handshake c (accepted_state rd w s) = (Ok false, s1) →
  current_room (client_of s1 c) = None →
  length (client_objs s1) = S (length (client_objs s)) →
  let res := handle_client rd w s in
  res.1 = Ok c
  ∧ rooms res.2 = rooms s1
  ∧ room_objs res.2 = room_objs s1
  ∧ clients res.2 = clients s1 ∖ {[c]}
  ∧ username (client_of res.2 c) = username (client_of s1 c)
  ∧ current_room (client_of res.2 c) = None
  ∧ reader (client_of res.2 c) = reader (client_of s1 c)
  ∧ closed (writer (client_of res.2 c)) = true.
Proof.
  intros c Hh Hr Hl res. subst res.
  rewrite (handle_client_early _ _ _ _ Hh). fold c.
  rewrite _disconnect_client_eq. unfold disconnect_room. rewrite Hr.
  simpl. autorewrite with store.
  rewrite list_lookup_total_alter_eq by (rewrite Hl; subst c; lia).
  done.
Qed.

(** C3, as the code has it: an empty answer to the request for the name, or
    to the request for the room, ends the handshake.  No name is made up
    and no room is chosen: the session never gets a room, the registry and
    the rooms stay as they were, and the connection is closed. *)
Theorem handshake_empty_answer_ends_session :
  (∀ (s : AsyncChatServer) (w : StreamWriter) (d : string) (rest : list rd_event),
     PyStr.strip d = "" →
     let c := length (client_objs s) in
     let res := handle_client (Data d :: rest) w s in
     res.1 = Ok c
     ∧ username (client_of res.2 c) = None
     ∧ current_room (client_of res.2 c) = None
     ∧ rooms res.2 = rooms s
     ∧ room_objs res.2 = room_objs s
     ∧ (c ∉ clients res.2)
     ∧ closed (writer (client_of res.2 c)) = true)
  ∧ (∀ (s : AsyncChatServer) (w : StreamWriter) (d1 d2 : string)
       (rest : list rd_event),
     PyStr.strip d1 ≠ "" → PyStr.strip d2 = "" →
     let c := length (client_objs s) in
     let res := handle_client (Data d1 :: Data d2 :: rest) w s in
     res.1 = Ok c
     ∧ username (client_of res.2 c) = Some (PyStr.strip d1)
     ∧ current_room (client_of res.2 c) = None
     ∧ rooms res.2 = rooms s
     ∧ room_objs res.2 = room_objs s
     ∧ (c ∉ clients res.2)
     ∧ closed (writer (client_of res.2 c)) = true).
Proof.
  split.
  - intros s w d rest Hd c res. subst c res.
    pose proof (accepted_client (Data d :: rest) w s) as Hc.
    set (sa := accepted_state (Data d :: rest) w s) in *.
    assert (Hh : handshake (length (client_objs s)) sa
                 = (Ok false, named_state (length (client_objs s)) rest sa)).
    { apply handshake_no_name with d; [| done]. by rewrite Hc. }
    destruct (handle_client_early_spec _ _ _ _ Hh)
      as (H1 & H2 & H3 & H4 & H5 & H6 & H7 & H8).
    { rewrite named_state_current_room. by rewrite Hc. }
    { subst sa. by rewrite named_state_length, accepted_length. }
    repeat split; try done.
    + rewrite H5, named_state_username. by rewrite Hc.
    + by rewrite H2, named_state_rooms.
    + by rewrite H3, named_state_room_objs.
    + rewrite H4. apply not_elem_of_remove.
  - intros s w d1 d2 rest Hd1 Hd2 c res. subst c res.
    pose proof (accepted_client (Data d1 :: Data d2 :: rest) w s) as Hc.
    set (sa := accepted_state (Data d1 :: Data d2 :: rest) w s) in *.
    assert (Hv : length (client_objs s) < length (client_objs sa))
      by (subst sa; rewrite accepted_length; lia).
    assert (Hh : handshake (length (client_objs s)) sa
                 = (Ok false, asked_room_state (length (client_objs s))
                                (PyStr.strip d1) (Data d2 :: rest) rest sa)).
    { apply handshake_no_room; [| done | done]. by rewrite Hc. }
    destruct (handle_client_early_spec _ _ _ _ Hh)
      as (H1 & H2 & H3 & H4 & H5 & H6 & H7 & H8).
    { rewrite asked_room_state_current_room. by rewrite Hc. }
    { subst sa. by rewrite asked_room_state_length, accepted_length. }
    repeat split; try done.
    + by rewrite H5, asked_room_state_username.
    + by rewrite H2, asked_room_state_rooms.
    + by rewrite H3, asked_room_state_room_objs.
    + rewrite H4. apply not_elem_of_remove.
Qed.

Ltac solve_length :=
  store_simpl;
  rewrite ?named_state_length, ?asked_room_state_length, ?accepted_length;
  first [done | lia].

(** ** The state after a join *)



Section JoinedState.
Variables (c : client_ref) (u nm : string) (pending rest : list rd_event)
  (s : AsyncChatServer).

Let j := joined_state c u nm pending rest s.
Let r := joined_room nm s.

Lemma room_for_asked :
  room_for nm (asked_room_state c u pending rest s) =
    match rooms s !! nm with
    | Some r0 => (r0, asked_room_state c u pending rest s)
    | None =>
        (length (room_objs s),
         set_rooms (<[nm := length (room_objs s)]>)
           (set_room_objs
              (λ l, l ++ [{| name := nm; members := ∅; message_queue := [] |}])
              (asked_room_state c u pending rest s)))
    end.
Proof.
  unfold room_for. rewrite asked_room_state_rooms, asked_room_state_room_objs.
  by destruct (rooms s !! nm).
Qed.

Lemma joined_rooms : rooms j = <[nm := r]> (rooms s).
Proof.
  subst j r. unfold joined_state, joined_room. rewrite room_for_asked.
  destruct (rooms s !! nm) as [r0|] eqn:E; store_simpl;
    rewrite ?asked_room_state_rooms; [by rewrite insert_id | done].
Qed.

Lemma joined_clients : clients j = clients s.
Proof.
  subst j. unfold joined_state. rewrite room_for_asked.
  destruct (rooms s !! nm); store_simpl; by rewrite ?asked_room_state_clients.
Qed.

Lemma joined_length : length (client_objs j) = length (client_objs s).
Proof.
  subst j. unfold joined_state. rewrite room_for_asked.
  destruct (rooms s !! nm); store_simpl; by rewrite ?asked_room_state_length.
Qed.

Lemma joined_current_room :
  c < length (client_objs s) → current_room (client_of j c) = Some r.
Proof.
  intros H. subst j r. unfold joined_state, joined_room. rewrite room_for_asked.
  destruct (rooms s !! nm); store_simpl;
    by rewrite list_lookup_total_alter_eq by solve_length.
Qed.

Lemma joined_reader :
  c < length (client_objs s) → reader (client_of j c) = rest.
Proof.
  intros H. subst j. unfold joined_state. rewrite room_for_asked.
  destruct (rooms s !! nm); store_simpl; by rewrite ?asked_room_state_reader.
Qed.

Lemma joined_username :
  c < length (client_objs s) → username (client_of j c) = Some u.
Proof.
  intros H. subst j. unfold joined_state. rewrite room_for_asked.
  destruct (rooms s !! nm); store_simpl; by rewrite ?asked_room_state_username.
Qed.

Lemma joined_closed c' :
  closed (writer (client_of j c')) = closed (writer (client_of s c')).
Proof.
  subst j. unfold joined_state. rewrite room_for_asked.
  destruct (rooms s !! nm); by store_simpl.
Qed.

Lemma joined_length_rooms :
  length (room_objs j) =
    match rooms s !! nm with
    | Some _ => length (room_objs s)
    | None => S (length (room_objs s))
    end.
Proof.
  subst j. unfold joined_state. rewrite room_for_asked.
  destruct (rooms s !! nm); store_simpl; rewrite ?length_app; simpl; lia.
Qed.

Lemma joined_name : registry_ok s → name (room_of j r) = nm.
Proof.
  intros Hok. subst j r. unfold joined_state, joined_room. rewrite room_for_asked.
  destruct (rooms s !! nm) as [r0|] eqn:E; store_simpl.
  - by apply Hok.
  - rewrite lookup_total_app_r by done. by rewrite Nat.sub_diag.
Qed.

Lemma joined_name_old r' :
  r' < length (room_objs s) → name (room_of j r') = name (room_of s r').
Proof.
  intros Hr. subst j. unfold joined_state. rewrite room_for_asked.
  destruct (rooms s !! nm) as [r0|] eqn:E; store_simpl; [done |].
  by rewrite lookup_total_app_l.
Qed.

Lemma joined_members :
  registry_ok s →
  members (room_of j r) =
    match rooms s !! nm with
    | Some r0 => members (room_of s r0)
    | None => ∅
    end ∪ {[c]}.
Proof.
  intros Hok. subst j r. unfold joined_state, joined_room. rewrite room_for_asked.
  destruct (rooms s !! nm) as [r0|] eqn:E; store_simpl.
  - destruct (Hok _ _ E) as [Hlt _].
    rewrite list_lookup_total_alter_eq by done. done.
  - rewrite list_lookup_total_alter_eq by (rewrite length_app; simpl; lia).
    rewrite lookup_total_app_r by done. by rewrite Nat.sub_diag.
Qed.

Lemma joined_members_old r' :
  r' < length (room_objs s) → r' ≠ r →
  members (room_of j r') = members (room_of s r').
Proof.
  intros Hr Hne. subst j r. unfold joined_state, joined_room in *.
  rewrite room_for_asked.
  destruct (rooms s !! nm) as [r0|] eqn:E; simpl in Hne; store_simpl.
  - by rewrite list_lookup_total_alter_ne.
  - rewrite list_lookup_total_alter_ne by done. by rewrite lookup_total_app_l.
Qed.

Lemma joined_registry_ok : registry_ok s → registry_ok j.
Proof.
  intros Hok nm' r'. rewrite joined_rooms, joined_length_rooms.
  intros Hl. apply lookup_insert_Some in Hl as [[<- <-] | [Hne Hl]].
  - split; [| by apply joined_name].
    subst r. unfold joined_room.
    destruct (rooms s !! nm) as [r0|] eqn:E; simpl; [by destruct (Hok _ _ E) | lia].
  - destruct (Hok _ _ Hl) as [Hlt Hnm].
    split; [destruct (rooms s !! nm); lia |].
    by rewrite joined_name_old.
Qed.

End JoinedState.



(** ** Sequences of joins and leaves *)

Lemma run_op_ok r op s : (run_op r op s).1 = Ok tt.
Proof. by destruct op. Qed.

Lemma run_op_length r op s :
  length (room_objs (run_op r op s).2) = length (room_objs s).
Proof.
  destruct op; simpl.
  - apply length_add_member_state.
  - apply length_remove_member_state.
Qed.

Lemma run_op_members r op s :
  r < length (room_objs s) →
  members (room_of (run_op r op s).2 r) =
    match op with
    | Join c => members (room_of s r) ∪ {[c]}
    | Leave c => members (room_of s r) ∖ {[c]}
    end.
Proof.
  intros H. destruct op as [c|c].
  - change (run_op r (Join c) s).2 with (add_member_state r c s).
    by rewrite members_add_member_state, decide_True.
  - change (run_op r (Leave c) s).2 with (remove_member_state r c s).
    by rewrite members_remove_member_state, decide_True.
Qed.

Lemma run_ops_cons r op ops s :
  run_ops r (op :: ops) s = run_ops r ops (run_op r op s).2.
Proof.
  simpl. munfold. pose proof (run_op_ok r op s) as H.
  destruct (run_op r op s) as [[[]|e] s']; simpl in *; [done | discriminate].
Qed.

(** The count follows the joins and the leaves for the sequences the server
    issues, at every point of the sequence. *)
Lemma run_ops_count r pre : ∀ suf s,
  r < length (room_objs s) →
  proper_ops (members (room_of s r)) (pre ++ suf) = true →
  (run_ops r pre s).1 = Ok tt
  ∧ size (members (room_of (run_ops r pre s).2 r)) + leaves pre
    = size (members (room_of s r)) + joins pre.
Proof.
  induction pre as [| op pre IH]; intros suf s Hr Hp.
  - simpl. split; [done | lia].
  - rewrite run_ops_cons.
    assert (Hr' : r < length (room_objs (run_op r op s).2))
      by (by rewrite run_op_length).
    pose proof (run_op_members r op s Hr) as Hm.
    destruct op as [c|c]; simpl in Hp;
      apply andb_true_iff in Hp as [Hc Hp]; apply bool_decide_eq_true in Hc.
    + rewrite <- Hm in Hp. destruct (IH suf _ Hr' Hp) as [Hok Hsz].
      split; [done |]. cbn [joins leaves]. rewrite Hm in Hsz.
      rewrite size_union, size_singleton in Hsz by set_solver. lia.
    + rewrite <- Hm in Hp. destruct (IH suf _ Hr' Hp) as [Hok Hsz].
      split; [done |]. cbn [joins leaves]. rewrite Hm in Hsz.
      rewrite size_difference, size_singleton in Hsz by set_solver.
      assert (size (members (room_of s r)) ≠ 0).
      { intros H0. apply size_empty_inv in H0. set_solver. }
      lia.
Qed.

(** Without that discipline the set absorbs the call: a member added again
    and a stranger removed leave the count where it was. *)
Lemma add_member_again r c s :
  c ∈ members (room_of s r) →
  members (room_of (add_member r c s).2 r) = members (room_of s r).
Proof.
  intros H. change (add_member r c s).2 with (add_member_state r c s).
  rewrite members_add_member_state. case_decide; [set_solver | done].
Qed.

Lemma remove_member_stranger r c s :
  c ∉ members (room_of s r) →
  members (room_of (remove_member r c s).2 r) = members (room_of s r).
Proof.
  intros H. change (remove_member r c s).2 with (remove_member_state r c s).
  rewrite members_remove_member_state. case_decide; [set_solver | done].
Qed.



(** ** The read duty *)

Lemma read_loop_stops_falsy fuel c s d rest :
  reader (client_of s c) = Data d :: rest → PyStr.strip d = "" →
  _receive_from_client (S fuel) c s = (Ok tt, take_event c rest s).
Proof.
  intros Hrd Hd. cbn [_receive_from_client].
  unfold mbind at 1, M_bind at 1.
  rewrite (receive_message_data _ _ d rest Hrd).
  destruct (PyStr.is_empty d); [reflexivity |].
  by rewrite Hd.
Qed.

Lemma read_loop_stops_eof fuel c s :
  reader (client_of s c) = [] → _receive_from_client (S fuel) c s = (Ok tt, s).
Proof.
  intros Hrd. cbn [_receive_from_client].
  unfold mbind at 1, M_bind at 1. by rewrite receive_message_eof.
Qed.

Lemma serve_stops_falsy c s d rest :
  reader (client_of s c) = Data d :: rest → PyStr.strip d = "" →
  serve c s = (Ok tt, take_event c rest s).
Proof.
  intros Hrd Hd. unfold serve.
  by rewrite (read_loop_stops_falsy _ _ _ d rest).
Qed.

Lemma serve_stops_eof c s : reader (client_of s c) = [] → serve c s = (Ok tt, s).
Proof. intros Hrd. unfold serve. by rewrite read_loop_stops_eof. Qed.

(** When the handshake succeeded and the read duty ended, what is left of
    [handle_client] is the [finally] clause. *)
Lemma handle_client_served rd w s j s2 :
  handshake (length (client_objs s)) (accepted_state rd w s) = (Ok true, j) →
  serve (length (client_objs s)) j = (Ok tt, s2) →
  handle_client rd w s =
    match _disconnect_client (length (client_objs s)) s2 with
    | (Ok _, s3) => (Ok (length (client_objs s)), s3)
    | (Raise e, s3) => (Raise e, s3)
    end.
Proof.
  intros Hh Hs. unfold handle_client.
  unfold mbind at 1, M_bind at 1. rewrite accept_eq.
  unfold mbind at 1, M_bind at 1, try_finally, handle_errors.
  unfold mbind at 1, M_bind at 1. rewrite Hh, Hs.
  unfold mret, M_ret.
  destruct (_disconnect_client _ s2) as [[[]|e] s3]; reflexivity.
Qed.


Lemma handle_command_file_bare c :
  _handle_command c "/file" =
    (file_path ← (send_message c file_prompt;; receive_message c);
     match file_path with
     | Some p => if PyStr.is_empty p then mret tt else _upload_file c p
     | None => mret tt
     end).
Proof. reflexivity. Qed.

(** [/file] without a path: the line asked for is falsy, nothing is
    uploaded. *)
Lemma file_prompt_falsy c s d rest :
  reader (client_of s c) = Data d :: rest → PyStr.strip d = "" →
  _handle_command c "/file" s
  = (Ok tt, take_event c rest (send_message_state c file_prompt s)).
Proof.
  intros Hrd Hd. rewrite handle_command_file_bare.
  unfold mbind, M_bind, mret, M_ret. rewrite send_message_eq.
  rewrite (receive_message_data _ _ d rest) by (by autorewrite with store).
  destruct (PyStr.is_empty d); [reflexivity |].
  by rewrite Hd.
Qed.

Lemma file_prompt_eof c s :
  reader (client_of s c) = [] →
  _handle_command c "/file" s = (Ok tt, send_message_state c file_prompt s).
Proof.
  intros Hrd. rewrite handle_command_file_bare.
  unfold mbind, M_bind, mret, M_ret. rewrite send_message_eq.
  by rewrite receive_message_eof by (by autorewrite with store).
Qed.


Lemma registry_ok_accepted rd w s : registry_ok s → registry_ok (accepted_state rd w s).
Proof. intros H nm r Hl. by apply H. Qed.

Lemma joined_room_accepted nm rd w s :
  joined_room nm (accepted_state rd w s) = joined_room nm s.
Proof. reflexivity. Qed.

(** A session that joined and then sends a falsy line. *)
Lemma handle_client_join_blank s0 w d1 d2 d rest :
  registry_ok s0 → PyStr.strip d1 ≠ "" → PyStr.strip d2 ≠ "" → PyStr.strip d = "" →
  let c0 := length (client_objs s0) in
  let res := handle_client (Data d1 :: Data d2 :: Data d :: rest) w s0 in
  res.1 = Ok c0
  ∧ (c0 ∉ clients res.2)
  ∧ (c0 ∉ members (room_of res.2 (joined_room (PyStr.strip d2) s0)))
  ∧ closed (writer (client_of res.2 c0)) = true
  ∧ reader (client_of res.2 c0) = rest.
Proof.
  intros Hok H1 H2 Hd c0 res.
  set (rd := Data d1 :: Data d2 :: Data d :: rest) in *.
  pose proof (accepted_client rd w s0) as Hc. fold c0 in Hc.
  pose proof (registry_ok_accepted rd w s0 Hok) as Hoka.
  set (sa := accepted_state rd w s0) in *.
  assert (Hv : c0 < length (client_objs sa))
    by (subst sa c0; rewrite accepted_length; lia).
  set (nm := PyStr.strip d2) in *.
  set (j := joined_state c0 (PyStr.strip d1) nm (Data d2 :: Data d :: rest)
              (Data d :: rest) sa).
  assert (Hh : handshake c0 sa = (Ok true, j)).
  { apply handshake_join; [| done | done]. by rewrite Hc. }
  assert (Hrd : reader (client_of j c0) = Data d :: rest) by (by apply joined_reader).
  pose proof (serve_stops_falsy c0 j d rest Hrd Hd) as Hs.
  set (s2 := take_event c0 rest j) in *.
  set (r := joined_room nm s0).
  assert (Hlen2 : length (client_objs s2) = length (client_objs sa))
    by (subst s2 j; store_simpl; apply joined_length).
  assert (Hcur : current_room (client_of s2 c0) = Some r).
  { subst s2. store_simpl. subst j. by rewrite joined_current_room. }
  assert (Hrms : rooms s2 !! name (room_of s2 r) = Some r).
  { subst s2. store_simpl. subst j r.
    rewrite <- (joined_room_accepted nm rd w s0). fold sa.
    rewrite joined_name, joined_rooms by done. apply lookup_insert_eq. }
  assert (Hf : disconnect_fails c0 s2 = false).
  { unfold disconnect_fails. rewrite Hcur, Hrms.
    rewrite bool_decide_eq_false_2 by done. apply andb_false_r. }
  pose proof (disconnect_outcome c0 s2) as Hout. rewrite Hf in Hout.
  subst res. rewrite (handle_client_served rd w s0 j s2 Hh Hs). fold c0.
  pose proof (disconnect_clients c0 s2) as Hcl.
  pose proof (disconnect_members c0 s2 r) as Hmem.
  pose proof (disconnect_closed c0 s2 c0) as Hclo.
  pose proof (disconnect_client_objs c0 s2) as Hobj.
  destruct (_disconnect_client c0 s2) as [[[]|e] s3]; [| discriminate].
  cbn [fst snd] in *.
  repeat split.
  - rewrite Hcl. apply not_elem_of_remove.
  - fold r. rewrite Hmem, decide_True by done. apply not_elem_of_remove.
  - rewrite Hclo, Hf. rewrite bool_decide_eq_true_2 by (rewrite Hlen2; done). done.
  - rewrite Hobj, Hf. rewrite reader_alter by done.
    subst s2. apply reader_take_event. subst j. by rewrite joined_length.
Qed.


(** ** [send_private_message] *)

Lemma find_member_Some s r u t :
  find_member s r u = Some t →
  t ∈ members (room_of s r) ∧ username (client_of s t) = Some u.
Proof.
  unfold find_member. intros H. apply find_some in H as [Hin Hb].
  apply bool_decide_eq_true in Hb.
  split; [| done]. by apply elem_of_elements, list_elem_of_In.
Qed.

Lemma find_member_None s r u :
  find_member s r u = None → ¬ has_member_named s r u.
Proof.
  unfold find_member. intros H [m [Hm Hu]].
  apply elem_of_elements, list_elem_of_In in Hm.
  pose proof (find_none _ _ H m Hm) as Hb. simpl in Hb.
  apply bool_decide_eq_false in Hb. done.
Qed.


(** ** Joins, leaves and the registry *)

Lemma disconnect_last_member c s r :
  current_room (client_of s c) = Some r →
  rooms s !! name (room_of s r) = Some r →
  let res := _disconnect_client c s in
  res.1 = Ok tt
  ∧ members (room_of res.2 r) = members (room_of s r) ∖ {[c]}
  ∧ (size (members (room_of res.2 r)) = 0 →
     rooms res.2 = delete (name (room_of s r)) (rooms s))
  ∧ (size (members (room_of res.2 r)) ≠ 0 → rooms res.2 = rooms s).
Proof.
  intros Hr Hreg res. subst res.
  pose proof (disconnect_outcome c s) as Hout.
  pose proof (disconnect_members c s r) as Hmem.
  pose proof (disconnect_rooms c s) as Hrooms.
  rewrite Hr in Hrooms. rewrite decide_True in Hmem by done.
  unfold disconnect_fails in Hout. rewrite Hr, Hreg in Hout.
  rewrite bool_decide_eq_false_2, andb_false_r in Hout by done.
  split; [done |]. split; [done |]. rewrite Hmem, Hrooms.
  split; intros Hsz.
  - by rewrite Hsz.
  - apply Nat.eqb_neq in Hsz. by rewrite Hsz.
Qed.

Lemma handshake_new_room c s d1 d2 rest :
  registry_ok s →
  reader (client_of s c) = Data d1 :: Data d2 :: rest →
  PyStr.strip d1 ≠ "" → PyStr.strip d2 ≠ "" →
  rooms s !! PyStr.strip d2 = None →
  let res := handshake c s in
  let r' := length (room_objs s) in
  res.1 = Ok true
  ∧ rooms res.2 !! PyStr.strip d2 = Some r'
  ∧ room_objs s !! r' = None
  ∧ name (room_of res.2 r') = PyStr.strip d2
  ∧ members (room_of res.2 r') = {[c]}
  ∧ current_room (client_of res.2 c) = Some r'.
Proof.
  intros Hok Hrd H1 H2 Hnone res r'. subst res r'.
  pose proof (reader_valid _ _ _ _ Hrd) as Hc.
  rewrite (handshake_join c s d1 d2 rest Hrd H1 H2). cbn [fst snd].
  assert (Hjr : joined_room (PyStr.strip d2) s = length (room_objs s)).
  { unfold joined_room. by rewrite Hnone. }
  split; [done |]. split.
  { rewrite joined_rooms, Hjr. apply lookup_insert_eq. }
  split; [by apply lookup_ge_None_2 |].
  rewrite <- Hjr. split; [by apply joined_name |].
  split; [| by apply joined_current_room].
  rewrite joined_members by done. rewrite Hnone. apply (left_id_L ∅ (∪)).
Qed.

(** C4, as the code has it: the members are a set, so the count follows
    the joins and the leaves for the sequences the server issues (a
    session is added when it is not a member and removed when it is one),
    at every point of the sequence; when [_disconnect_client] takes the
    last member out of a registered room, the room leaves the registry;
    and a handshake that asks for an unregistered name creates a new room
    object, of which the session is the only member. *)
Theorem membership_count_and_registry :
  (∀ (s : AsyncChatServer) (r : room_ref) (pre suf : list room_op),
     r < length (room_objs s) →
     proper_ops (members (room_of s r)) (pre ++ suf) = true →
     (run_ops r pre s).1 = Ok tt
     ∧ size (members (room_of (run_ops r pre s).2 r)) + leaves pre
       = size (members (room_of s r)) + joins pre)
  ∧ (∀ (s : AsyncChatServer) (c : client_ref) (r : room_ref),
       current_room (client_of s c) = Some r →
       rooms s !! name (room_of s r) = Some r →
       let res := _disconnect_client c s in
       res.1 = Ok tt
       ∧ members (room_of res.2 r) = members (room_of s r) ∖ {[c]}
       ∧ (size (members (room_of res.2 r)) = 0 →
          rooms res.2 = delete (name (room_of s r)) (rooms s))
       ∧ (size (members (room_of res.2 r)) ≠ 0 → rooms res.2 = rooms s))
  ∧ (∀ (s : AsyncChatServer) (c : client_ref) (d1 d2 : string)
       (rest : list rd_event),
       registry_ok s →
       reader (client_of s c) = Data d1 :: Data d2 :: rest →
       PyStr.strip d1 ≠ "" → PyStr.strip d2 ≠ "" →
       rooms s !! PyStr.strip d2 = None →
       let res := handshake c s in
       let r' := length (room_objs s) in
       res.1 = Ok true
       ∧ rooms res.2 !! PyStr.strip d2 = Some r'
       ∧ room_objs s !! r' = None
       ∧ name (room_of res.2 r') = PyStr.strip d2
       ∧ members (room_of res.2 r') = {[c]}
       ∧ current_room (client_of res.2 c) = Some r').
Proof.
  split; [| split].
  - intros s r pre suf. apply run_ops_count.
  - intros s c r. apply disconnect_last_member.
  - intros s c d1 d2 rest. apply handshake_new_room.
Qed.

(** ** The deliveries of the write duty *)

Lemma occurrences_app m l1 l2 :
  occurrences m (l1 ++ l2) = occurrences m l1 + occurrences m l2.
Proof. unfold occurrences. by rewrite filter_app, length_app. Qed.

Lemma occurrences_cons m x l :
  occurrences m (x :: l) = occurrences m [x] + occurrences m l.
Proof. apply (occurrences_app m [x] l). Qed.

Lemma occurrences_elem_of m l : m ∈ l → 1 ≤ occurrences m l.
Proof.
  intros H. unfold occurrences.
  assert (Hin : m ∈ filter (λ x, x = m) l) by (by apply list_elem_of_filter).
  destruct (filter _ l); [by apply not_elem_of_nil in Hin | simpl; lia].
Qed.

Section SumAlter.
Context {A : Type} `{!Inhabited A} (f : A → nat).

Lemma sum_list_with_alter (g : A → A) (i : nat) (l : list A) :
  i < length l →
  sum_list_with f (alter g i l) + f (l !!! i)
  = sum_list_with f l + f (g (l !!! i)).
Proof.
  revert i. induction l as [| x l IH]; intros [| i] Hi; simpl in *; try lia.
  specialize (IH i ltac:(lia)). 
  change (list_alter g i l) with (alter g i l). lia.
Qed.

Lemma sum_list_with_two (i j : nat) (l : list A) :
  i ≠ j → i < length l → j < length l →
  f (l !!! i) + f (l !!! j) ≤ sum_list_with f l.
Proof.
  revert i j. induction l as [| x l IH]; intros [| i] [| j] Hne Hi Hj;
    simpl in *; try lia.
  - assert (l !! j = Some (l !!! j))
      by (apply list_lookup_lookup_total_lt; lia).
    assert (H1 : f (l !!! j) ≤ sum_list_with f l)
      by (apply sum_list_with_in; by eapply list_elem_of_lookup_2).
    change (list_lookup_total j l) with (l !!! j). lia.
  - assert (l !! i = Some (l !!! i))
      by (apply list_lookup_lookup_total_lt; lia).
    assert (H1 : f (l !!! i) ≤ sum_list_with f l)
      by (apply sum_list_with_in; by eapply list_elem_of_lookup_2).
    change (list_lookup_total i l) with (l !!! i). lia.
  - specialize (IH i j ltac:(lia) ltac:(lia) ltac:(lia)).
    change (list_lookup_total i l) with (l !!! i).
    change (list_lookup_total j l) with (l !!! j). lia.
Qed.

End SumAlter.

Lemma broadcast_iteration c s s' :
  _broadcast_room_messages c s = (Ok true, s') →
  ∃ r m q,
    current_room (client_of s c) = Some r
    ∧ message_queue (room_of s r) = m :: q
    ∧ s' = send_message_state c m (upd_room r (set_message_queue (λ _, q)) s).
Proof.
  unfold _broadcast_room_messages, queue_get, try_except.
  unfold mbind, M_bind, mret, M_ret, gets.
  destruct (current_room (client_of s c)) as [r|]; [| discriminate].
  destruct (message_queue (room_of s r)) as [| m q] eqn:Hq; [discriminate |].
  rewrite send_message_eq. intros [= <-]. by exists r, m, q.
Qed.

Lemma private_iteration c s s' :
  _send_private_messages c s = (Ok true, s') →
  ∃ m q,
    private_queue (client_of s c) = m :: q
    ∧ s' = send_message_state c m (upd_client c (set_private_queue (λ _, q)) s).
Proof.
  unfold _send_private_messages, private_queue_get, try_except.
  unfold mbind, M_bind, mret, M_ret.
  destruct (private_queue (client_of s c)) as [| m q] eqn:Hq; [discriminate |].
  rewrite send_message_eq. intros [= <-]. by exists m, q.
Qed.

Lemma room_valid_queue s r m q :
  message_queue (room_of s r) = m :: q → r < length (room_objs s).
Proof.
  intros H. destruct (decide (r < length (room_objs s))); [done |].
  rewrite room_of_invalid in H by lia. discriminate.
Qed.

Lemma private_queue_valid s c m q :
  private_queue (client_of s c) = m :: q → c < length (client_objs s).
Proof. intros H. apply client_valid. intros E. by rewrite E in H. Qed.

Lemma held_by_written m0 m x :
  held_by m0 (set_writer (set_write_calls (λ l, l ++ [m])) x)
  = held_by m0 x + occurrences m0 [m].
Proof.
  unfold held_by. cbn [writer write_calls private_queue set_writer set_write_calls].
  rewrite occurrences_app. lia.
Qed.

Lemma held_by_taken m0 m q x :
  private_queue x = m :: q →
  held_by m0 (set_private_queue (λ _, q) x) + occurrences m0 [m] = held_by m0 x.
Proof.
  intros H. unfold held_by.
  cbn [writer write_calls private_queue set_private_queue].
  rewrite H, (occurrences_cons m0 m q). lia.
Qed.

(** A delivery moves a message from a queue to a writer: no copy is made
    and none is lost. *)
Lemma duty_step_copies m0 s s' : duty_step s s' → copies m0 s' = copies m0 s.
Proof.
  intros [s1 s2 c Hc Hstep | s1 s2 c Hc Hstep].
  - apply broadcast_iteration in Hstep as (r & m & q & Hr & Hq & ->).
    pose proof (current_room_valid _ _ _ Hr) as Hv.
    pose proof (room_valid_queue _ _ _ _ Hq) as Hrv.
    unfold copies. rewrite send_message_client_objs. store_simpl.
    pose proof (sum_list_with_alter (held_by m0)
                  (set_writer (set_write_calls (λ l, l ++ [m]))) c _ Hv) as H1.
    pose proof (sum_list_with_alter (λ x, occurrences m0 (message_queue x))
                  (set_message_queue (λ _, q)) r _ Hrv) as H2.
    cbn beta in H2. rewrite Hq, occurrences_cons in H2.
    cbn [message_queue set_message_queue] in H2.
    rewrite held_by_written in H1. lia.
  - apply private_iteration in Hstep as (m & q & Hq & ->).
    pose proof (private_queue_valid _ _ _ _ Hq) as Hv.
    unfold copies. rewrite send_message_client_objs. store_simpl.
    rewrite list_alter_alter_eq.
    pose proof (sum_list_with_alter (held_by m0)
                  (set_writer (set_write_calls (λ l, l ++ [m]))
                   ∘ set_private_queue (λ _, q)) c _ Hv) as H1.
    cbn [compose] in H1. rewrite held_by_written in H1.
    pose proof (held_by_taken m0 m q _ Hq) as H2. lia.
Qed.

Lemma rtc_duty_step_copies m0 s s' : rtc duty_step s s' → copies m0 s' = copies m0 s.
Proof.
  induction 1 as [| s1 s2 s3 H12 _ IH]; [done |].
  rewrite IH. by apply duty_step_copies.
Qed.

Lemma sent_to_valid s c m : m ∈ sent_to s c → c < length (client_objs s).
Proof.
  intros H. apply client_valid. intros E. unfold sent_to in H. rewrite E in H.
  by apply not_elem_of_nil in H.
Qed.

(** Two sessions that both got [m] hold two copies of it. *)
Lemma two_receivers_two_copies m s c1 c2 :
  c1 ≠ c2 → m ∈ sent_to s c1 → m ∈ sent_to s c2 → 2 ≤ copies m s.
Proof.
  intros Hne H1 H2.
  pose proof (sent_to_valid _ _ _ H1) as Hv1.
  pose proof (sent_to_valid _ _ _ H2) as Hv2.
  pose proof (sum_list_with_two (held_by m) c1 c2 _ Hne Hv1 Hv2) as Hs.
  apply occurrences_elem_of in H1, H2. unfold sent_to in *.
  unfold copies, held_by in *. lia.
Qed.

Ltac by_compute := apply (bool_decide_unpack _); vm_compute; exact I.

(** C1, at the input where the code departs from it.  Alice and Bob are
    the members of "lobby" when Alice's message is put in the queue of the
    room; in no run of the delivery loops do both get it, since the loop of
    each member takes the messages out of the one queue.  And a session
    takes what it finds there: Bob, who joined after Alice's join notice
    was queued, can be the one who receives it. *)
Theorem room_message_reaches_one_member :
  members (room_of Scenario.two_members 0) = {[0; 1]}
  ∧ Scenario.hello ∈ message_queue (room_of Scenario.two_members 0)
  ∧ (∀ s, rtc duty_step Scenario.two_members s →
          ¬ (Scenario.hello ∈ sent_to s 0 ∧ Scenario.hello ∈ sent_to s 1))
  ∧ message_queue (room_of (Scenario.alice_in_lobby []) 0) = [Scenario.alice_joined]
  ∧ (1 ∉ members (room_of (Scenario.alice_in_lobby []) 0))
  ∧ Scenario.late_joiner
    = Scenario.state_of (Scenario.join "Bob" "lobby" [] (Scenario.alice_in_lobby []))
  ∧ duty_step Scenario.late_joiner (_broadcast_room_messages 1 Scenario.late_joiner).2
  ∧ Scenario.alice_joined
    ∈ sent_to (_broadcast_room_messages 1 Scenario.late_joiner).2 1.
Proof.
  split; [reflexivity |].
  split; [by_compute |].
  split.
  { intros s Hrun [H0 H1].
    pose proof (two_receivers_two_copies _ _ 0 1 ltac:(done) H0 H1) as H2.
    rewrite (rtc_duty_step_copies _ _ _ Hrun) in H2.
    vm_compute in H2. lia. }
  split; [reflexivity |].
  split; [by_compute |].
  split; [vm_compute; reflexivity |].
  split.
  - apply (step_broadcast _ _ 1).
    + by_compute.
    + vm_compute; reflexivity.
  - by_compute.
Qed.

(** ** [_upload_file] *)

Lemma is_file_exists fs0 p : path_is_file fs0 p = true → path_exists fs0 p = true.
Proof. unfold path_is_file, path_exists. by destruct (stat fs0 p) as [[? []]|]. Qed.

Lemma open_wb_error fs0 p e : open_wb fs0 p = inl e → is_Exception e = true.
Proof.
  unfold open_wb.
  destruct (stat fs0 p) as [[q [b|]]|]; [discriminate | by intros [= <-] |].
  destruct (stat fs0 (removelast p)) as [[d [b|]]|]; try by intros [= <-].
  destruct (_ || _); [by intros [= <-] | discriminate].
Qed.

Lemma upload_not_found c s file_path :
  path_exists (fs s) (upload_path s file_path) = false →
  _upload_file c file_path s =
    (Ok tt,
     send_message_state c
       (upload_error ("File not found: " +:+ str_path (upload_path s file_path)))
       (add_log (LogUploadWarning
                   ("File not found: " +:+ str_path (upload_path s file_path))) s)).
Proof.
  intros H. unfold _upload_file, try_except, upload_path in *.
  unfold mbind, M_bind, mret, M_ret, gets, modify. cbv zeta in *.
  rewrite H. cbn [negb]. by rewrite send_message_eq.
Qed.

Lemma upload_not_a_file c s file_path :
  path_exists (fs s) (upload_path s file_path) = true →
  path_is_file (fs s) (upload_path s file_path) = false →
  _upload_file c file_path s =
    (Ok tt,
     send_message_state c
       (upload_error ("Path is not a file: " +:+ str_path (upload_path s file_path)))
       (add_log (LogUploadWarning
                   ("Path is not a file: " +:+ str_path (upload_path s file_path))) s)).
Proof.
  intros H1 H2. unfold _upload_file, try_except, upload_path in *.
  unfold mbind, M_bind, mret, M_ret, gets, modify. cbv zeta in *.
  rewrite H1, H2. cbn [negb]. by rewrite send_message_eq.
Qed.

Lemma upload_open_fails c s file_path src b e :
  stat (fs s) (upload_path s file_path) = Some (src, File b) →
  open_wb (fs s) (upload_dest s file_path) = inl e →
  _upload_file c file_path s =
    (Ok tt,
     send_message_state c (upload_error ("File upload error: " +:+ str_exn e))
       (add_log (LogUploadError e) s)).
Proof.
  intros H1 H2. pose proof (open_wb_error _ _ _ H2) as He.
  unfold _upload_file, try_except, upload_dest, upload_path in *.
  unfold mbind, M_bind, mret, M_ret, gets, modify, raise. cbv zeta in *.
  unfold path_exists, path_is_file, open_rb. rewrite H1. cbn [negb].
  rewrite H2, He. by rewrite send_message_eq.
Qed.

Lemma upload_copies c s file_path src b dest fs1 :
  stat (fs s) (upload_path s file_path) = Some (src, File b) →
  open_wb (fs s) (upload_dest s file_path) = inr (dest, fs1) →
  _upload_file c file_path s =
    (Ok tt,
     uploaded_state c (path_name (upload_path s file_path)) dest
       (read_at fs1 src) (set_fs (λ _, fs1) s)).
Proof.
  intros H1 H2.
  unfold _upload_file, try_except, upload_dest, upload_path, uploaded_state,
    queue_put in *.
  unfold mbind, M_bind, mret, M_ret, gets, modify, raise. cbv zeta in *.
  unfold path_exists, path_is_file, open_rb. rewrite H1. cbn [negb].
  rewrite H2. rewrite send_message_eq.
  rewrite send_message_current_room. store_simpl.
  destruct (current_room (client_of s c)); [| done].
  by rewrite send_message_username.
Qed.

(** *** Where the copy is written *)

Lemma walk_app fs0 p1 : ∀ cur p2,
  walk fs0 cur (p1 ++ p2) =
    match walk fs0 cur p1 with Some q => walk fs0 q p2 | None => None end.
Proof.
  induction p1 as [| x p1 IH]; intros cur p2; [done |].
  simpl. destruct (fs0 !! cur) as [[b|]|]; auto.
Qed.

(** Writing a file where no directory is changes no resolution. *)
Lemma walk_insert_file fs0 q b comps : ∀ cur,
  fs0 !! q ≠ Some Dir →
  walk (<[q := File b]> fs0) cur comps = walk fs0 cur comps.
Proof.
  induction comps as [| x comps IH]; intros cur Hq; [done |].
  simpl. destruct (decide (q = cur)) as [-> | Hne].
  - rewrite lookup_insert_eq. by destruct (fs0 !! cur) as [[|]|].
  - rewrite lookup_insert_ne by done.
    destruct (fs0 !! cur) as [[|]|]; try done. by apply IH.
Qed.

Lemma removelast_last (p : list string) :
  p ≠ [] → p = removelast p ++ [List.last p ""].
Proof. intros H. by apply app_removelast_last. Qed.

Lemma path_name_nonempty p : PyStr.is_empty (path_name p) = false → p ≠ [].
Proof. by intros H ->. Qed.

Lemma open_wb_location fs0 p dst fs1 :
  open_wb fs0 p = inr (dst, fs1) →
  fs1 = <[dst := File []]> fs0 ∧ fs0 !! dst ≠ Some Dir ∧ walk fs0 [] p = Some dst.
Proof.
  unfold open_wb, stat.
  destruct (walk fs0 [] p) as [q|] eqn:Hw.
  - destruct (fs0 !! q) as [[b|]|] eqn:Hq; [| discriminate |].
    + intros [= <- <-]. by rewrite Hq.
    + destruct (walk fs0 [] (removelast p)) as [d|] eqn:Hd; [| discriminate].
      destruct (fs0 !! d) as [[b|]|] eqn:Hfd; try discriminate.
      destruct (PyStr.is_empty (path_name p)) eqn:He; [discriminate |].
      destruct (String.eqb (path_name p) "..") eqn:Hdd; [discriminate |].
      intros [= <- <-]. split; [done |].
      rewrite (removelast_last p (path_name_nonempty _ He)) in Hw.
      rewrite walk_app, Hd in Hw. simpl in Hw. rewrite Hfd in Hw.
      fold (path_name p) in Hw. rewrite Hdd in Hw. injection Hw as <-.
      by rewrite Hq.
  - destruct (walk fs0 [] (removelast p)) as [d|] eqn:Hd; [| discriminate].
    destruct (fs0 !! d) as [[b|]|] eqn:Hfd; try discriminate.
    destruct (PyStr.is_empty (path_name p)) eqn:He; [discriminate |].
    destruct (String.eqb (path_name p) "..") eqn:Hdd; [discriminate |].
    intros _. exfalso.
    rewrite (removelast_last p (path_name_nonempty _ He)) in Hw.
    rewrite walk_app, Hd in Hw. simpl in Hw. by rewrite Hfd in Hw.
Qed.

Lemma stat_written fs0 p dst b :
  walk fs0 [] p = Some dst → fs0 !! dst ≠ Some Dir →
  stat (<[dst := File b]> fs0) p = Some (dst, File b).
Proof.
  intros Hw Hd. unfold stat. rewrite walk_insert_file, Hw by done.
  by rewrite lookup_insert_eq.
Qed.

Lemma stat_lookup fs0 p q n : stat fs0 p = Some (q, n) → fs0 !! q = Some n.
Proof.
  unfold stat. destruct (walk fs0 [] p) as [q'|]; [| discriminate].
  destruct (fs0 !! q') as [n'|] eqn:E; [| discriminate]. by intros [= <- <-].
Qed.

(** *** The state after an upload *)

Lemma uploaded_state_fs c nm dst content s :
  fs (uploaded_state c nm dst content s) = <[dst := File content]> (fs s).
Proof.
  unfold uploaded_state. destruct (current_room _); by store_simpl.
Qed.

Lemma uploaded_state_sent_to c nm dst content s :
  c < length (client_objs s) →
  sent_to (uploaded_state c nm dst content s) c
  = sent_to s c ++ [upload_confirmation nm (length content)].
Proof.
  intros H. unfold uploaded_state, sent_to.
  destruct (current_room _); store_simpl;
    rewrite send_message_client, decide_True by done; done.
Qed.

Lemma sent_to_error c text l s :
  c < length (client_objs s) →
  sent_to (send_message_state c (upload_error text) (add_log l s)) c
  = sent_to s c ++ [upload_error text].
Proof. intros H. by rewrite send_message_sent_to. Qed.

Lemma upload_refused c s file_path :
  c < length (client_objs s) →
  path_is_file (fs s) (upload_path s file_path) = false →
  let res := _upload_file c file_path s in
  res.1 = Ok tt ∧ fs res.2 = fs s
  ∧ ∃ text, sent_to res.2 c = sent_to s c ++ [upload_error text].
Proof.
  intros Hc Hf res. subst res.
  destruct (path_exists (fs s) (upload_path s file_path)) eqn:He.
  - rewrite upload_not_a_file by done. cbn [fst snd].
    split; [done |]. split; [by rewrite send_message_fs |].
    eexists. by apply sent_to_error.
  - rewrite upload_not_found by done. cbn [fst snd].
    split; [done |]. split; [by rewrite send_message_fs |].
    eexists. by apply sent_to_error.
Qed.

Lemma upload_copied c s file_path src b dst fs1 :
  c < length (client_objs s) →
  stat (fs s) (upload_path s file_path) = Some (src, File b) →
  open_wb (fs s) (upload_dest s file_path) = inr (dst, fs1) →
  src ≠ dst →
  let res := _upload_file c file_path s in
  res.1 = Ok tt
  ∧ sent_to res.2 c
    = sent_to s c
      ++ [upload_confirmation (path_name (upload_path s file_path)) (length b)]
  ∧ stat (fs res.2) (upload_dest s file_path) = Some (dst, File b)
  ∧ fs res.2 = <[dst := File b]> (fs s)
  ∧ fs res.2 !! src = Some (File b).
Proof.
  intros Hc Hst Hop Hne res. subst res.
  rewrite (upload_copies c s file_path src b dst fs1 Hst Hop). cbn [fst snd].
  apply open_wb_location in Hop as (-> & Hnd & Hw).
  pose proof (stat_lookup _ _ _ _ Hst) as Hsrc.
  assert (Hrd : read_at (<[dst := File []]> (fs s)) src = b).
  { unfold read_at. by rewrite lookup_insert_ne, Hsrc. }
  rewrite Hrd. split; [done |]. split.
  { by rewrite uploaded_state_sent_to. }
  rewrite uploaded_state_fs. store_simpl. rewrite insert_insert_eq.
  split; [by apply stat_written |]. split; [done |].
  by rewrite lookup_insert_ne.
Qed.

Lemma upload_failed c s file_path src b e :
  c < length (client_objs s) →
  stat (fs s) (upload_path s file_path) = Some (src, File b) →
  open_wb (fs s) (upload_dest s file_path) = inl e →
  let res := _upload_file c file_path s in
  res.1 = Ok tt ∧ fs res.2 = fs s
  ∧ sent_to res.2 c
    = sent_to s c ++ [upload_error ("File upload error: " +:+ str_exn e)].
Proof.
  intros Hc Hst Hop res. subst res.
  rewrite (upload_open_fails c s file_path src b e Hst Hop). cbn [fst snd].
  split; [done |]. split; [by rewrite send_message_fs |].
  by apply sent_to_error.
Qed.


(** ** Faults of [send_message] *)

(** C6, as the code has it: [send_message] catches the failure of the
    writer and logs it; the caller gets the same normal return as after a
    send that worked.  Nothing but the connection written to and the log
    changes, so the other connections and the server go on. *)
Theorem send_message_swallows_faults
    (s : AsyncChatServer) (c : client_ref) (m : message) :
  let res := send_message c m s in
  let faulty := broken (writer (client_of s c)) || closed (writer (client_of s c)) in
  res.1 = Ok tt
  ∧ log res.2
    = (if faulty then log s ++ [LogSendError (username (client_of s c)) ConnectionError]
       else log s)
  ∧ (∀ c', c' ≠ c → client_of res.2 c' = client_of s c')
  ∧ rooms res.2 = rooms s
  ∧ clients res.2 = clients s
  ∧ room_objs res.2 = room_objs s
  ∧ length (client_objs res.2) = length (client_objs s).
Proof.
  intros res faulty. subst res faulty. rewrite send_message_eq. cbn [fst snd].
  split; [done |]. split; [apply send_message_log |].
  split.
  { intros c' Hne. rewrite send_message_client.
    by rewrite decide_False by (intros [? _]; done). }
  by rewrite send_message_rooms, send_message_clients, send_message_room_objs,
    send_message_length.
Qed.

(** ** Command faults *)

Lemma unknown_command_eqb t :
  t ∉ commands →
  String.eqb t "/help" = false ∧ String.eqb t "/list" = false
  ∧ String.eqb t "/private" = false ∧ String.eqb t "/file" = false
  ∧ String.eqb t "/quit" = false.
Proof.
  intros H. repeat split; apply String.eqb_neq; intros ->; apply H;
    unfold commands; set_solver.
Qed.

Lemma handle_command_unknown c cmd s p0 rest :
  PyStr.split_maxsplit1 cmd = p0 :: rest → PyStr.lower p0 ∉ commands →
  _handle_command c cmd s = (Ok tt, s).
Proof.
  intros Hs Hu. apply unknown_command_eqb in Hu as (H1 & H2 & H3 & H4 & H5).
  unfold _handle_command. rewrite Hs. cbv zeta.
  by rewrite H1, H2, H3, H4, H5.
Qed.

Lemma handle_command_private c cmd p0 rest :
  PyStr.split_maxsplit1 cmd = p0 :: rest → PyStr.lower p0 = "/private" →
  _handle_command c cmd =
    match rest with
    | remainder :: _ =>
        match PyStr.split_maxsplit1 remainder with
        | p :: text :: _ =>
            room ← gets (λ s, current_room (client_of s c));
            match room with
            | Some r =>
                success ← send_private_message r c (PyStr.lstrip_at p) text;
                send_message c
                  (if success : bool
                   then [("type", Some "system");
                         ("content", Some ("Private message sent to "
                                           +:+ PyStr.lstrip_at p))]
                   else [("type", Some "error");
                         ("content", Some ("User " +:+ PyStr.lstrip_at p
                                           +:+ " not found"))])
            | None => mret tt
            end
        | _ => mret tt
        end
    | [] => mret tt
    end.
Proof.
  intros Hs Hp. unfold _handle_command. rewrite Hs. cbv zeta. by rewrite Hp.
Qed.

Lemma handle_command_private_malformed c cmd s p0 rest :
  PyStr.split_maxsplit1 cmd = p0 :: rest → PyStr.lower p0 = "/private" →
  (∀ remainder, head rest = Some remainder →
                length (PyStr.split_maxsplit1 remainder) < 2) →
  _handle_command c cmd s = (Ok tt, s).
Proof.
  intros Hs Hp Hr. rewrite (handle_command_private c cmd p0 rest Hs Hp).
  destruct rest as [| remainder rest']; [done |].
  specialize (Hr remainder eq_refl).
  destruct (PyStr.split_maxsplit1 remainder) as [| p [| text l]]; try done.
  simpl in Hr. lia.
Qed.

Lemma find_member_absent s r u : ¬ has_member_named s r u → find_member s r u = None.
Proof.
  intros H. destruct (find_member s r u) as [t|] eqn:E; [| done].
  exfalso. apply H. exists t. by apply find_member_Some.
Qed.

Lemma handle_command_private_not_found c cmd s p0 rest remainder p text l r :
  PyStr.split_maxsplit1 cmd = p0 :: rest → PyStr.lower p0 = "/private" →
  head rest = Some remainder →
  PyStr.split_maxsplit1 remainder = p :: text :: l →
  current_room (client_of s c) = Some r →
  ¬ has_member_named s r (PyStr.lstrip_at p) →
  _handle_command c cmd s
  = (Ok tt, send_message_state c (user_not_found (PyStr.lstrip_at p)) s).
Proof.
  intros Hs Hp Hh Hr Hroom Hno.
  rewrite (handle_command_private c cmd p0 rest Hs Hp).
  destruct rest as [| remainder' rest']; [discriminate |].
  injection Hh as ->. rewrite Hr.
  unfold mbind, M_bind, gets. rewrite Hroom.
  unfold send_private_message, mbind, M_bind, gets, mret, M_ret.
  rewrite (find_member_absent _ _ _ Hno). by rewrite send_message_eq.
Qed.

Lemma split_second_nonempty cmd a b l :
  PyStr.split_maxsplit1 cmd = a :: b :: l → PyStr.is_empty b = false.
Proof.
  unfold PyStr.split_maxsplit1.
  destruct (PyStr.is_empty (PyStr.lstrip cmd)); [discriminate |].
  destruct (PyStr.take_word (PyStr.lstrip cmd)) as [w r0].
  destruct (PyStr.is_empty (PyStr.lstrip r0)) eqn:E; [discriminate |].
  by intros [= _ <- _].
Qed.

Lemma handle_command_file_path c cmd s p0 path l :
  PyStr.split_maxsplit1 cmd = p0 :: path :: l → PyStr.lower p0 = "/file" →
  _handle_command c cmd s = _upload_file c path s.
Proof.
  intros Hs Hp. pose proof (split_second_nonempty _ _ _ _ Hs) as Hne.
  unfold _handle_command. rewrite Hs. cbv zeta. rewrite Hp.
  cbn [String.eqb Ascii.eqb Bool.eqb].
  unfold mbind, M_bind, mret, M_ret. by rewrite Hne.
Qed.

(** After a command that returned, the read loop takes the next line. *)
Lemma read_loop_continues fuel c s d rest s2 :
  reader (client_of s c) = Data d :: rest →
  PyStr.is_empty (PyStr.strip d) = false →
  PyStr.startswith_slash (PyStr.strip d) = true →
  _handle_command c (PyStr.strip d) (take_event c rest s) = (Ok tt, s2) →
  _receive_from_client (S fuel) c s = _receive_from_client fuel c s2.
Proof.
  intros Hrd Hne Hsl Hcmd. cbn [_receive_from_client].
  unfold mbind at 1, M_bind at 1.
  rewrite (receive_message_data _ _ d rest Hrd).
  destruct (PyStr.is_empty d) eqn:Hd.
  { by rewrite (strip_empty_is_empty d Hd) in Hne. }
  rewrite Hne, Hsl. unfold mbind, M_bind. by rewrite Hcmd.
Qed.


(** ** What the messages carry *)

Lemma post_message_eq r c content s :
  post_message r c content s
  = (Ok tt, upd_room r (set_message_queue (λ q, q ++ [room_message s c content])) s).
Proof. reflexivity. Qed.

Lemma written_alter (f : ClientConnection → ClientConnection) i j
    (l : list ClientConnection) :
  (∀ x, write_calls (writer (f x)) = write_calls (writer x)) →
  write_calls (writer (alter f i l !!! j)) = write_calls (writer (l !!! j)).
Proof. apply (field_alter (λ x, write_calls (writer x))). Qed.

Lemma sent_to_named_state c pending s :
  c < length (client_objs s) →
  sent_to (named_state c pending s) c = sent_to s c ++ [request_name].
Proof.
  intros H. unfold named_state, sent_to. store_simpl.
  rewrite ?written_alter by done. by apply send_message_sent_to.
Qed.

Lemma sent_to_asked_room_state c u pending rest s :
  c < length (client_objs s) →
  sent_to (asked_room_state c u pending rest s) c
  = sent_to s c ++ [request_name; request_room].
Proof.
  intros H. unfold asked_room_state. unfold sent_to at 1. store_simpl.
  rewrite ?written_alter by done.
  fold (sent_to (send_message_state c request_room
                   (upd_client c (set_username (Some u)) (named_state c pending s))) c).
  rewrite send_message_sent_to by (by store_simpl).
  unfold sent_to at 1. store_simpl. rewrite ?written_alter by done.
  fold (sent_to (named_state c pending s) c).
  rewrite sent_to_named_state by done. by rewrite <- app_assoc.
Qed.

Lemma sent_to_joined_state c u nm pending rest s :
  c < length (client_objs s) →
  sent_to (joined_state c u nm pending rest s) c
  = sent_to s c ++ [request_name; request_room; welcome nm].
Proof.
  intros H. unfold joined_state. rewrite room_for_asked.
  destruct (rooms s !! nm) as [r0|]; cbn [fst snd];
    (rewrite send_message_sent_to by (by store_simpl));
    unfold sent_to at 1; store_simpl; rewrite ?written_alter by done;
    fold (sent_to (asked_room_state c u pending rest s) c);
    rewrite sent_to_asked_room_state by done; by rewrite <- app_assoc.
Qed.


(** * Further properties of the server *)

(** ** What stays the same *)

Ltac same_sessions_tac :=
  unfold same_sessions; split_and!; intros; store_simpl; try done.

Lemma same_sessions_refl s : same_sessions s s.
Proof. same_sessions_tac. Qed.

Lemma same_sessions_trans s1 s2 s3 :
  same_sessions s1 s2 → same_sessions s2 s3 → same_sessions s1 s3.
Proof.
  unfold same_sessions. intros H1 H2. destruct_and!.
  split_and!; intros; try congruence.
  etrans; eauto.
Qed.

Lemma same_sessions_send_message c m s : same_sessions s (send_message_state c m s).
Proof. same_sessions_tac. Qed.

Lemma same_sessions_add_log l s : same_sessions s (add_log l s).
Proof. same_sessions_tac. Qed.

Lemma same_sessions_set_fs f s : same_sessions s (set_fs f s).
Proof. same_sessions_tac. Qed.

Lemma same_sessions_queue r f s :
  same_sessions s (upd_room r (set_message_queue f) s).
Proof. same_sessions_tac. Qed.

Lemma same_sessions_private_queue c f s :
  same_sessions s (upd_client c (set_private_queue f) s).
Proof. same_sessions_tac. Qed.

Lemma reader_length_take_event c rest s c' :
  length rest ≤ length (reader (client_of s c)) →
  length (reader (client_of (take_event c rest s) c'))
  ≤ length (reader (client_of s c')).
Proof.
  intros H. unfold take_event. rewrite client_of_upd_client.
  case_decide as E; [destruct E as [-> _]; done | done].
Qed.

Lemma same_sessions_take_event c rest s :
  length rest ≤ length (reader (client_of s c)) →
  same_sessions s (take_event c rest s).
Proof.
  intros H. unfold same_sessions. split_and!; intros;
    try (by apply reader_length_take_event); store_simpl; done.
Qed.

(** The coroutines are composed with bind: what every part leaves alone,
    the whole leaves alone. *)
Lemma same_sessions_bind {A B} (m : M A) (k : A → M B) :
  (∀ s, same_sessions s (m s).2) →
  (∀ a s, same_sessions s (k a s).2) →
  ∀ s, same_sessions s ((m ≫= k) s).2.
Proof.
  intros Hm Hk s. unfold mbind, M_bind.
  specialize (Hm s). destruct (m s) as [[a|e] s1]; [| done].
  eapply same_sessions_trans; [exact Hm | apply Hk].
Qed.

Lemma same_sessions_try_except {A} (body : M A) (handler : exn → M A) :
  (∀ s, same_sessions s (body s).2) →
  (∀ e s, same_sessions s (handler e s).2) →
  ∀ s, same_sessions s (try_except body handler s).2.
Proof.
  intros Hm Hk s. unfold try_except.
  specialize (Hm s). destruct (body s) as [[a|e] s1]; [done |].
  destruct (is_Exception e); [| done].
  eapply same_sessions_trans; [exact Hm | apply Hk].
Qed.

Lemma same_sessions_ret {A} (a : A) s : same_sessions s ((mret a : M A) s).2.
Proof. apply same_sessions_refl. Qed.

Lemma same_sessions_gets {A} (f : AsyncChatServer → A) s :
  same_sessions s (gets f s).2.
Proof. apply same_sessions_refl. Qed.

Lemma same_sessions_raise {A} e s : same_sessions s ((raise e : M A) s).2.
Proof. apply same_sessions_refl. Qed.

Lemma send_message_keeps c m s : same_sessions s (send_message c m s).2.
Proof. rewrite send_message_eq. apply same_sessions_send_message. Qed.

(** ** [receive_message] *)

Lemma receive_message_keeps c s : same_sessions s (receive_message c s).2.
Proof.
  destruct (reader (client_of s c)) as [|[d|] rest] eqn:E.
  - rewrite receive_message_eof by done. apply same_sessions_refl.
  - rewrite (receive_message_data _ _ _ _ E).
    apply same_sessions_take_event. rewrite E. simpl. lia.
  - rewrite (receive_message_fault _ _ _ E).
    eapply same_sessions_trans; [| apply same_sessions_add_log].
    apply same_sessions_take_event. rewrite E. simpl. lia.
Qed.

Lemma receive_message_ok c s : ∃ v, (receive_message c s).1 = Ok v.
Proof.
  destruct (reader (client_of s c)) as [|[d|] rest] eqn:E.
  - rewrite receive_message_eof by done. by eexists.
  - rewrite (receive_message_data _ _ _ _ E). by eexists.
  - rewrite (receive_message_fault _ _ _ E). by eexists.
Qed.

(** What [receive_message] gives when it gives a line: the next event was
    data, and the line is what [strip] leaves of it. *)
Lemma receive_message_Some c s v s1 :
  receive_message c s = (Ok (Some v), s1) →
  ∃ d rest, reader (client_of s c) = Data d :: rest
            ∧ v = PyStr.strip d ∧ s1 = take_event c rest s.
Proof.
  destruct (reader (client_of s c)) as [|[d|] rest] eqn:E.
  - rewrite receive_message_eof by done. done.
  - rewrite (receive_message_data _ _ _ _ E).
    destruct (PyStr.is_empty d); [done |]. intros [= <- <-]. by exists d, rest.
  - rewrite (receive_message_fault _ _ _ E). done.
Qed.


(** ** [send_private_message], [_upload_file], [_handle_command] *)

Lemma send_private_message_keeps r c u t s :
  same_sessions s (send_private_message r c u t s).2.
Proof.
  unfold send_private_message. munfold.
  destruct (find_member s r u);
    [apply same_sessions_private_queue | apply same_sessions_refl].
Qed.

Lemma send_private_message_ok r c u t s :
  ∃ b, (send_private_message r c u t s).1 = Ok b.
Proof.
  unfold send_private_message. munfold.
  destruct (find_member s r u); by eexists.
Qed.

(** The ways [_upload_file] ends: with an error message to the client and a
    record in the log, or with the copy. *)
Lemma upload_file_cases c p s :
  (∃ text l,
     _upload_file c p s
     = (Ok tt, send_message_state c (upload_error text) (add_log l s)))
  ∨ (∃ src b dest fs1,
       stat (fs s) (upload_path s p) = Some (src, File b)
       ∧ open_wb (fs s) (upload_dest s p) = inr (dest, fs1)
       ∧ _upload_file c p s
         = (Ok tt, uploaded_state c (path_name (upload_path s p)) dest
                     (read_at fs1 src) (set_fs (λ _, fs1) s))).
Proof.
  destruct (path_exists (fs s) (upload_path s p)) eqn:Ex.
  2:{ left. eexists _, _. by apply upload_not_found. }
  destruct (path_is_file (fs s) (upload_path s p)) eqn:Ef.
  2:{ left. eexists _, _. by apply upload_not_a_file. }
  unfold path_is_file in Ef.
  destruct (stat (fs s) (upload_path s p)) as [[src [b|]]|] eqn:Es; try done.
  destruct (open_wb (fs s) (upload_dest s p)) as [e|[dest fs1]] eqn:Eo.
  - left. eexists _, _. by eapply upload_open_fails.
  - right. exists src, b, dest, fs1. split_and!; try done.
    by eapply upload_copies.
Qed.

Lemma same_sessions_uploaded_state c nm dest content s :
  same_sessions s (uploaded_state c nm dest content s).
Proof.
  unfold uploaded_state. destruct (current_room (client_of s c));
    same_sessions_tac.
Qed.

Lemma upload_file_keeps c p s : same_sessions s (_upload_file c p s).2.
Proof.
  destruct (upload_file_cases c p s)
    as [(text & l & ->)|(src & b & dest & fs1 & _ & _ & ->)]; cbn [snd].
  - eapply same_sessions_trans;
      [apply same_sessions_add_log | apply same_sessions_send_message].
  - eapply same_sessions_trans;
      [apply (same_sessions_set_fs (λ _, fs1)) | apply same_sessions_uploaded_state].
Qed.

Lemma upload_file_ok c p s : (_upload_file c p s).1 = Ok tt.
Proof.
  by destruct (upload_file_cases c p s)
    as [(text & l & ->)|(src & b & dest & fs1 & _ & _ & ->)].
Qed.

Lemma handle_command_keeps c cmd : ∀ s, same_sessions s (_handle_command c cmd s).2.
Proof.
  unfold _handle_command.
  destruct (PyStr.split_maxsplit1 cmd) as [|p0 rest];
    [intros; apply same_sessions_raise |].
  cbv zeta.
  destruct (String.eqb _ "/help"); [intros; apply send_message_keeps |].
  destruct (String.eqb _ "/list").
  { apply same_sessions_bind; [intros; apply same_sessions_gets |].
    intros [r|]; [| intros; apply same_sessions_ret].
    apply same_sessions_bind; [intros; apply same_sessions_gets |].
    intros names.
    apply same_sessions_bind; [| intros; apply send_message_keeps].
    unfold join_usernames.
    destruct (mapM id names); intros; apply same_sessions_refl. }
  destruct (String.eqb _ "/private").
  { destruct rest as [|remainder ?]; [intros; apply same_sessions_ret |].
    destruct (PyStr.split_maxsplit1 remainder) as [|p [|text ?]];
      try (intros; apply same_sessions_ret).
    apply same_sessions_bind; [intros; apply same_sessions_gets |].
    intros [r|]; [| intros; apply same_sessions_ret].
    apply same_sessions_bind; [intros; apply send_private_message_keeps |].
    intros; apply send_message_keeps. }
  destruct (String.eqb _ "/file").
  { apply same_sessions_bind.
    - destruct rest as [|p ?]; [| intros; apply same_sessions_ret].
      apply same_sessions_bind; [intros; apply send_message_keeps |].
      intros; apply receive_message_keeps.
    - intros [p|]; [| intros; apply same_sessions_ret].
      destruct (PyStr.is_empty p);
        [intros; apply same_sessions_ret | intros; apply upload_file_keeps]. }
  destruct (String.eqb _ "/quit");
    [intros; apply same_sessions_raise | intros; apply same_sessions_ret].
Qed.

(** How [_handle_command] ends. *)
Lemma handle_command_outcome c cmd s :
  (_handle_command c cmd s).1 =
    match PyStr.split_maxsplit1 cmd with
    | [] => Raise IndexError
    | p0 :: _ =>
        if String.eqb (PyStr.lower p0) "/list" then
          match current_room (client_of s c) with
          | Some r =>
              match mapM id (member_names s r) with
              | Some _ => Ok tt
              | None => Raise TypeError
              end
          | None => Ok tt
          end
        else if String.eqb (PyStr.lower p0) "/quit" then Raise CancelledError
        else Ok tt
    end.
Proof.
  unfold _handle_command.
  destruct (PyStr.split_maxsplit1 cmd) as [|p0 rest]; [done |].
  cbv zeta.
  destruct (String.eqb_spec (PyStr.lower p0) "/help") as [E|_]; try rewrite E.
  { by rewrite send_message_eq. }
  destruct (String.eqb_spec (PyStr.lower p0) "/list") as [E|_]; try rewrite E.
  { munfold. destruct (current_room (client_of s c)) as [r|]; [| done].
    unfold join_usernames, member_names.
    destruct (mapM id _); [| done].
    munfold. by rewrite send_message_eq. }
  destruct (String.eqb_spec (PyStr.lower p0) "/private") as [E|_]; try rewrite E.
  { cbn [String.eqb Ascii.eqb Bool.eqb].
    destruct rest as [|remainder ?]; [done |].
    destruct (PyStr.split_maxsplit1 remainder) as [|p [|text ?]]; try done.
    unfold mbind at 1, M_bind at 1, gets at 1.
    destruct (current_room (client_of s c)) as [r|]; [| done].
    unfold mbind at 1, M_bind at 1.
    destruct (send_private_message_ok r c (PyStr.lstrip_at p) text s) as [b Hb].
    destruct (send_private_message r c (PyStr.lstrip_at p) text s) as [o s1].
    simpl in Hb. subst o. by rewrite send_message_eq. }
  destruct (String.eqb_spec (PyStr.lower p0) "/file") as [E|_]; try rewrite E.
  { cbn [String.eqb Ascii.eqb Bool.eqb].
    destruct rest as [|p ?].
    - unfold mbind at 1, M_bind at 1.
      unfold mbind at 1, M_bind at 1. rewrite send_message_eq.
      destruct (receive_message_ok c (send_message_state c file_prompt s)) as [v Hv].
      fold file_prompt.
      destruct (receive_message c (send_message_state c file_prompt s)) as [o s1].
      simpl in Hv. subst o.
      destruct v as [p|]; [| done].
      destruct (PyStr.is_empty p); [done | apply upload_file_ok].
    - unfold mbind at 1, M_bind at 1. unfold mret at 1, M_ret at 1.
      destruct (PyStr.is_empty p); [done | apply upload_file_ok]. }
  by destruct (String.eqb (PyStr.lower p0) "/quit").
Qed.

(** A command has no first word exactly when nothing is left of it after
    [strip]. *)
Lemma lstrip_head s a r : PyStr.lstrip s = String a r → PyStr.isspace a = false.
Proof.
  induction s as [|b s IH]; [done |]. simpl.
  destruct (PyStr.isspace b) eqn:E; [done |]. by intros [= <- _].
Qed.

Lemma strip_empty_iff s : PyStr.strip s = "" ↔ PyStr.lstrip s = "".
Proof.
  unfold PyStr.strip. split; [| by intros ->].
  destruct (PyStr.lstrip s) as [|a r] eqn:E; [done |].
  simpl. by rewrite (lstrip_head _ _ _ E).
Qed.

Lemma split_nil_iff cmd : PyStr.split_maxsplit1 cmd = [] ↔ PyStr.strip cmd = "".
Proof.
  rewrite strip_empty_iff. unfold PyStr.split_maxsplit1.
  destruct (PyStr.lstrip cmd) as [|a r]; [done |].
  cbn [PyStr.is_empty].
  destruct (PyStr.take_word (String a r)) as [w r'].
  by destruct (PyStr.is_empty (PyStr.lstrip r')).
Qed.

Lemma mapM_id_None (l : list (option string)) : mapM id l = None ↔ None ∈ l.
Proof.
  rewrite eq_None_not_Some, mapM_is_Some, Forall_forall. split.
  - intros H. destruct (decide (None ∈ l)) as [|Hn]; [done |].
    destruct H. intros [x|] Hx; [by eexists | done].
  - intros H Hall. by destruct (Hall _ H).
Qed.

Lemma handle_command_raise_state c cmd s :
  (_handle_command c cmd s).1 ≠ Ok tt → (_handle_command c cmd s).2 = s.
Proof.
  rewrite handle_command_outcome. unfold _handle_command.
  destruct (PyStr.split_maxsplit1 cmd) as [|p0 rest] eqn:Es; [done |].
  cbv zeta.
  destruct (String.eqb_spec (PyStr.lower p0) "/list") as [El|El].
  - rewrite El. cbn [String.eqb Ascii.eqb Bool.eqb].
    munfold. destruct (current_room (client_of s c)) as [r|] eqn:Er; [| done].
    unfold join_usernames. fold (member_names s r).
    by destruct (mapM id (member_names s r)).
  - destruct (String.eqb_spec (PyStr.lower p0) "/quit") as [Eq|Eq]; [| done].
    by rewrite Eq.
Qed.

(** X4: the exceptions [_handle_command] raises.  A command without a
    first word raises [IndexError] at [parts[0]]; [/quit], in any case of
    letters, raises [CancelledError]; [/list] raises [TypeError] when a
    member of the room has no name; every other command returns.  When
    the command raises, nothing was sent and nothing changed. *)
Theorem handle_command_outcomes (c : client_ref) (cmd : string) (s : AsyncChatServer) :
  let res := _handle_command c cmd s in
  (res.1 = Raise IndexError ↔ PyStr.strip cmd = "")
  ∧ (res.1 = Raise CancelledError
     ↔ ∃ p0 rest, PyStr.split_maxsplit1 cmd = p0 :: rest
                  ∧ PyStr.lower p0 = "/quit")
  ∧ (res.1 = Raise TypeError
     ↔ ∃ p0 rest r, PyStr.split_maxsplit1 cmd = p0 :: rest
                    ∧ PyStr.lower p0 = "/list"
                    ∧ current_room (client_of s c) = Some r
                    ∧ None ∈ member_names s r)
  ∧ (res.1 = Ok tt ∨ res.1 = Raise IndexError ∨ res.1 = Raise CancelledError
     ∨ res.1 = Raise TypeError)
  ∧ (res.1 ≠ Ok tt → res.2 = s).
Proof.
  intros res. subst res.
  split_and!; [| | | | apply handle_command_raise_state];
    rewrite <- ?split_nil_iff, handle_command_outcome;
    destruct (PyStr.split_maxsplit1 cmd) as [|p0 rest] eqn:Es.
  - done.
  - split; [| done].
    destruct (String.eqb (PyStr.lower p0) "/list");
      [destruct (current_room (client_of s c)) as [r|];
       [by destruct (mapM id (member_names s r)) | done] |].
    by destruct (String.eqb (PyStr.lower p0) "/quit").
  - split; [done | by intros (? & ? & ? & _)].
  - destruct (String.eqb_spec (PyStr.lower p0) "/list") as [El|El].
    + split.
      * destruct (current_room (client_of s c)) as [r|];
          [by destruct (mapM id (member_names s r)) | done].
      * intros (? & ? & [= <- <-] & E). by rewrite El in E.
    + destruct (String.eqb_spec (PyStr.lower p0) "/quit") as [Eq|Eq].
      * split; [intros _; by exists p0, rest | done].
      * split; [done |]. by intros (? & ? & [= <- <-] & E).
  - split; [done | by intros (? & ? & ? & ? & _)].
  - destruct (String.eqb_spec (PyStr.lower p0) "/list") as [El|El].
    + destruct (current_room (client_of s c)) as [r|] eqn:Er.
      * destruct (mapM id (member_names s r)) as [names|] eqn:Em.
        -- split; [done |].
           intros (? & ? & r' & [= <- <-] & _ & [= <-] & Hn).
           apply mapM_id_None in Hn. by rewrite Em in Hn.
        -- split; [intros _ | done]. exists p0, rest, r.
           split_and!; try done. by apply mapM_id_None.
      * split; [done |]. by intros (? & ? & r' & [= <- <-] & _ & ? & _).
    + split.
      * by destruct (String.eqb (PyStr.lower p0) "/quit").
      * by intros (? & ? & r' & [= <- <-] & ? & _).
  - by right; left.
  - destruct (String.eqb (PyStr.lower p0) "/list").
    + destruct (current_room (client_of s c)) as [r|]; [| by left].
      destruct (mapM id (member_names s r)); [by left | by right; right; right].
    + destruct (String.eqb (PyStr.lower p0) "/quit");
        [by right; right; left | by left].
Qed.

(** ** The read loop *)

Lemma read_loop_unfold fuel c :
  _receive_from_client (S fuel) c =
    (message ← receive_message c;
     match message with
     | Some msg =>
         if PyStr.is_empty msg then mret tt
         else handle_line c msg;; _receive_from_client fuel c
     | None => mret tt
     end).
Proof. reflexivity. Qed.

Lemma post_message_keeps r c content s :
  same_sessions s (post_message r c content s).2.
Proof. rewrite post_message_eq. apply same_sessions_queue. Qed.

Lemma handle_line_keeps c msg : ∀ s, same_sessions s (handle_line c msg s).2.
Proof.
  unfold handle_line.
  destruct (PyStr.startswith_slash msg); [apply handle_command_keeps |].
  apply same_sessions_bind; [intros; apply same_sessions_gets |].
  intros [r|]; intros; [apply post_message_keeps | apply same_sessions_ret].
Qed.

Lemma read_loop_keeps fuel c : ∀ s, same_sessions s (_receive_from_client fuel c s).2.
Proof.
  induction fuel as [|fuel IH]; [intros; apply same_sessions_raise |].
  rewrite read_loop_unfold.
  apply same_sessions_bind; [intros; apply receive_message_keeps |].
  intros [msg|]; [| intros; apply same_sessions_ret].
  destruct (PyStr.is_empty msg); [intros; apply same_sessions_ret |].
  apply same_sessions_bind; [apply handle_line_keeps | intros; apply IH].
Qed.

(** X3: the read duty of a session changes no session.  Whatever the
    client sends, lines, commands or paths to upload, the registry, the
    set of clients, the names and the members of the rooms, and the name,
    the room and the writer's state of every connection are after the loop
    what they were before it; the same holds of one command and of one
    upload. *)
Theorem read_duty_changes_no_session :
  (∀ (fuel : nat) (c : client_ref) (s : AsyncChatServer),
     same_sessions s (_receive_from_client fuel c s).2)
  ∧ (∀ (c : client_ref) (cmd : string) (s : AsyncChatServer),
       same_sessions s (_handle_command c cmd s).2)
  ∧ (∀ (c : client_ref) (file_path : string) (s : AsyncChatServer),
       same_sessions s (_upload_file c file_path s).2)
  ∧ (∀ (r : room_ref) (c : client_ref) (to_username content : string)
       (s : AsyncChatServer),
       same_sessions s (send_private_message r c to_username content s).2).
Proof.
  split_and!; intros.
  - apply read_loop_keeps.
  - apply handle_command_keeps.
  - apply upload_file_keeps.
  - apply send_private_message_keeps.
Qed.

Lemma handle_line_outcome c msg s :
  (handle_line c msg s).1 = Ok tt
  ∨ (handle_line c msg s).1 = Raise IndexError
  ∨ (handle_line c msg s).1 = Raise CancelledError
  ∨ (handle_line c msg s).1 = Raise TypeError.
Proof.
  unfold handle_line. destruct (PyStr.startswith_slash msg).
  - rewrite handle_command_outcome.
    destruct (PyStr.split_maxsplit1 msg) as [|p0 rest]; [by right; left |].
    destruct (String.eqb (PyStr.lower p0) "/list").
    + destruct (current_room (client_of s c)) as [r|]; [| by left].
      destruct (mapM id (member_names s r)); [by left | by right; right; right].
    + destruct (String.eqb (PyStr.lower p0) "/quit");
        [by right; right; left | by left].
  - munfold. destruct (current_room (client_of s c)); [| by left].
    rewrite post_message_eq. by left.
Qed.

(** One turn of the loop: either it ends there, or it goes on from a state
    where the connection has less to read. *)
Lemma read_loop_turn fuel c s :
  (∀ fuel', _receive_from_client (S fuel') c s = _receive_from_client (S fuel) c s)
  ∧ (_receive_from_client (S fuel) c s).1 ≠ Raise NoFuel
  ∨ ∃ s2, length (reader (client_of s2 c)) < length (reader (client_of s c))
          ∧ ∀ fuel', _receive_from_client (S fuel') c s = _receive_from_client fuel' c s2.
Proof.
  destruct (receive_message c s) as [[[msg|]|e] s1] eqn:E.
  - destruct (PyStr.is_empty msg) eqn:Em.
    { left. split; [intros fuel' |]; rewrite !read_loop_unfold;
        unfold mbind, M_bind; rewrite E, Em; done. }
    destruct (handle_line c msg s1) as [[[]|e] s2] eqn:E2.
    + right. exists s2. split.
      * destruct (receive_message_Some _ _ _ _ E) as (d & rest & Hrd & _ & ->).
        pose proof (handle_line_keeps c msg (take_event c rest s)) as Hk.
        rewrite E2 in Hk. cbn [snd] in Hk.
        destruct Hk as (_ & _ & _ & _ & _ & _ & _ & _ & _ & _ & _ & _ & _ & Hk).
        specialize (Hk c).
        rewrite reader_take_event in Hk by (by eapply reader_valid).
        rewrite Hrd. simpl. lia.
      * intros fuel'. rewrite read_loop_unfold. unfold mbind, M_bind.
        by rewrite E, Em, E2.
    + left. split; [intros fuel' |]; rewrite !read_loop_unfold;
        unfold mbind, M_bind; rewrite E, Em, E2; [done |].
      cbn [fst]. intros [= ->].
      destruct (handle_line_outcome c msg s1) as [H|[H|[H|H]]];
        rewrite E2 in H; done.
  - left. split; [intros fuel' |]; rewrite !read_loop_unfold;
      unfold mbind, M_bind; rewrite E; done.
  - destruct (receive_message_ok c s) as [v Hv]. by rewrite E in Hv.
Qed.

Lemma read_loop_fuel c fuel : ∀ s fuel',
  length (reader (client_of s c)) < fuel →
  length (reader (client_of s c)) < fuel' →
  _receive_from_client fuel c s = _receive_from_client fuel' c s
  ∧ (_receive_from_client fuel c s).1 ≠ Raise NoFuel.
Proof.
  induction fuel as [|fuel IH]; intros s fuel' H H'; [lia |].
  destruct fuel' as [|fuel']; [lia |].
  destruct (read_loop_turn fuel c s) as [[Heq Hne]|(s2 & Hlt & Heq)].
  - by rewrite (Heq fuel').
  - rewrite (Heq fuel), (Heq fuel'). apply IH; lia.
Qed.

Lemma strip_head d a r : PyStr.strip d = String a r → PyStr.isspace a = false.
Proof.
  unfold PyStr.strip.
  destruct (PyStr.lstrip d) as [|b x] eqn:E; [done |].
  pose proof (lstrip_head _ _ _ E) as Hb. simpl. rewrite Hb. simpl.
  by intros [= <- _].
Qed.

(** What is left of a line after [strip] has a first word. *)
Lemma split_stripped d : PyStr.strip d ≠ "" → PyStr.split_maxsplit1 (PyStr.strip d) ≠ [].
Proof.
  intros H. rewrite split_nil_iff, strip_empty_iff.
  destruct (PyStr.strip d) as [|a r] eqn:E; [done |].
  simpl. by rewrite (strip_head _ _ _ E).
Qed.

Lemma handle_line_stripped c d s :
  PyStr.strip d ≠ "" → (handle_line c (PyStr.strip d) s).1 ≠ Raise IndexError.
Proof.
  intros Hd. unfold handle_line. destruct (PyStr.startswith_slash _).
  - rewrite handle_command_outcome.
    destruct (PyStr.split_maxsplit1 (PyStr.strip d)) as [|p0 rest] eqn:Es;
      [by apply split_stripped in Es |].
    destruct (String.eqb (PyStr.lower p0) "/list").
    + destruct (current_room (client_of s c)) as [r|]; [| done].
      by destruct (mapM id (member_names s r)).
    + by destruct (String.eqb (PyStr.lower p0) "/quit").
  - munfold. destruct (current_room (client_of s c)); [| done].
    by rewrite post_message_eq.
Qed.

Lemma read_loop_result fuel c s :
  (_receive_from_client fuel c s).1 = Ok tt
  ∨ (_receive_from_client fuel c s).1 = Raise NoFuel
  ∨ (_receive_from_client fuel c s).1 = Raise CancelledError
  ∨ (_receive_from_client fuel c s).1 = Raise TypeError.
Proof.
  revert s. induction fuel as [|fuel IH]; intros s; [by right; left |].
  rewrite read_loop_unfold. unfold mbind, M_bind.
  destruct (receive_message_ok c s) as [v Hv].
  destruct (receive_message c s) as [o s1] eqn:E. simpl in Hv. subst o.
  destruct v as [msg|]; [| by left].
  destruct (PyStr.is_empty msg) eqn:Em; [by left |].
  destruct (handle_line c msg s1) as [[[]|e] s2] eqn:E2; [apply IH |].
  destruct (receive_message_Some _ _ _ _ E) as (d & rest & _ & -> & _).
  assert (PyStr.strip d ≠ "") as Hd by (by intros Hd; rewrite Hd in Em).
  pose proof (handle_line_stripped c d s1 Hd) as Hi.
  destruct (handle_line_outcome c (PyStr.strip d) s1) as [H|[H|[H|H]]];
    rewrite E2 in H, Hi; simpl in H, Hi; try done;
    injection H as ->; cbn [fst]; tauto.
Qed.

(** X18: the read loop ends.  Every turn of the loop takes an event from
    the reader or leaves the loop, so a run needs no more turns than the
    reader has events, plus the one that meets the end of the stream; with
    that many turns the bound of the model is never reached, and more
    turns change nothing.  The task of the read duty then ends, normally
    or with the [CancelledError] of [/quit] or the [TypeError] of [/list],
    and [serve] returns. *)
Theorem read_loop_terminates (c : client_ref) (s : AsyncChatServer) (fuel : nat) :
  length (reader (client_of s c)) < fuel →
  let res := _receive_from_client fuel c s in
  res = _receive_from_client (S (length (reader (client_of s c)))) c s
  ∧ (res.1 = Ok tt ∨ res.1 = Raise CancelledError ∨ res.1 = Raise TypeError)
  ∧ serve c s = (Ok tt, res.2).
Proof.
  intros H res. subst res.
  destruct (read_loop_fuel c fuel s (S (length (reader (client_of s c))))
              ltac:(done) ltac:(lia)) as [Heq Hne].
  split; [done |]. split.
  - destruct (read_loop_result fuel c s) as [?|[?|[?|?]]]; tauto.
  - unfold serve. rewrite <- Heq.
    destruct (read_loop_result fuel c s) as [Hr|[Hr|[Hr|Hr]]];
      destruct (_receive_from_client fuel c s) as [o s2];
      simpl in Hr, Hne; subst o; done.
Qed.

(** ** Lines that are no commands *)

Lemma plain_line_spec d :
  plain_line d = true →
  PyStr.is_empty d = false ∧ PyStr.is_empty (PyStr.strip d) = false
  ∧ PyStr.startswith_slash (PyStr.strip d) = false.
Proof.
  unfold plain_line. intros [H1 H2]%andb_true_iff.
  apply negb_true_iff in H1, H2. split_and!; try done.
  destruct d; [done | done].
Qed.

Lemma room_message_same s s' c content :
  username (client_of s' c) = username (client_of s c) → now s' = now s →
  room_message s' c content = room_message s c content.
Proof. unfold room_message. by intros -> ->. Qed.

Lemma read_loop_plain fuel c s d rest r :
  reader (client_of s c) = Data d :: rest →
  plain_line d = true →
  current_room (client_of s c) = Some r →
  _receive_from_client (S fuel) c s
  = _receive_from_client fuel c
      (upd_room r (set_message_queue (λ q, q ++ [room_message s c (PyStr.strip d)]))
         (take_event c rest s)).
Proof.
  intros Hrd (Hd & Hs & Hp)%plain_line_spec Hr.
  rewrite read_loop_unfold. unfold mbind at 1, M_bind at 1.
  rewrite (receive_message_data _ _ _ _ Hrd), Hd, Hs.
  unfold handle_line. rewrite Hp.
  unfold mbind at 1, M_bind at 1. unfold mbind at 1, M_bind at 1, gets at 1.
  assert (current_room (client_of (take_event c rest s) c) = Some r) as ->
    by (store_simpl; done).
  rewrite post_message_eq.
  rewrite (room_message_same s) by (store_simpl; done).
  reflexivity.
Qed.


(** ** The handshake, whatever the client answers *)

Lemma same_rooms_refl s : same_rooms s s.
Proof. by unfold same_rooms. Qed.

Lemma same_rooms_trans s1 s2 s3 :
  same_rooms s1 s2 → same_rooms s2 s3 → same_rooms s1 s3.
Proof.
  unfold same_rooms. intros H1 H2. destruct_and!.
  split_and!; intros; try congruence. eauto.
Qed.

Lemma same_rooms_send_message c m s : same_rooms s (send_message_state c m s).
Proof. unfold same_rooms; split_and!; intros; store_simpl; done. Qed.

Lemma same_rooms_set_username c u s :
  same_rooms s (upd_client c (set_username (Some u)) s).
Proof.
  unfold same_rooms; split_and!; intros; store_simpl; try done.
  rewrite list_lookup_total_alter. case_decide; [by eexists | done].
Qed.

Lemma same_rooms_receive_message c s : same_rooms s (receive_message c s).2.
Proof.
  destruct (reader (client_of s c)) as [|[d|] rest] eqn:E.
  - rewrite receive_message_eof by done. apply same_rooms_refl.
  - rewrite (receive_message_data _ _ _ _ E).
    unfold same_rooms; split_and!; intros; store_simpl; done.
  - rewrite (receive_message_fault _ _ _ E).
    unfold same_rooms; split_and!; intros; store_simpl; done.
Qed.

(** The part of [handshake] after the name was taken. *)
Lemma handshake_named c s v s1 :
  receive_message c (send_message_state c request_name s) = (Ok (Some v), s1) →
  PyStr.is_empty v = false →
  handshake c s =
    match receive_message c
            (send_message_state c request_room
               (upd_client c (set_username (Some v)) s1)) with
    | (Ok (Some room_name), s2) =>
        if PyStr.is_empty room_name then (Ok false, s2)
        else
          let rs := room_for room_name s2 in
          (Ok true,
           send_message_state c (welcome room_name)
             (add_member_state rs.1 c
                (upd_client c (set_current_room (Some rs.1)) rs.2)))
    | (Ok None, s2) => (Ok false, s2)
    | (Raise e, s2) => (Raise e, s2)
    end.
Proof.
  intros E Hv. unfold handshake.
  unfold mbind at 1, M_bind at 1. rewrite send_message_eq.
  unfold mbind at 1, M_bind at 1. fold request_name. rewrite E.
  cbn [truthy]. rewrite Hv. cbn [negb]. cbv iota.
  unfold mbind at 1, M_bind at 1, modify at 1.
  unfold mbind at 1, M_bind at 1. rewrite send_message_eq.
  unfold mbind at 1, M_bind at 1. fold request_room. clear E.
  destruct (receive_message c _) as [[[nm|]|e] s2]; try reflexivity.
  destruct (PyStr.is_empty nm); [reflexivity |].
  unfold room_for. munfold. unfold ChatRoom_init. cbv beta iota.
  destruct (rooms s2 !! nm) as [r|]; cbv beta iota;
    rewrite add_member_eq, send_message_eq; reflexivity.
Qed.

Lemma handshake_unnamed c s v s1 :
  receive_message c (send_message_state c request_name s) = (Ok v, s1) →
  truthy v = false →
  handshake c s = (Ok false, s1).
Proof.
  intros E Hv. unfold handshake.
  unfold mbind at 1, M_bind at 1. rewrite send_message_eq.
  unfold mbind at 1, M_bind at 1. fold request_name. rewrite E, Hv. reflexivity.
Qed.

Lemma handshake_ok c s : ∃ b, (handshake c s).1 = Ok b.
Proof.
  destruct (receive_message_ok c (send_message_state c request_name s)) as [v Hv].
  destruct (receive_message c (send_message_state c request_name s)) as [o s1] eqn:E.
  simpl in Hv. subst o.
  destruct (truthy v) eqn:Ht.
  - destruct v as [v|]; [| done]. simpl in Ht. apply negb_true_iff in Ht.
    rewrite (handshake_named _ _ _ _ E Ht).
    set (s1' := send_message_state c request_room _).
    destruct (receive_message_ok c s1') as [v2 Hv2].
    destruct (receive_message c s1') as [o s2]. simpl in Hv2. subst o.
    destruct v2 as [nm|]; [| by eexists].
    destruct (PyStr.is_empty nm); by eexists.
  - rewrite (handshake_unnamed _ _ _ _ E Ht). by eexists.
Qed.

(** A handshake that does not join leaves the rooms as they are. *)
Lemma handshake_not_joined c s s1 :
  handshake c s = (Ok false, s1) → same_rooms s s1.
Proof.
  pose proof (same_rooms_receive_message c (send_message_state c request_name s)) as K1.
  destruct (receive_message_ok c (send_message_state c request_name s)) as [v Hv].
  destruct (receive_message c (send_message_state c request_name s)) as [o s0] eqn:E.
  simpl in Hv, K1. subst o.
  assert (same_rooms s s0) as K0
    by (eapply same_rooms_trans; [apply same_rooms_send_message | exact K1]).
  destruct (truthy v) eqn:Ht.
  - destruct v as [v|]; [| done]. simpl in Ht. apply negb_true_iff in Ht.
    rewrite (handshake_named _ _ _ _ E Ht).
    set (s1' := send_message_state c request_room _).
    assert (same_rooms s s1') as K2.
    { eapply same_rooms_trans; [exact K0 |]. subst s1'.
      eapply same_rooms_trans;
        [apply same_rooms_set_username | apply same_rooms_send_message]. }
    pose proof (same_rooms_receive_message c s1') as K3.
    destruct (receive_message c s1') as [[[nm|]|e] s2]; cbn [snd] in K3.
    + destruct (PyStr.is_empty nm); [| done].
      intros [= <-]. by eapply same_rooms_trans.
    + intros [= <-]. by eapply same_rooms_trans.
    + done.
  - rewrite (handshake_unnamed _ _ _ _ E Ht). by intros [= <-].
Qed.

(** A handshake that joins got two answers that are not empty, and leads
    to [joined_state]. *)
Lemma handshake_joined c s s1 :
  handshake c s = (Ok true, s1) →
  ∃ d1 d2 rest,
    reader (client_of s c) = Data d1 :: Data d2 :: rest
    ∧ PyStr.strip d1 ≠ "" ∧ PyStr.strip d2 ≠ ""
    ∧ s1 = joined_state c (PyStr.strip d1) (PyStr.strip d2) (Data d2 :: rest) rest s.
Proof.
  intros H.
  destruct (reader (client_of s c)) as [|[d1|] rest1] eqn:E.
  - by rewrite handshake_eof in H.
  - destruct (decide (PyStr.strip d1 = "")) as [E1|E1];
      [by rewrite (handshake_no_name _ _ _ _ E E1) in H |].
    pose proof (reader_valid _ _ _ _ E) as Hc.
    assert (reader (client_of (send_message_state c request_name s) c)
            = Data d1 :: rest1) as Hrd1 by (by rewrite send_message_reader).
    pose proof (receive_message_data _ _ _ _ Hrd1) as E1'.
    rewrite (strip_nonempty _ E1) in E1'.
    destruct rest1 as [|[d2|] rest].
    + exfalso.
      rewrite (handshake_named _ _ _ _ E1' (is_empty_false _ E1)) in H.
      rewrite receive_message_eof in H; [done |].
      store_simpl.
      rewrite list_lookup_total_alter_eq by (by rewrite send_message_length).
      reflexivity.
    + destruct (decide (PyStr.strip d2 = "")) as [E2|E2];
        [by rewrite (handshake_no_room _ _ _ _ _ E E1 E2) in H |].
      rewrite (handshake_join _ _ _ _ _ E E1 E2) in H.
      injection H as <-. by exists d1, d2, rest.
    + exfalso.
      rewrite (handshake_named _ _ _ _ E1' (is_empty_false _ E1)) in H.
      erewrite receive_message_fault in H; [done |].
      store_simpl.
      rewrite list_lookup_total_alter_eq by (by rewrite send_message_length).
      reflexivity.
  - exfalso. revert H.
    erewrite handshake_unnamed; [done | |].
    + erewrite receive_message_fault; [done |]. by rewrite send_message_reader.
    + done.
Qed.

(** ** A whole session *)

Lemma serve_keeps c s : ∃ s2, serve c s = (Ok tt, s2) ∧ same_sessions s s2.
Proof.
  destruct (read_loop_fuel c (S (length (reader (client_of s c)))) s
              (S (length (reader (client_of s c)))) ltac:(lia) ltac:(lia))
    as [_ Hne].
  pose proof (read_loop_keeps (S (length (reader (client_of s c)))) c s) as K.
  unfold serve.
  destruct (_receive_from_client _ c s) as [[[]|e] s2]; cbn [fst snd] in *.
  - by exists s2.
  - exists s2. by destruct e.
Qed.

(** [handle_client] in two steps: up to the end of the read duty, and the
    teardown. *)
Lemma handle_client_eq rd w s :
  let c := length (client_objs s) in
  ∃ s2,
    handle_client rd w s =
      match _disconnect_client c s2 with
      | (Ok _, s3) => (Ok c, s3)
      | (Raise e, s3) => (Raise e, s3)
      end
    ∧ (same_rooms (accepted_state rd w s) s2
       ∨ ∃ d1 d2 rest,
           rd = Data d1 :: Data d2 :: rest
           ∧ PyStr.strip d1 ≠ "" ∧ PyStr.strip d2 ≠ ""
           ∧ same_sessions
               (joined_state c (PyStr.strip d1) (PyStr.strip d2)
                  (Data d2 :: rest) rest (accepted_state rd w s)) s2).
Proof.
  intros c.
  destruct (handshake_ok c (accepted_state rd w s)) as [b Hb].
  destruct (handshake c (accepted_state rd w s)) as [o s1] eqn:Hh.
  simpl in Hb. subst o. destruct b.
  - destruct (handshake_joined _ _ _ Hh) as (d1 & d2 & rest & Hrd & H1 & H2 & ->).
    subst c. rewrite accepted_client in Hrd. simpl in Hrd. subst rd.
    set (j := joined_state _ _ _ _ _ _) in *.
    destruct (serve_keeps (length (client_objs s)) j) as (s2 & Hs & K).
    exists s2. split; [by eapply handle_client_served |].
    right. by exists d1, d2, rest.
  - exists s1. split; [by apply handle_client_early |].
    left. by eapply handshake_not_joined.
Qed.

(** The teardown of a session whose room, if it has one, is registered
    under its name. *)
Lemma teardown c s :
  registry_ok s →
  c < length (client_objs s) →
  (∀ r, current_room (client_of s c) = Some r →
        rooms s !! name (room_of s r) = Some r) →
  let res := _disconnect_client c s in
  res.1 = Ok tt
  ∧ registry_ok res.2
  ∧ rooms res.2 ⊆ rooms s
  ∧ (∀ r, current_room (client_of s c) = Some r →
          size (members (room_of s r) ∖ {[c]}) = 0 →
          rooms res.2 = delete (name (room_of s r)) (rooms s))
  ∧ clients res.2 = clients s ∖ {[c]}
  ∧ closed (writer (client_of res.2 c)) = true
  ∧ (∀ c', c' ≠ c →
       closed (writer (client_of res.2 c')) = closed (writer (client_of s c')))
  ∧ (∀ r, name (room_of res.2 r) = name (room_of s r))
  ∧ (∀ r, members (room_of res.2 r) =
          if decide (current_room (client_of s c) = Some r)
          then members (room_of s r) ∖ {[c]} else members (room_of s r)).
Proof.
  intros Hok Hc Hreg res. subst res.
  assert (Hf : disconnect_fails c s = false).
  { unfold disconnect_fails.
    destruct (current_room (client_of s c)) as [r|]; [| done].
    rewrite (Hreg r eq_refl).
    rewrite bool_decide_eq_false_2 by done. apply andb_false_r. }
  pose proof (disconnect_outcome c s) as Hout. rewrite Hf in Hout.
  pose proof (disconnect_rooms c s) as Hrooms.
  pose proof (disconnect_room_objs_length c s) as Hlen.
  pose proof (disconnect_name c s) as Hname.
  assert (Hsub : rooms (_disconnect_client c s).2 ⊆ rooms s).
  { rewrite Hrooms. destruct (current_room (client_of s c)) as [r|]; [| done].
    destruct (_ =? 0); [apply delete_subseteq | done]. }
  split_and!.
  - done.
  - intros nm r Hl. rewrite Hlen, Hname.
    apply Hok. by eapply lookup_weaken.
  - done.
  - intros r Hr Hs. rewrite Hrooms, Hr. by rewrite Hs.
  - apply disconnect_clients.
  - rewrite disconnect_closed, Hf. by rewrite bool_decide_eq_true_2.
  - intros c' Hne. rewrite disconnect_closed, Hf.
    rewrite bool_decide_eq_false_2; [done |]. by intros [? _].
  - done.
  - apply disconnect_members.
Qed.

(** A session from its connection to its teardown. *)
Lemma session_ends_well rd w s :
  registry_ok s →
  let c := length (client_objs s) in
  let res := handle_client rd w s in
  res.1 = Ok c
  ∧ registry_ok res.2
  ∧ rooms res.2 ⊆ rooms s
  ∧ clients res.2 = clients s ∖ {[c]}
  ∧ closed (writer (client_of res.2 c)) = true
  ∧ (∀ c', c' < c →
       closed (writer (client_of res.2 c')) = closed (writer (client_of s c')))
  ∧ (∀ r, r < length (room_objs s) → name (room_of res.2 r) = name (room_of s r))
  ∧ (∀ r c', r < length (room_objs s) → c' ≠ c →
       c' ∈ members (room_of res.2 r) ↔ c' ∈ members (room_of s r))
  ∧ (∀ r, current_room (client_of res.2 c) = Some r →
       c ∉ members (room_of res.2 r))
  ∧ length (client_objs res.2) = S (length (client_objs s)).
Proof.
  intros Hok c res.
  destruct (handle_client_eq rd w s) as (s2 & Heq & Hcase).
  fold c in Heq, Hcase.
  pose proof (registry_ok_accepted rd w s Hok) as Hoka.
  pose proof (accepted_client rd w s) as Hca. fold c in Hca.
  pose proof (accepted_length rd w s) as Hla.
  assert (Hclients : clients (accepted_state rd w s) = clients s ∪ {[c]}) by done.
  assert (Hrooms : rooms (accepted_state rd w s) = rooms s) by done.
  assert (Hobjs : room_objs (accepted_state rd w s) = room_objs s) by done.
  assert (Hold : ∀ c', c' < c →
            client_of (accepted_state rd w s) c' = client_of s c')
    by (intros; by apply accepted_client_old).
  set (sa := accepted_state rd w s) in *.
  pose proof (disconnect_current_room c s2 c) as Hcur3.
  pose proof (disconnect_length c s2) as Hlen3.
  assert (Hlast : ∀ r, current_room (client_of (_disconnect_client c s2).2 c) = Some r →
                       c ∉ members (room_of (_disconnect_client c s2).2 r)).
  { intros r Hr. rewrite Hcur3 in Hr.
    rewrite disconnect_members, decide_True by done. apply not_elem_of_remove. }
  destruct Hcase as [(Hr & Hro & Hcl & Hlen & Hcur & Hclo & _)
                    |(d1 & d2 & rest & -> & H1 & H2 & K)].
  - (* the handshake did not join *)
    assert (Hnone : current_room (client_of s2 c) = None) by (by rewrite Hcur, Hca).
    destruct (teardown c s2) as (T1 & T2 & T3 & _ & T5 & T6 & T7 & T8 & T9).
    { intros nm r Hl. rewrite Hr in Hl. rewrite Hro. by apply Hoka. }
    { rewrite Hlen, Hla. subst c. lia. }
    { intros r Hs. by rewrite Hnone in Hs. }
    subst res. rewrite Heq.
    destruct (_disconnect_client c s2) as [[[]|e] s3]; [| done].
    cbn [fst snd] in *.
    split_and!; try done.
    + by rewrite <- Hrooms, <- Hr.
    + rewrite T5, Hcl, Hclients. clear. set_solver.
    + intros c' Hc'. rewrite T7 by lia. rewrite Hclo. by rewrite Hold.
    + intros r _. by rewrite T8, Hro.
    + intros r c' _ _. rewrite T9, Hnone, Hro.
      by rewrite decide_False by done.
    + by rewrite Hlen3, Hlen, Hla.
  - (* the session joined a room *)
    set (nm := PyStr.strip d2) in *.
    set (j := joined_state c (PyStr.strip d1) nm (Data d2 :: rest) rest sa) in *.
    set (r0 := joined_room nm sa).
    assert (Hv : c < length (client_objs sa)) by (rewrite Hla; subst c; lia).
    pose proof (joined_registry_ok c (PyStr.strip d1) nm (Data d2 :: rest) rest sa Hoka)
      as Hokj.
    pose proof (joined_rooms c (PyStr.strip d1) nm (Data d2 :: rest) rest sa) as Hrj.
    pose proof (joined_name c (PyStr.strip d1) nm (Data d2 :: rest) rest sa Hoka) as Hnj.
    pose proof (joined_members c (PyStr.strip d1) nm (Data d2 :: rest) rest sa Hoka)
      as Hmj.
    pose proof (joined_current_room c (PyStr.strip d1) nm (Data d2 :: rest) rest sa Hv)
      as Hcj.
    pose proof (joined_length c (PyStr.strip d1) nm (Data d2 :: rest) rest sa) as Hlj.
    pose proof (joined_clients c (PyStr.strip d1) nm (Data d2 :: rest) rest sa) as Hclj.
    fold j r0 in Hokj, Hrj, Hnj, Hmj, Hcj, Hlj, Hclj.
    destruct K as (Kr & Kc & _ & _ & _ & Klr & Klc & Kn & Km & _ & Kcur & _ & Kclo & _).
    assert (Hcur2 : current_room (client_of s2 c) = Some r0) by (by rewrite Kcur).
    assert (Hreg2 : rooms s2 !! name (room_of s2 r0) = Some r0).
    { rewrite Kr, Kn, Hnj, Hrj. apply lookup_insert_eq. }
    destruct (teardown c s2) as (T1 & T2 & T3 & T4 & T5 & T6 & T7 & T8 & T9).
    { intros nm' r Hl. rewrite Kr in Hl. rewrite Klr, Kn. by apply Hokj. }
    { by rewrite Klc, Hlj. }
    { intros r Hs. rewrite Hcur2 in Hs. by injection Hs as <-. }
    subst res. rewrite Heq.
    destruct (_disconnect_client c s2) as [[[]|e] s3]; [| done].
    cbn [fst snd] in *.
    split_and!; try done.
    + destruct (rooms s !! nm) as [r1|] eqn:En.
      * etrans; [exact T3 |]. rewrite Kr, Hrj, Hrooms.
        subst r0. unfold joined_room. rewrite Hrooms, En. simpl.
        by rewrite insert_id.
      * rewrite (T4 r0 Hcur2).
        -- rewrite Kn, Hnj, Kr, Hrj, Hrooms. by rewrite delete_insert_id.
        -- rewrite Km, Hmj, Hrooms, En.
           replace ((∅ ∪ {[c]}) ∖ {[c]} : gset nat) with (∅ : gset nat)
             by (clear; set_solver).
           apply size_empty.
    + rewrite T5, Kc, Hclj, Hclients. clear. set_solver.
    + intros c' Hc'. rewrite T7 by lia. rewrite Kclo.
      subst j. rewrite joined_closed. by rewrite Hold.
    + intros r Hlt. rewrite T8, Kn. subst j.
      rewrite joined_name_old by (by rewrite Hobjs). by rewrite Hobjs.
    + intros r c' Hlt Hne. rewrite T9, Hcur2, !Km.
      destruct (decide (r = r0)) as [->|Hr0].
      * rewrite decide_True by done. rewrite Hmj.
        destruct (rooms sa !! nm) as [r1|] eqn:En.
        -- assert (r1 = r0) as -> by (subst r0; unfold joined_room; by rewrite En).
           rewrite Hobjs. clear -Hne. set_solver.
        -- exfalso. subst r0. unfold joined_room in Hlt. rewrite En in Hlt.
           simpl in Hlt. rewrite ?Hobjs in Hlt. lia.
      * rewrite decide_False by (by intros [= ->]).
        subst j. rewrite joined_members_old by (by rewrite ?Hobjs).
        by rewrite Hobjs.
    + by rewrite Hlen3, Klc, Hlj, Hla.
Qed.

(** X5: [handle_client] ends well for every client.  Whatever the client
    sends, and whenever its stream ends or fails, and whether its writer
    works or not, the coroutine returns without an exception when the
    registry names existing rooms by their names: an exception of the
    read duty stays in its task, and [del self.rooms[...]] finds its key.
    After it the connection is closed and out of [self.clients], the
    session is no member of its room, the registry is again as required
    and holds no room it did not hold before, and the names and the other
    members of the rooms that were there, and which of the other writers
    are closed, are what they were. *)
Theorem handle_client_never_fails
    (rd : list rd_event) (w : StreamWriter) (s : AsyncChatServer) :
  registry_ok s →
  let c := length (client_objs s) in
  let res := handle_client rd w s in
  res.1 = Ok c
  ∧ registry_ok res.2
  ∧ rooms res.2 ⊆ rooms s
  ∧ clients res.2 = clients s ∖ {[c]}
  ∧ closed (writer (client_of res.2 c)) = true
  ∧ (∀ c', c' < c →
       closed (writer (client_of res.2 c')) = closed (writer (client_of s c')))
  ∧ (∀ r, r < length (room_objs s) → name (room_of res.2 r) = name (room_of s r))
  ∧ (∀ r c', r < length (room_objs s) → c' ≠ c →
       c' ∈ members (room_of res.2 r) ↔ c' ∈ members (room_of s r))
  ∧ (∀ r, current_room (client_of res.2 c) = Some r →
       c ∉ members (room_of res.2 r)).
Proof.
  intros Hok c res.
  destruct (session_ends_well rd w s Hok) as (? & ? & ? & ? & ? & ? & ? & ? & ? & _).
  by split_and!.
Qed.

(** ** [/quit] *)

Lemma lower_ascii_slash a : PyStr.lower_ascii a = "/"%char → a = "/"%char.
Proof. destruct a as [[] [] [] [] [] [] [] []]; by vm_compute. Qed.

Lemma take_word_head a r :
  PyStr.isspace a = false →
  ∃ w r', PyStr.take_word (String a r) = (String a w, r').
Proof.
  intros H. simpl. rewrite H.
  destruct (PyStr.take_word r) as [w r']. by eexists _, _.
Qed.

(** The first word of a stripped line starts as the line does. *)
Lemma split_stripped_head d p0 l :
  PyStr.split_maxsplit1 (PyStr.strip d) = p0 :: l →
  ∃ a w r, p0 = String a w ∧ PyStr.strip d = String a r.
Proof.
  destruct (PyStr.strip d) as [|a r] eqn:E; [done |].
  pose proof (strip_head _ _ _ E) as Ha.
  unfold PyStr.split_maxsplit1. cbn [PyStr.lstrip]. rewrite Ha.
  cbn [PyStr.is_empty].
  destruct (take_word_head a r Ha) as (w & r' & ->).
  destruct (PyStr.is_empty (PyStr.lstrip r')); intros [= <- _]; by exists a, w, r.
Qed.

Lemma quit_starts_with_slash d p0 l :
  PyStr.split_maxsplit1 (PyStr.strip d) = p0 :: l → PyStr.lower p0 = "/quit" →
  PyStr.startswith_slash (PyStr.strip d) = true
  ∧ PyStr.is_empty (PyStr.strip d) = false ∧ PyStr.is_empty d = false.
Proof.
  intros Hs Hq.
  destruct (split_stripped_head _ _ _ Hs) as (a & w & r & -> & E).
  simpl in Hq. injection Hq as Ha _. apply lower_ascii_slash in Ha. subst a.
  rewrite E. split_and!; try done.
  apply strip_nonempty. by rewrite E.
Qed.

Lemma handle_command_quit c cmd s p0 l :
  PyStr.split_maxsplit1 cmd = p0 :: l → PyStr.lower p0 = "/quit" →
  _handle_command c cmd s = (Raise CancelledError, s).
Proof.
  intros Hs Hq. unfold _handle_command. rewrite Hs. cbv zeta. by rewrite Hq.
Qed.

Lemma read_loop_quit fuel c s dq rest p0 l :
  reader (client_of s c) = Data dq :: rest →
  PyStr.split_maxsplit1 (PyStr.strip dq) = p0 :: l → PyStr.lower p0 = "/quit" →
  _receive_from_client (S fuel) c s = (Raise CancelledError, take_event c rest s).
Proof.
  intros Hrd Hs Hq.
  destruct (quit_starts_with_slash _ _ _ Hs Hq) as (Hsl & He & Hd).
  rewrite read_loop_unfold. unfold mbind at 1, M_bind at 1.
  rewrite (receive_message_data _ _ _ _ Hrd), Hd, He.
  unfold handle_line. rewrite Hsl.
  unfold mbind at 1, M_bind at 1.
  by rewrite (handle_command_quit _ _ _ _ _ Hs Hq).
Qed.

Lemma serve_quit c s dq rest p0 l :
  reader (client_of s c) = Data dq :: rest →
  PyStr.split_maxsplit1 (PyStr.strip dq) = p0 :: l → PyStr.lower p0 = "/quit" →
  serve c s = (Ok tt, take_event c rest s).
Proof.
  intros Hrd Hs Hq. unfold serve.
  by rewrite (read_loop_quit _ _ _ _ _ _ _ Hrd Hs Hq).
Qed.

Lemma disconnect_log c s : log (_disconnect_client c s).2 = log s.
Proof.
  rewrite _disconnect_client_eq. unfold disconnect_room.
  destruct (current_room (client_of s c)) as [r|]; [| by store_simpl].
  destruct (_ =? 0); [| by store_simpl].
  destruct (rooms s !! _); by store_simpl.
Qed.

Lemma disconnect_sent_to c s c' :
  sent_to (_disconnect_client c s).2 c' = sent_to s c'.
Proof.
  unfold sent_to. rewrite disconnect_client_objs.
  destruct (disconnect_fails c s); [done |]. by apply written_alter.
Qed.

(** What [send_message] adds to the log are its own records. *)
Lemma log_send_message_state c m s x :
  x ∈ log (send_message_state c m s) →
  x ∈ log s ∨ ∃ u e, x = LogSendError u e.
Proof.
  rewrite send_message_log. destruct (_ || _); [| by left].
  intros [H|H]%elem_of_app; [by left |].
  apply list_elem_of_singleton in H as ->. right. by eexists _, _.
Qed.

Lemma log_joined_state c u nm pending rest s x :
  x ∈ log (joined_state c u nm pending rest s) →
  x ∈ log s ∨ ∃ u' e, x = LogSendError u' e.
Proof.
  unfold joined_state. intros [H|H]%log_send_message_state; [| by right].
  revert H. rewrite room_for_asked.
  assert (x ∈ log (asked_room_state c u pending rest s) →
          x ∈ log s ∨ ∃ u' e, x = LogSendError u' e) as Ha.
  { unfold asked_room_state, named_state. store_simpl.
    intros [H|H]%log_send_message_state; [| by right].
    revert H. store_simpl.
    intros [H|H]%log_send_message_state; [by left | by right]. }
  destruct (rooms s !! nm); store_simpl; exact Ha.
Qed.

Lemma sent_to_take_event c rest s c' :
  sent_to (take_event c rest s) c' = sent_to s c'.
Proof. unfold sent_to. store_simpl. by rewrite ?written_alter. Qed.


(** ** [/list] and [/private] *)

Lemma handle_command_list c cmd s p0 rest :
  PyStr.split_maxsplit1 cmd = p0 :: rest → PyStr.lower p0 = "/list" →
  _handle_command c cmd s =
    match current_room (client_of s c) with
    | Some r =>
        match mapM id (member_names s r) with
        | Some names => (Ok tt, send_message_state c (list_reply names) s)
        | None => (Raise TypeError, s)
        end
    | None => (Ok tt, s)
    end.
Proof.
  intros Hs Hl. unfold _handle_command. rewrite Hs. cbv zeta. rewrite Hl.
  cbn [String.eqb Ascii.eqb Bool.eqb].
  munfold. destruct (current_room (client_of s c)) as [r|]; [| done].
  unfold join_usernames. fold (member_names s r).
  destruct (mapM id (member_names s r)); [| done].
  munfold. by rewrite send_message_eq.
Qed.


Lemma find_member_present s r u :
  has_member_named s r u → ∃ t, find_member s r u = Some t.
Proof.
  intros H. destruct (find_member s r u) as [t|] eqn:E; [by exists t |].
  by apply find_member_None in E.
Qed.

Lemma handle_command_private_found c cmd s p0 rest remainder p text l r t :
  PyStr.split_maxsplit1 cmd = p0 :: rest → PyStr.lower p0 = "/private" →
  head rest = Some remainder →
  PyStr.split_maxsplit1 remainder = p :: text :: l →
  current_room (client_of s c) = Some r →
  find_member s r (PyStr.lstrip_at p) = Some t →
  _handle_command c cmd s
  = (Ok tt,
     send_message_state c (private_sent (PyStr.lstrip_at p))
       (upd_client t
          (set_private_queue
             (λ q, q ++ [private_message (username (client_of s c)) text
                           (strftime (now s))])) s)).
Proof.
  intros Hs Hp Hh Hr Hc Hf.
  rewrite (handle_command_private c cmd p0 rest Hs Hp).
  destruct rest as [|? rest']; [done |]. injection Hh as ->. rewrite Hr.
  unfold mbind at 1, M_bind at 1, gets at 1. rewrite Hc.
  unfold mbind at 1, M_bind at 1.
  unfold send_private_message. munfold. unfold gets. rewrite Hf.
  cbv beta iota. by rewrite send_message_eq.
Qed.

(** X8: a private message that finds its target.  [/private @name text]
    from a client whose room has a member of that name puts the message,
    with the name of the sender, the text and the time, at the end of the
    private queue of one member of that name, and confirms to the sender;
    no queue of a room and no other private queue changes, and nothing is
    written to any connection but the sender's. *)
Theorem private_command_delivers
    (c : client_ref) (cmd : string) (s : AsyncChatServer) (p0 : string)
    (rest : list string) (remainder p text : string) (l : list string)
    (r : room_ref) :
  PyStr.split_maxsplit1 cmd = p0 :: rest → PyStr.lower p0 = "/private" →
  head rest = Some remainder →
  PyStr.split_maxsplit1 remainder = p :: text :: l →
  current_room (client_of s c) = Some r →
  has_member_named s r (PyStr.lstrip_at p) →
  let res := _handle_command c cmd s in
  res.1 = Ok tt
  ∧ sent_to res.2 c = sent_to s c ++ [private_sent (PyStr.lstrip_at p)]
  ∧ (∀ c', c' ≠ c → sent_to res.2 c' = sent_to s c')
  ∧ room_objs res.2 = room_objs s
  ∧ ∃ target,
      target ∈ members (room_of s r)
      ∧ username (client_of s target) = Some (PyStr.lstrip_at p)
      ∧ private_queue (client_of res.2 target)
        = private_queue (client_of s target)
          ++ [private_message (username (client_of s c)) text (strftime (now s))]
      ∧ ∀ c', c' ≠ target →
          private_queue (client_of res.2 c') = private_queue (client_of s c').
Proof.
  intros Hs Hp Hh Hr Hc Hm res. subst res.
  destruct (find_member_present _ _ _ Hm) as [t Hf].
  rewrite (handle_command_private_found _ _ _ _ _ _ _ _ _ _ _ Hs Hp Hh Hr Hc Hf).
  destruct (find_member_Some _ _ _ _ Hf) as [Ht Hu].
  pose proof (username_valid _ _ _ Hu) as Hv.
  pose proof (current_room_valid _ _ _ Hc) as Hcv.
  cbn [fst snd]. split_and!.
  - done.
  - rewrite send_message_sent_to by (by store_simpl).
    unfold sent_to. store_simpl. by rewrite ?written_alter.
  - intros c' Hne. rewrite send_message_sent_to_ne by done.
    unfold sent_to. store_simpl. by rewrite ?written_alter.
  - by store_simpl.
  - exists t. split_and!; try done.
    + store_simpl. by rewrite list_lookup_total_alter_eq.
    + intros c' Hne. store_simpl. by rewrite list_lookup_total_alter_ne.
Qed.

(** ** The delivery loops *)

Lemma private_iteration_step c s m q :
  private_queue (client_of s c) = m :: q →
  _send_private_messages c s
  = (Ok true,
     send_message_state c m (upd_client c (set_private_queue (λ _, q)) s)).
Proof.
  intros H. unfold _send_private_messages, private_queue_get. munfold.
  rewrite H. by rewrite send_message_eq.
Qed.

Lemma private_iteration_wait c s :
  private_queue (client_of s c) = [] → _send_private_messages c s = (Ok false, s).
Proof.
  intros H. unfold _send_private_messages, private_queue_get. munfold.
  by rewrite H.
Qed.

Lemma broadcast_iteration_step c s r m q :
  current_room (client_of s c) = Some r →
  message_queue (room_of s r) = m :: q →
  _broadcast_room_messages c s
  = (Ok true,
     send_message_state c m (upd_room r (set_message_queue (λ _, q)) s)).
Proof.
  intros Hr H. unfold _broadcast_room_messages, queue_get. munfold.
  rewrite Hr, H. by rewrite send_message_eq.
Qed.

Lemma broadcast_iteration_wait c s :
  (∀ r, current_room (client_of s c) = Some r → message_queue (room_of s r) = []) →
  _broadcast_room_messages c s = (Ok false, s).
Proof.
  intros H. unfold _broadcast_room_messages, queue_get. munfold.
  destruct (current_room (client_of s c)) as [r|]; [| done].
  by rewrite (H r eq_refl).
Qed.

Lemma deliver_unfold fuel (iteration : M bool) :
  deliver (S fuel) iteration =
    (again ← iteration; if again : bool then deliver fuel iteration else mret tt).
Proof. reflexivity. Qed.

(** X9: the private queue of a connection is delivered in order.  The loop
    of [_send_private_messages], run until [get] would wait, hands the
    writer of the connection all the messages of its private queue, in the
    order of the queue, and leaves the queue empty; the rooms and the other
    connections are untouched. *)
Theorem private_loop_delivers_in_order
    (c : client_ref) (s : AsyncChatServer) (fuel : nat) :
  length (private_queue (client_of s c)) < fuel →
  let res := deliver fuel (_send_private_messages c) s in
  res.1 = Ok tt
  ∧ sent_to res.2 c = sent_to s c ++ private_queue (client_of s c)
  ∧ private_queue (client_of res.2 c) = []
  ∧ room_objs res.2 = room_objs s
  ∧ (∀ c', c' ≠ c → client_of res.2 c' = client_of s c').
Proof.
  remember (private_queue (client_of s c)) as q eqn:Hq. symmetry in Hq.
  revert s fuel Hq.
  induction q as [|m q IH]; intros s fuel Hq Hf res; subst res;
    (destruct fuel as [|fuel]; [simpl in Hf; lia |]);
    rewrite deliver_unfold; unfold mbind, M_bind.
  - rewrite private_iteration_wait by done. cbn [fst snd].
    rewrite app_nil_r. split_and!; done.
  - pose proof (private_queue_valid _ _ _ _ Hq) as Hv.
    rewrite (private_iteration_step _ _ _ _ Hq).
    set (s' := send_message_state c m _).
    destruct (IH s' fuel) as (H1 & H2 & H3 & H4 & H5).
    { subst s'. store_simpl. by rewrite list_lookup_total_alter_eq. }
    { simpl in Hf. lia. }
    split_and!; try done.
    + rewrite H2. subst s'. rewrite send_message_sent_to by (by store_simpl).
      unfold sent_to. store_simpl. rewrite ?written_alter by done.
      by rewrite <- app_assoc.
    + rewrite H4. subst s'. by store_simpl.
    + intros c' Hne. rewrite H5 by done. subst s'.
      rewrite send_message_client, decide_False by (by intros [? _]).
      by rewrite client_of_upd_client_ne.
Qed.

(** X10: one loop takes the whole queue of the room.  The loop of
    [_broadcast_room_messages] of one member, run until [get] would wait,
    hands the writer of that member every message of the queue of its
    room, in the order of the queue, and leaves the queue empty: nothing
    is left there for the loops of the other members, whose connections it
    does not touch. *)
Theorem broadcast_loop_takes_whole_queue
    (c : client_ref) (r : room_ref) (s : AsyncChatServer) (fuel : nat) :
  current_room (client_of s c) = Some r →
  length (message_queue (room_of s r)) < fuel →
  let res := deliver fuel (_broadcast_room_messages c) s in
  res.1 = Ok tt
  ∧ sent_to res.2 c = sent_to s c ++ message_queue (room_of s r)
  ∧ message_queue (room_of res.2 r) = []
  ∧ (∀ r', r' ≠ r → room_of res.2 r' = room_of s r')
  ∧ (∀ c', c' ≠ c → client_of res.2 c' = client_of s c').
Proof.
  remember (message_queue (room_of s r)) as q eqn:Hq. symmetry in Hq.
  intros Hr. revert s fuel Hr Hq.
  induction q as [|m q IH]; intros s fuel Hr Hq Hf res; subst res;
    (destruct fuel as [|fuel]; [simpl in Hf; lia |]);
    rewrite deliver_unfold; unfold mbind, M_bind.
  - rewrite broadcast_iteration_wait.
    2:{ intros r' Hr'. rewrite Hr in Hr'. by injection Hr' as <-. }
    cbn [fst snd]. rewrite app_nil_r. split_and!; done.
  - pose proof (room_valid_queue _ _ _ _ Hq) as Hv.
    pose proof (current_room_valid _ _ _ Hr) as Hcv.
    rewrite (broadcast_iteration_step _ _ _ _ _ Hr Hq).
    set (s' := send_message_state c m _).
    destruct (IH s' fuel) as (H1 & H2 & H3 & H4 & H5).
    { subst s'. by store_simpl. }
    { subst s'. store_simpl. by rewrite list_lookup_total_alter_eq. }
    { simpl in Hf. lia. }
    split_and!; try done.
    + rewrite H2. subst s'. rewrite send_message_sent_to by (by store_simpl).
      unfold sent_to. store_simpl. by rewrite <- app_assoc.
    + intros r' Hne. rewrite H4 by done. subst s'. store_simpl.
      by rewrite list_lookup_total_alter_ne.
    + intros c' Hne. rewrite H5 by done. subst s'.
      rewrite send_message_client, decide_False by (by intros [? _]).
      by store_simpl.
Qed.

Lemma broadcast_iteration_cases c s :
  _broadcast_room_messages c s = (Ok false, s)
  ∨ ∃ r m q,
      current_room (client_of s c) = Some r
      ∧ message_queue (room_of s r) = m :: q
      ∧ _broadcast_room_messages c s
        = (Ok true,
           send_message_state c m (upd_room r (set_message_queue (λ _, q)) s)).
Proof.
  destruct (current_room (client_of s c)) as [r|] eqn:Hr.
  - destruct (message_queue (room_of s r)) as [|m q] eqn:Hq.
    + left. apply broadcast_iteration_wait. intros r' Hr'.
      rewrite Hr in Hr'. by injection Hr' as <-.
    + right. exists r, m, q. split_and!; try done.
      by apply broadcast_iteration_step.
  - left. apply broadcast_iteration_wait. intros r' Hr'. by rewrite Hr in Hr'.
Qed.

Lemma private_iteration_cases c s :
  _send_private_messages c s = (Ok false, s)
  ∨ ∃ m q,
      private_queue (client_of s c) = m :: q
      ∧ _send_private_messages c s
        = (Ok true,
           send_message_state c m (upd_client c (set_private_queue (λ _, q)) s)).
Proof.
  destruct (private_queue (client_of s c)) as [|m q] eqn:Hq.
  - left. by apply private_iteration_wait.
  - right. exists m, q. split; [done |]. by apply private_iteration_step.
Qed.

(** X11: no failure of a writer stops a delivery loop.  An iteration of
    either loop raises nothing and never takes the [except Exception]
    branch that would leave the loop, since [send_message] has caught the
    failure already: no record of the loops is ever logged.  So the loop of
    a member whose writer fails goes on taking messages out of the queue
    of the room; each is handed to the failing writer, logged by
    [send_message], and lost to the other members. *)
Theorem delivery_loops_never_break (c : client_ref) (s : AsyncChatServer) :
  let rb := _broadcast_room_messages c s in
  let rp := _send_private_messages c s in
  (∃ b, rb.1 = Ok b)
  ∧ (∃ b, rp.1 = Ok b)
  ∧ (∀ e, LogRoomSendError e ∈ log rb.2 → LogRoomSendError e ∈ log s)
  ∧ (∀ e, LogPrivateSendError e ∈ log rp.2 → LogPrivateSendError e ∈ log s)
  ∧ (∀ r m q,
       current_room (client_of s c) = Some r →
       message_queue (room_of s r) = m :: q →
       rb.1 = Ok true
       ∧ message_queue (room_of rb.2 r) = q
       ∧ (broken (writer (client_of s c)) || closed (writer (client_of s c)) = true →
          log rb.2 = log s ++ [LogSendError (username (client_of s c)) ConnectionError]))
  ∧ (∀ m q,
       private_queue (client_of s c) = m :: q →
       rp.1 = Ok true
       ∧ private_queue (client_of rp.2 c) = q
       ∧ (broken (writer (client_of s c)) || closed (writer (client_of s c)) = true →
          log rp.2 = log s ++ [LogSendError (username (client_of s c)) ConnectionError])).
Proof.
  intros rb rp. subst rb rp. split_and!.
  - destruct (broadcast_iteration_cases c s) as [->|(r & m & q & _ & _ & ->)];
      by eexists.
  - destruct (private_iteration_cases c s) as [->|(m & q & _ & ->)]; by eexists.
  - intros e.
    destruct (broadcast_iteration_cases c s) as [->|(r & m & q & _ & _ & ->)];
      [done |].
    cbn [snd]. intros [H|(? & ? & [=])]%log_send_message_state.
    revert H. by store_simpl.
  - intros e.
    destruct (private_iteration_cases c s) as [->|(m & q & _ & ->)]; [done |].
    cbn [snd]. intros [H|(? & ? & [=])]%log_send_message_state.
    revert H. by store_simpl.
  - intros r m q Hr Hq. rewrite (broadcast_iteration_step _ _ _ _ _ Hr Hq).
    cbn [fst snd]. pose proof (room_valid_queue _ _ _ _ Hq) as Hv.
    split_and!.
    + done.
    + store_simpl. by rewrite list_lookup_total_alter_eq.
    + intros Hb. rewrite send_message_log. store_simpl. by rewrite Hb.
  - intros m q Hq. rewrite (private_iteration_step _ _ _ _ Hq).
    cbn [fst snd]. pose proof (private_queue_valid _ _ _ _ Hq) as Hv.
    split_and!.
    + done.
    + store_simpl. by rewrite list_lookup_total_alter_eq.
    + intros Hb. rewrite send_message_log. store_simpl. by rewrite Hb.
Qed.

(** What a delivery step leaves alone. *)
Lemma delivered_state_frame c m s0 :
  same_sessions s0 (send_message_state c m s0)
  ∧ fs (send_message_state c m s0) = fs s0
  ∧ (∀ c', sent_to s0 c' `prefix_of` sent_to (send_message_state c m s0) c')
  ∧ (∀ c', reader (client_of (send_message_state c m s0) c') = reader (client_of s0 c')).
Proof.
  split_and!.
  - apply same_sessions_send_message.
  - by store_simpl.
  - intros c'. destruct (decide (c = c' ∧ c < length (client_objs s0))) as [[<- Hv]|Hn].
    + rewrite send_message_sent_to by done. by apply prefix_app_r.
    + unfold sent_to. by rewrite send_message_client, decide_False.
  - intros c'. by store_simpl.
Qed.

Lemma duty_step_frame s s' :
  duty_step s s' →
  same_sessions s s'
  ∧ fs s' = fs s
  ∧ (∀ c, sent_to s c `prefix_of` sent_to s' c)
  ∧ (∀ c, reader (client_of s' c) = reader (client_of s c)).
Proof.
  intros [s1 s2 c Hc Hstep | s1 s2 c Hc Hstep].
  - apply broadcast_iteration in Hstep as (r & m & q & Hr & Hq & ->).
    destruct (delivered_state_frame c m (upd_room r (set_message_queue (λ _, q)) s1))
      as (F1 & F2 & F3 & F4).
    split_and!.
    + eapply same_sessions_trans; [apply same_sessions_queue | exact F1].
    + rewrite F2. by store_simpl.
    + intros c'. etrans; [| apply F3]. unfold sent_to. by store_simpl.
    + intros c'. rewrite F4. by store_simpl.
  - apply private_iteration in Hstep as (m & q & Hq & ->).
    destruct (delivered_state_frame c m (upd_client c (set_private_queue (λ _, q)) s1))
      as (F1 & F2 & F3 & F4).
    split_and!.
    + eapply same_sessions_trans; [apply same_sessions_private_queue | exact F1].
    + rewrite F2. by store_simpl.
    + intros c'. etrans; [| apply F3]. unfold sent_to. store_simpl.
      by rewrite ?written_alter.
    + intros c'. rewrite F4. by store_simpl.
Qed.

(** X12: the write duties move messages and change nothing else.  In every
    run of the delivery loops of the connected clients the registry, the
    clients, the members of the rooms, the readers and the files stay as
    they are; what was handed to a writer stays handed to it, in its
    place; and the number of copies of a message, in the queues and at the
    connections together, is constant: delivery neither copies a message
    nor loses one. *)
Theorem delivery_moves_messages_only (s s' : AsyncChatServer) :
  rtc duty_step s s' →
  same_sessions s s'
  ∧ fs s' = fs s
  ∧ (∀ c, sent_to s c `prefix_of` sent_to s' c)
  ∧ (∀ c, reader (client_of s' c) = reader (client_of s c))
  ∧ (∀ m, copies m s' = copies m s).
Proof.
  intros H. split_and!; [| | | | intros m; by apply rtc_duty_step_copies].
  - induction H as [|s1 s2 s3 H12 _ IH]; [apply same_sessions_refl |].
    eapply same_sessions_trans; [| exact IH]. by apply duty_step_frame.
  - induction H as [|s1 s2 s3 H12 _ IH]; [done |].
    rewrite IH. by apply duty_step_frame.
  - induction H as [|s1 s2 s3 H12 _ IH]; [done |].
    intros c. etrans; [| apply IH]. by apply duty_step_frame.
  - induction H as [|s1 s2 s3 H12 _ IH]; [done |].
    intros c. rewrite IH. by apply duty_step_frame.
Qed.

(** ** [_upload_file], whatever the path *)

Lemma uploaded_state_sent_to_ne c nm dst content s c' :
  c' ≠ c → sent_to (uploaded_state c nm dst content s) c' = sent_to s c'.
Proof.
  intros H. unfold uploaded_state, sent_to.
  destruct (current_room _); store_simpl;
    rewrite send_message_client, decide_False by (by intros [? _]); done.
Qed.

Lemma uploaded_state_queue c nm dst content s r :
  current_room (client_of s c) = Some r →
  r < length (room_objs s) →
  message_queue (room_of (uploaded_state c nm dst content s) r)
  = message_queue (room_of s r) ++ [upload_notice (username (client_of s c)) nm]
  ∧ ∀ r', r' ≠ r → room_of (uploaded_state c nm dst content s) r' = room_of s r'.
Proof.
  intros Hr Hv. unfold uploaded_state. rewrite Hr. split.
  - store_simpl. by rewrite list_lookup_total_alter_eq.
  - intros r' Hne. store_simpl. by rewrite list_lookup_total_alter_ne.
Qed.

Lemma uploaded_state_no_room c nm dst content s :
  current_room (client_of s c) = None →
  room_objs (uploaded_state c nm dst content s) = room_objs s.
Proof. intros Hr. unfold uploaded_state. rewrite Hr. by store_simpl. Qed.

(** X13: every upload request gets one answer.  For every path and every
    state of the files [_upload_file] returns without an exception, and
    the client is sent one message, an error or the confirmation; no other
    connection is written to.  After an error the files and the rooms are
    as they were; the confirmation is sent only for a path that names a
    regular file. *)
Theorem upload_always_answers
    (c : client_ref) (file_path : string) (s : AsyncChatServer) :
  c < length (client_objs s) →
  let res := _upload_file c file_path s in
  res.1 = Ok tt
  ∧ (∀ c', c' ≠ c → sent_to res.2 c' = sent_to s c')
  ∧ ∃ m, sent_to res.2 c = sent_to s c ++ [m]
         ∧ (msg_get "type" m = Some (Some "error")
            ∧ fs res.2 = fs s ∧ room_objs res.2 = room_objs s
            ∨ msg_get "type" m = Some (Some "system")
              ∧ path_is_file (fs s) (upload_path s file_path) = true).
Proof.
  intros Hc res. subst res.
  destruct (upload_file_cases c file_path s)
    as [(text & l & ->)|(src & b & dest & fs1 & Hst & Hop & ->)]; cbn [fst snd].
  - split; [done |]. split.
    + intros c' Hne. by rewrite send_message_sent_to_ne.
    + exists (upload_error text). split; [by apply sent_to_error |].
      left. split_and!; [done | by store_simpl | by store_simpl].
  - split; [done |]. split.
    + intros c' Hne. by rewrite uploaded_state_sent_to_ne.
    + eexists. split; [by rewrite uploaded_state_sent_to |].
      right. split; [done |]. unfold path_is_file. by rewrite Hst.
Qed.

(** X14: an upload is announced in the room.  After a copy the room of the
    uploader has one more message at the end of its queue, the notice with
    the name of the uploader and the base name of the file; it carries no
    time, and no other room changes.  An uploader without a room
    announces nothing. *)
Theorem upload_notifies_room
    (c : client_ref) (file_path : string) (s : AsyncChatServer)
    (src : list string) (b : list Byte.byte) (dest : list string)
    (fs1 : filesystem) :
  stat (fs s) (upload_path s file_path) = Some (src, File b) →
  open_wb (fs s) (upload_dest s file_path) = inr (dest, fs1) →
  let res := _upload_file c file_path s in
  let notice := upload_notice (username (client_of s c))
                  (path_name (upload_path s file_path)) in
  (∀ r, current_room (client_of s c) = Some r → r < length (room_objs s) →
        message_queue (room_of res.2 r) = message_queue (room_of s r) ++ [notice]
        ∧ ∀ r', r' ≠ r → room_of res.2 r' = room_of s r')
  ∧ (current_room (client_of s c) = None → room_objs res.2 = room_objs s)
  ∧ msg_has "time" notice = false
  ∧ msg_get "type" notice = Some (Some "system").
Proof.
  intros Hst Hop res notice. subst res notice.
  rewrite (upload_copies c s file_path src b dest fs1 Hst Hop). cbn [fst snd].
  split_and!; try done.
  - intros r Hr Hv.
    exact (uploaded_state_queue c _ _ _ (set_fs (λ _, fs1) s) r Hr Hv).
  - intros Hr.
    exact (uploaded_state_no_room c _ _ _ (set_fs (λ _, fs1) s) Hr).
Qed.

(** ** [AsyncChatServer()] and the uploads directory *)

Lemma walk_insert_new fs0 loc n comps : ∀ cur q,
  fs0 !! loc = None →
  walk fs0 cur comps = Some q →
  walk (<[loc := n]> fs0) cur comps = Some q.
Proof.
  induction comps as [|c comps IH]; intros cur q Hn; [done |].
  simpl. destruct (fs0 !! cur) as [[b|]|] eqn:E; try done.
  assert (loc ≠ cur) as Hne by (intros ->; by rewrite Hn in E).
  rewrite lookup_insert_ne, E by done. by apply IH.
Qed.

Lemma stat_child fs0 p x q n :
  stat fs0 (p ++ [x]) = Some (q, n) → ∃ d, stat fs0 p = Some (d, Dir).
Proof.
  unfold stat. rewrite walk_app.
  destruct (walk fs0 [] p) as [d|]; [| done]. simpl.
  destruct (fs0 !! d) as [[b|]|]; try done. by exists d.
Qed.

Lemma mkdir_new fs0 p x d :
  x ≠ ".." →
  stat fs0 (p ++ [x]) = None →
  stat fs0 p = Some (d, Dir) →
  mkdir_exist_ok fs0 (p ++ [x]) = inr (<[d ++ [x] := Dir]> fs0)
  ∧ fs0 !! (d ++ [x]) = None
  ∧ stat (<[d ++ [x] := Dir]> fs0) (p ++ [x]) = Some (d ++ [x], Dir).
Proof.
  intros Hx Hnone Hp. unfold mkdir_exist_ok. rewrite Hnone.
  rewrite List.removelast_last, Hp. unfold path_name. rewrite last_last.
  split; [done |].
  assert (walk fs0 [] p = Some d ∧ fs0 !! d = Some Dir) as [Hw Hd].
  { unfold stat in Hp. destruct (walk fs0 [] p) as [d'|]; [| done].
    destruct (fs0 !! d') as [n|] eqn:E; [| done]. by injection Hp as -> ->. }
  assert (fs0 !! (d ++ [x]) = None) as Hloc.
  { revert Hnone. unfold stat. rewrite walk_app, Hw. simpl. rewrite Hd.
    rewrite (proj2 (String.eqb_neq x "..")) by done.
    by destruct (fs0 !! (d ++ [x])). }
  split; [done |].
  unfold stat. rewrite walk_app.
  rewrite (walk_insert_new _ _ _ _ _ _ Hloc Hw). simpl.
  assert (d ++ [x] ≠ d) as Hne.
  { intros H. apply (f_equal length) in H. rewrite length_app in H. simpl in H. lia. }
  rewrite lookup_insert_ne, Hd by done.
  rewrite (proj2 (String.eqb_neq x "..")) by done.
  by rewrite lookup_insert_eq.
Qed.

(** X15: the server starts with its uploads directory in place.
    [AsyncChatServer()] makes [uploaded_files] beside the script when it
    is not there, keeps it and all other files as they are when it is, and
    starts with no room and no client.  When a file of that name is in
    the way, or the directory of the script is no directory, [mkdir]
    raises and no server is made. *)
Theorem init_makes_uploads_dir
    (program_dir : list string) (fs0 : filesystem) (cwd0 : list string)
    (t0 : datetime) :
  let up := program_dir ++ ["uploaded_files"] in
  let made := AsyncChatServer_init program_dir fs0 cwd0 t0 in
  (∀ s, made = inr s →
     rooms s = ∅ ∧ clients s = ∅ ∧ room_objs s = [] ∧ client_objs s = []
     ∧ uploads_dir s = up ∧ cwd s = cwd0
     ∧ fs0 ⊆ fs s
     ∧ (∃ q, stat (fs s) up = Some (q, Dir))
     ∧ registry_ok s)
  ∧ (∀ q, stat fs0 up = Some (q, Dir) → ∃ s, made = inr s ∧ fs s = fs0)
  ∧ (∀ d, stat fs0 up = None → stat fs0 program_dir = Some (d, Dir) →
          ∃ s, made = inr s ∧ fs s = <[d ++ ["uploaded_files"] := Dir]> fs0)
  ∧ (∀ q b, stat fs0 up = Some (q, File b) →
            made = inl (OSError ("[Errno 17] File exists: '" +:+ str_path up +:+ "'")))
  ∧ ((∀ d, stat fs0 program_dir ≠ Some (d, Dir)) → ∃ e, made = inl e).
Proof.
  intros up made. subst up made. unfold AsyncChatServer_init.
  split_and!.
  - intros s.
    destruct (stat fs0 (program_dir ++ ["uploaded_files"])) as [[q [b|]]|] eqn:Es.
    + unfold mkdir_exist_ok. by rewrite Es.
    + unfold mkdir_exist_ok. rewrite Es. intros [= <-]. cbn.
      split_and!; try done. by exists q.
    + destruct (stat fs0 program_dir) as [[d [b|]]|] eqn:Ep.
      * unfold mkdir_exist_ok. rewrite Es, List.removelast_last, Ep. done.
      * destruct (mkdir_new fs0 program_dir "uploaded_files" d) as (-> & Hl & Hs);
          try done.
        intros [= <-]. cbn. split_and!; try done.
        -- by apply insert_subseteq.
        -- by eexists.
      * unfold mkdir_exist_ok. rewrite Es, List.removelast_last, Ep. done.
  - intros q Es. unfold mkdir_exist_ok. rewrite Es. by eexists.
  - intros d Es Ep.
    destruct (mkdir_new fs0 program_dir "uploaded_files" d) as (-> & Hl & Hs);
      try done.
    by eexists.
  - intros q b Es. unfold mkdir_exist_ok. by rewrite Es.
  - intros Hno.
    destruct (stat fs0 (program_dir ++ ["uploaded_files"])) as [[q n]|] eqn:Es.
    { apply stat_child in Es as [d Hd]. by destruct (Hno d). }
    unfold mkdir_exist_ok. rewrite Es, List.removelast_last.
    destruct (stat fs0 program_dir) as [[d [b|]]|] eqn:Ep; try by eexists.
    by destruct (Hno d).
Qed.

(** ** Joining a room that exists *)

Lemma asked_room_state_now c u pending rest s :
  now (asked_room_state c u pending rest s) = now s.
Proof. unfold asked_room_state, named_state. by store_simpl. Qed.

Lemma asked_room_state_queue c u pending rest s r :
  message_queue (room_of (asked_room_state c u pending rest s) r)
  = message_queue (room_of s r).
Proof. by rewrite asked_room_state_room_objs. Qed.

Lemma joined_existing c u nm pending rest s r0 :
  rooms s !! nm = Some r0 →
  joined_state c u nm pending rest s
  = send_message_state c (welcome nm)
      (add_member_state r0 c
         (upd_client c (set_current_room (Some r0))
            (asked_room_state c u pending rest s))).
Proof.
  intros E. unfold joined_state. rewrite room_for_asked, E. reflexivity.
Qed.

Lemma joined_username_ne c u nm pending rest s c' :
  c' ≠ c →
  username (client_of (joined_state c u nm pending rest s) c')
  = username (client_of s c').
Proof.
  intros Hne. unfold joined_state. rewrite room_for_asked.
  destruct (rooms s !! nm); store_simpl;
    by rewrite asked_room_state_username_ne.
Qed.

Lemma joined_queue_existing c u nm pending rest s r0 :
  registry_ok s → c < length (client_objs s) →
  rooms s !! nm = Some r0 →
  message_queue (room_of (joined_state c u nm pending rest s) r0)
  = message_queue (room_of s r0)
    ++ [[("type", Some "system");
         ("content", Some (u +:+ " joined the room"));
         ("time", Some (strftime (now s)))]].
Proof.
  intros Hok Hc E. destruct (Hok _ _ E) as [Hv _].
  rewrite (joined_existing _ _ _ _ _ _ _ E). store_simpl.
  rewrite list_lookup_total_alter_eq
    by (rewrite ?length_alter, ?asked_room_state_room_objs; done).
  cbn [message_queue set_message_queue]. store_simpl.
  rewrite ?asked_room_state_room_objs. f_equal.
  unfold join_notice. store_simpl.
  rewrite ?list_lookup_total_alter_eq by (rewrite ?asked_room_state_length; done).
  cbn [username set_current_room].
  by rewrite ?asked_room_state_username, ?asked_room_state_now.
Qed.

(** X16: a room is shared by the sessions that name it.  A handshake that
    names a registered room creates nothing: the registry and the number
    of room objects are unchanged, the session becomes a member of the
    registered room object beside the members it has, and its join notice
    is put at the end of that room's queue, behind what is waiting there;
    the other rooms are untouched. *)
Theorem handshake_joins_existing_room
    (c : client_ref) (s : AsyncChatServer) (d1 d2 : string)
    (rest : list rd_event) (r0 : room_ref) :
  registry_ok s →
  reader (client_of s c) = Data d1 :: Data d2 :: rest →
  PyStr.strip d1 ≠ "" → PyStr.strip d2 ≠ "" →
  rooms s !! PyStr.strip d2 = Some r0 →
  let res := handshake c s in
  res.1 = Ok true
  ∧ rooms res.2 = rooms s
  ∧ length (room_objs res.2) = length (room_objs s)
  ∧ current_room (client_of res.2 c) = Some r0
  ∧ members (room_of res.2 r0) = members (room_of s r0) ∪ {[c]}
  ∧ message_queue (room_of res.2 r0)
    = message_queue (room_of s r0)
      ++ [[("type", Some "system");
           ("content", Some (PyStr.strip d1 +:+ " joined the room"));
           ("time", Some (strftime (now s)))]]
  ∧ (∀ r, r < length (room_objs s) → r ≠ r0 →
          members (room_of res.2 r) = members (room_of s r)).
Proof.
  intros Hok Hrd H1 H2 E res. subst res.
  pose proof (reader_valid _ _ _ _ Hrd) as Hc.
  rewrite (handshake_join _ _ _ _ _ Hrd H1 H2). cbn [fst snd].
  assert (joined_room (PyStr.strip d2) s = r0) as Hj
    by (unfold joined_room; by rewrite E).
  split_and!.
  - done.
  - rewrite joined_rooms, Hj. by apply insert_id.
  - by rewrite joined_length_rooms, E.
  - by rewrite joined_current_room, Hj.
  - rewrite <- Hj at 1. by rewrite joined_members, E.
  - by apply joined_queue_existing.
  - intros r Hr Hne. apply joined_members_old; [done |]. by rewrite Hj.
Qed.

(** X17: names are not reserved.  The handshake takes the name the client
    gives without looking at the names in use: a session that gives the
    name of a member of the room it asks for joins that room under the
    same name, and the room then has two members of that name. *)
Theorem handshake_accepts_taken_name
    (c c' : client_ref) (s : AsyncChatServer) (d1 d2 : string)
    (rest : list rd_event) (r0 : room_ref) :
  registry_ok s →
  reader (client_of s c) = Data d1 :: Data d2 :: rest →
  PyStr.strip d1 ≠ "" → PyStr.strip d2 ≠ "" →
  rooms s !! PyStr.strip d2 = Some r0 →
  c' ∈ members (room_of s r0) →
  username (client_of s c') = Some (PyStr.strip d1) →
  c' ≠ c →
  let res := handshake c s in
  res.1 = Ok true
  ∧ {[c; c']} ⊆ members (room_of res.2 r0)
  ∧ username (client_of res.2 c) = Some (PyStr.strip d1)
  ∧ username (client_of res.2 c') = Some (PyStr.strip d1).
Proof.
  intros Hok Hrd H1 H2 E Hm Hu Hne res. subst res.
  pose proof (reader_valid _ _ _ _ Hrd) as Hc.
  rewrite (handshake_join _ _ _ _ _ Hrd H1 H2). cbn [fst snd].
  assert (joined_room (PyStr.strip d2) s = r0) as Hj
    by (unfold joined_room; by rewrite E).
  split_and!.
  - done.
  - rewrite <- Hj at 1. rewrite joined_members, E by done.
    clear -Hm. set_solver.
  - by apply joined_username.
  - by rewrite joined_username_ne.
Qed.

(** ** [/file] and the line after it *)

Lemma handle_command_file_prompt c cmd p0 :
  PyStr.split_maxsplit1 cmd = [p0] → PyStr.lower p0 = "/file" →
  _handle_command c cmd =
    (file_path ← (send_message c file_prompt;; receive_message c);
     match file_path with
     | Some p => if PyStr.is_empty p then mret tt else _upload_file c p
     | None => mret tt
     end).
Proof.
  intros Hs Hl. unfold _handle_command. rewrite Hs. cbv zeta. rewrite Hl.
  reflexivity.
Qed.

(** X19: after a bare [/file] the next line is the path.  The command
    sends the prompt and takes the next line from the reader itself, so
    that line is never seen by the read loop: whatever it is, a command
    such as [/quit] included, it is stripped and handed to [_upload_file]
    as a path.  The client gets the prompt and then the one answer of the
    upload. *)
Theorem file_prompt_takes_next_line
    (c : client_ref) (cmd p0 d : string) (rest : list rd_event)
    (s : AsyncChatServer) :
  PyStr.split_maxsplit1 cmd = [p0] → PyStr.lower p0 = "/file" →
  reader (client_of s c) = Data d :: rest →
  PyStr.strip d ≠ "" →
  let res := _handle_command c cmd s in
  res = _upload_file c (PyStr.strip d)
          (take_event c rest (send_message_state c file_prompt s))
  ∧ res.1 = Ok tt
  ∧ reader (client_of res.2 c) = rest
  ∧ (∃ m, sent_to res.2 c = sent_to s c ++ [file_prompt; m]).
Proof.
  intros Hs Hl Hrd Hd res.
  pose proof (reader_valid _ _ _ _ Hrd) as Hc.
  assert (Heq : res = _upload_file c (PyStr.strip d)
                        (take_event c rest (send_message_state c file_prompt s))).
  { subst res. rewrite (handle_command_file_prompt c cmd p0 Hs Hl).
    unfold mbind at 1, M_bind at 1. unfold mbind at 1, M_bind at 1.
    rewrite send_message_eq.
    rewrite (receive_message_data _ _ d rest) by (by rewrite send_message_reader).
    rewrite (strip_nonempty _ Hd), (is_empty_false _ Hd). reflexivity. }
  split; [done |]. rewrite Heq. clear Heq res.
  set (s1 := take_event c rest (send_message_state c file_prompt s)).
  assert (Hc1 : c < length (client_objs s1)) by (subst s1; by store_simpl).
  assert (Hrd1 : reader (client_of s1 c) = rest).
  { subst s1. apply reader_take_event. by rewrite send_message_length. }
  assert (Hs1 : sent_to s1 c = sent_to s c ++ [file_prompt]).
  { subst s1. rewrite sent_to_take_event. by apply send_message_sent_to. }
  split; [apply upload_file_ok |].
  destruct (upload_file_cases c (PyStr.strip d) s1)
    as [(text & l & ->)|(src & b & dest & fs1 & Hst & Hop & ->)]; cbn [fst snd].
  - split.
    + by store_simpl.
    + eexists. rewrite sent_to_error by done. rewrite Hs1.
      by rewrite <- app_assoc.
  - split.
    + unfold uploaded_state. destruct (current_room _); by store_simpl.
    + eexists. rewrite uploaded_state_sent_to by done.
      change (sent_to (set_fs (λ _, fs1) s1) c) with (sent_to s1 c).
      rewrite Hs1. by rewrite <- app_assoc.
Qed.

(** X20: an upload writes one file, at its destination.  Whatever the
    path, [_upload_file] either leaves the files as they are or changes
    them at one place only: the place the uploads directory joined with
    the base name resolves to, which gets a regular file and was no
    directory before.  Nothing is deleted and no other file is written,
    the source included unless it is that place. *)
Theorem upload_writes_one_file
    (c : client_ref) (file_path : string) (s : AsyncChatServer) :
  let res := _upload_file c file_path s in
  fs res.2 = fs s
  ∨ ∃ dst b,
      walk (fs s) [] (upload_dest s file_path) = Some dst
      ∧ fs s !! dst ≠ Some Dir
      ∧ fs res.2 = <[dst := File b]> (fs s)
      ∧ (∀ q, q ≠ dst → fs res.2 !! q = fs s !! q)
      ∧ path_is_file (fs s) (upload_path s file_path) = true.
Proof.
  intros res. subst res.
  destruct (upload_file_cases c file_path s)
    as [(text & l & ->)|(src & b & dest & fs1 & Hst & Hop & ->)]; cbn [fst snd].
  - left. by store_simpl.
  - right. apply open_wb_location in Hop as (-> & Hnd & Hw).
    eexists dest, _. split; [done |]. split; [done |].
    rewrite uploaded_state_fs. store_simpl. rewrite insert_insert_eq.
    split; [done |]. split.
    + intros q Hq. by rewrite lookup_insert_ne.
    + unfold path_is_file. by rewrite Hst.
Qed.

(** ** [_disconnect_client], called again *)

(** X21: a second teardown of the last member raises [KeyError].  When
    the only member of a registered room is disconnected, the room is
    taken out of the registry; a second [_disconnect_client] of the same
    connection finds the room empty again and runs [del self.rooms[...]]
    on the name that is no longer there.  The exception leaves the
    coroutine before [writer.close()] is reached a second time. *)
Theorem second_disconnect_raises_KeyError
    (c : client_ref) (s : AsyncChatServer) (r : room_ref) :
  current_room (client_of s c) = Some r →
  rooms s !! name (room_of s r) = Some r →
  members (room_of s r) = {[c]} →
  let first := _disconnect_client c s in
  let second := _disconnect_client c first.2 in
  first.1 = Ok tt
  ∧ rooms first.2 !! name (room_of s r) = None
  ∧ second.1 = Raise (KeyError (name (room_of s r)))
  ∧ client_objs second.2 = client_objs first.2.
Proof.
  intros Hr Hreg Hm first second. subst first second.
  assert (Hf : disconnect_fails c s = false).
  { unfold disconnect_fails. rewrite Hr, Hreg.
    rewrite bool_decide_eq_false_2 by done. apply andb_false_r. }
  pose proof (disconnect_outcome c s) as Hout. rewrite Hf in Hout.
  pose proof (disconnect_rooms c s) as Hrooms.
  rewrite Hr, Hm in Hrooms.
  replace ({[c]} ∖ {[c]} : gset nat) with (∅ : gset nat) in Hrooms
    by (clear; set_solver).
  rewrite size_empty in Hrooms. cbn [Nat.eqb] in Hrooms.
  pose proof (disconnect_current_room c s c) as Hcur. rewrite Hr in Hcur.
  pose proof (disconnect_members c s r) as Hmem.
  rewrite decide_True, Hm in Hmem by done.
  pose proof (disconnect_name c s r) as Hname.
  set (once := (_disconnect_client c s).2) in *.
  assert (Hf2 : disconnect_fails c once = true).
  { unfold disconnect_fails. rewrite Hcur. cbv beta iota.
    rewrite Hmem, Hname, Hrooms.
    replace ({[c]} ∖ {[c]} ∖ {[c]} : gset nat) with (∅ : gset nat)
      by (clear; set_solver).
    rewrite size_empty, lookup_delete_eq. by rewrite bool_decide_eq_true_2. }
  split_and!.
  - done.
  - rewrite Hrooms. apply lookup_delete_eq.
  - rewrite disconnect_outcome, Hf2, Hcur.
    change (default 0 (Some r)) with r. by rewrite Hname.
  - by rewrite disconnect_client_objs, Hf2.
Qed.

(** ** Sessions one after another *)

Lemma sessions_closed conns : ∀ s c,
  registry_ok s → c < length (client_objs s) →
  closed (writer (client_of
            (foldl (λ st conn, (handle_client conn.1 conn.2 st).2) s conns) c))
  = closed (writer (client_of s c)).
Proof.
  induction conns as [|[rd w] conns IH]; intros s c Hok Hc; [done |].
  cbn [foldl fst snd].
  destruct (session_ends_well rd w s Hok) as (_ & Hok1 & _ & _ & _ & Hold & _ & _ & _ & Hlen).
  cbv zeta in *. rewrite IH by (done || lia). by apply Hold.
Qed.

(** X22: sessions that do not overlap leave nothing behind.  When the
    server holds no room and no client, then after any number of
    connections handled one after the other, whatever each of them sent,
    it again holds no room and no client; every connection it made is
    closed, and the registry is as required for the next one. *)
Theorem sessions_leave_nothing_behind
    (conns : list (list rd_event * StreamWriter)) (s : AsyncChatServer) :
  registry_ok s → rooms s = ∅ → clients s = ∅ →
  let s' := foldl (λ st conn, (handle_client conn.1 conn.2 st).2) s conns in
  registry_ok s'
  ∧ rooms s' = ∅
  ∧ clients s' = ∅
  ∧ length (client_objs s') = length (client_objs s) + length conns
  ∧ (∀ c, length (client_objs s) ≤ c → c < length (client_objs s') →
          closed (writer (client_of s' c)) = true).
Proof.
  revert s. induction conns as [|[rd w] conns IH]; intros s Hok Hr Hc s'; subst s'.
  { cbn [foldl length]. split_and!; try done; try lia; intros c ? ?; lia. }
  cbn [foldl fst snd].
  destruct (session_ends_well rd w s Hok)
    as (_ & Hok1 & Hsub & Hcl & Hclosed & _ & _ & _ & _ & Hlen).
  cbv zeta in *.
  set (s1 := (handle_client rd w s).2) in *.
  assert (Hr1 : rooms s1 = ∅).
  { apply map_empty. intros i. destruct (rooms s1 !! i) as [x|] eqn:E; [| done].
    eapply lookup_weaken in E; [| exact Hsub]. by rewrite Hr, lookup_empty in E. }
  assert (Hc1 : clients s1 = ∅) by (rewrite Hcl, Hc; clear; set_solver).
  destruct (IH s1 Hok1 Hr1 Hc1) as (I1 & I2 & I3 & I4 & I5).
  cbv zeta in *. split_and!; try done.
  - rewrite I4, Hlen. simpl. lia.
  - intros c Hge Hlt.
    destruct (decide (c = length (client_objs s))) as [->|Hne].
    + rewrite sessions_closed by (done || lia). done.
    + apply I5; [lia | done].
Qed.

(** ** Members have names *)

Lemma members_named_same_sessions s s' :
  same_sessions s s' → members_named s → members_named s'.
Proof.
  intros (_ & _ & _ & _ & _ & _ & _ & _ & Km & Ku & _) Hn r c.
  rewrite Km, Ku. apply Hn.
Qed.

Lemma members_named_accepted rd w s :
  members_named s → members_named (accepted_state rd w s).
Proof.
  intros Hn r c Hc.
  assert (Hs : is_Some (username (client_of s c))) by (by apply (Hn r)).
  rewrite accepted_client_old; [done |].
  destruct (decide (c < length (client_objs s))) as [|Hge]; [done |].
  rewrite client_of_invalid in Hs by lia. by destruct Hs.
Qed.

Lemma members_named_joined c u nm pending rest s :
  registry_ok s → c < length (client_objs s) → members_named s →
  members_named (joined_state c u nm pending rest s).
Proof.
  intros Hok Hv Hn r c' Hc'.
  destruct (decide (c' = c)) as [->|Hne]; [by rewrite joined_username |].
  rewrite joined_username_ne by done.
  destruct (decide (r = joined_room nm s)) as [->|Hr].
  - rewrite joined_members in Hc' by done.
    destruct (rooms s !! nm) as [r0|]; [| set_solver].
    apply (Hn r0). set_solver.
  - destruct (decide (r < length (room_objs s))) as [Hlt|Hge].
    + rewrite joined_members_old in Hc' by done. by apply (Hn r).
    + rewrite room_of_invalid in Hc'; [simpl in Hc'; set_solver |].
      rewrite joined_length_rooms. unfold joined_room in Hr.
      destruct (rooms s !! nm); simpl in Hr; lia.
Qed.

Lemma members_named_disconnect c s :
  members_named s → members_named (_disconnect_client c s).2.
Proof.
  intros Hn r c' Hc'. rewrite disconnect_members in Hc'.
  assert (Hm : c' ∈ members (room_of s r)) by (case_decide; set_solver).
  apply Hn in Hm. revert Hm. clear.
  rewrite disconnect_client_objs. destruct (disconnect_fails c s); [done |].
  rewrite list_lookup_total_alter. by case_decide; destruct_and?; subst.
Qed.

Lemma list_never_fails c cmd s :
  members_named s → (_handle_command c cmd s).1 ≠ Raise TypeError.
Proof.
  intros Hn. rewrite handle_command_outcome.
  destruct (PyStr.split_maxsplit1 cmd) as [|p0 rest]; [done |].
  destruct (String.eqb (PyStr.lower p0) "/list").
  - destruct (current_room (client_of s c)) as [r|]; [| done].
    destruct (mapM id (member_names s r)) eqn:E; [done |].
    apply mapM_id_None in E. unfold member_names in E.
    apply list_elem_of_fmap in E as (m & Hm & Hin).
    apply elem_of_elements, Hn in Hin. rewrite <- Hm in Hin. by destruct Hin.
  - by destruct (String.eqb (PyStr.lower p0) "/quit").
Qed.

(** X23: the members of a room have names, so [/list] cannot fail.
    When every member of every room is a connection with a name, then
    this is so again after a whole session of a new client, whatever it
    sent, and in every state the delivery duties lead to; and no command
    raises [TypeError], neither alone nor in the read loop of any
    connection: [', '.join] is never given a [None]. *)
Theorem members_stay_named
    (rd : list rd_event) (w : StreamWriter) (s : AsyncChatServer) :
  registry_ok s → members_named s →
  members_named (handle_client rd w s).2
  ∧ (∀ s', rtc duty_step s s' → members_named s')
  ∧ (∀ c cmd, (_handle_command c cmd s).1 ≠ Raise TypeError)
  ∧ (∀ fuel c, (_receive_from_client fuel c s).1 ≠ Raise TypeError).
Proof.
  intros Hok Hn. split_and!.
  - destruct (handle_client_eq rd w s) as (s2 & Heq & Hcase).
    cbv zeta in Heq, Hcase.
    pose proof (members_named_accepted rd w s Hn) as Hna.
    assert (Hn2 : members_named s2).
    { destruct Hcase as [(_ & Hro & _ & _ & _ & _ & Hu)
                        |(d1 & d2 & rest & _ & _ & _ & K)].
      - intros r c Hc. apply Hu. apply (Hna r). unfold room_of in *.
        by rewrite <- Hro.
      - eapply members_named_same_sessions; [exact K |].
        apply members_named_joined;
          [by apply registry_ok_accepted | rewrite accepted_length; lia | done]. }
    apply (members_named_disconnect (length (client_objs s))) in Hn2.
    rewrite Heq. by destruct (_disconnect_client _ s2) as [[[]|e] s3].
  - intros s' Hrun. clear Hok.
    induction Hrun as [|x y z Hstep _ IH]; [done |].
    apply IH. eapply members_named_same_sessions; [| done].
    by apply duty_step_frame.
  - intros c cmd. by apply list_never_fails.
  - intros fuel c. clear Hok. revert s Hn.
    induction fuel as [|fuel IH]; intros s Hn; [done |].
    rewrite read_loop_unfold. unfold mbind, M_bind.
    pose proof (receive_message_keeps c s) as K1.
    destruct (receive_message c s) as [[[msg|]|e] s1] eqn:E; [| done |].
    + destruct (PyStr.is_empty msg); [done |].
      apply (members_named_same_sessions _ _ K1) in Hn.
      pose proof (handle_line_keeps c msg s1) as K2.
      destruct (handle_line c msg s1) as [[[]|e] s2] eqn:E2.
      * apply IH. by apply (members_named_same_sessions _ _ K2).
      * cbn [fst]. intros [= ->].
        unfold handle_line in E2. destruct (PyStr.startswith_slash msg).
        -- eapply (list_never_fails c msg s1); [done |]. by rewrite E2.
        -- revert E2. munfold. destruct (current_room (client_of s1 c)); [| done].
           by rewrite post_message_eq.
    + pose proof (receive_message_ok c s) as [v Hv]. by rewrite E in Hv.
Qed.

(** ** The claims at concrete inputs *)

Import Scenario.

Lemma registry_ok_server0 : registry_ok server0.
Proof.
  intros nm r H. change ((∅ : gmap string nat) !! nm = Some r) in H.
  by rewrite lookup_empty in H.
Qed.

(** C3 as it is written fails: a client that answers the request for the
    name with an empty line gets no made-up name and no room, and one that
    answers the request for the room with an empty line is not put in
    "lobby" or in any room. *)
Lemma empty_answer_gets_no_fallback :
  let res1 := handle_client [Data nl; Data ("lobby" +:+ nl)] w0 server0 in
  let res2 := handle_client [Data ("Alice" +:+ nl); Data nl] w0 server0 in
  username (client_of res1.2 0) = None
  ∧ ¬ (∃ r, current_room (client_of res1.2 0) = Some r)
  ∧ rooms res1.2 = ∅
  ∧ ¬ (∃ r, current_room (client_of res2.2 0) = Some r)
  ∧ rooms res2.2 = ∅.
Proof.
  cbv zeta. split; [reflexivity |].
  split; [intros [r H]; vm_compute in H; discriminate |].
  split; [reflexivity |].
  split; [intros [r H]; vm_compute in H; discriminate | reflexivity].
Qed.

(** C4 as it is written fails: a member that is added again is counted
    once. *)
Lemma count_is_not_joins_minus_leaves :
  let ops := [Join 0; Join 0] in
  members (room_of empty_room 0) = ∅
  ∧ Z.of_nat (size (members (room_of (run_ops 0 ops empty_room).2 0)))
    ≠ (Z.of_nat (joins ops) - Z.of_nat (leaves ops))%Z.
Proof. cbv zeta. split; [reflexivity |]. vm_compute. discriminate. Qed.


(** The upload of a file that already lies in the uploads directory under
    its name: the destination is opened, and so emptied, before the source
    is read.  The two bytes are lost and 0 bytes are confirmed. *)
Lemma upload_onto_itself_truncates :
  let res := _upload_file 0 "/srv/chat/uploaded_files/notes.txt" uploaded_once in
  fs uploaded_once !! ["srv"; "chat"; "uploaded_files"; "notes.txt"]
    = Some (File [Byte.x68; Byte.x69])
  ∧ fs res.2 !! ["srv"; "chat"; "uploaded_files"; "notes.txt"] = Some (File [])
  ∧ List.last (sent_to res.2 0) [] = upload_confirmation "notes.txt" 0.
Proof. cbv zeta. split; [reflexivity |]. split; reflexivity. Qed.

(** C6 as it is written fails: the writer of the connection fails, and the
    caller of [send_message] gets the normal return. *)
Lemma send_fault_is_not_reported :
  broken (writer (client_of broken_writer 0)) = true
  ∧ ¬ (∃ e, (send_message 0 request_name broken_writer).1 = Raise e)
  ∧ (send_message 0 request_name broken_writer).1
    = (send_message 0 request_name (state_of (accept [] w0 server0))).1.
Proof.
  split; [reflexivity |].
  split; [intros [e H]; vm_compute in H; discriminate | reflexivity].
Qed.



(** ** The theorems at concrete inputs *)

Lemma room_message_reaches_one_member_witness :
  rtc duty_step two_members two_members
  ∧ ¬ (hello ∈ sent_to two_members 0 ∧ hello ∈ sent_to two_members 1).
Proof.
  split; [apply rtc_refl |].
  apply (proj1 (proj2 (proj2 room_message_reaches_one_member)) two_members).
  apply rtc_refl.
Defined.


Lemma handshake_empty_answer_ends_session_witness :
  PyStr.strip nl = ""
  ∧ current_room (client_of (handle_client [Data nl] w0 server0).2 0) = None
  ∧ PyStr.strip ("Alice" +:+ nl) ≠ ""
  ∧ current_room
      (client_of (handle_client [Data ("Alice" +:+ nl); Data nl] w0 server0).2 0)
    = None.
Proof.
  assert (H1 : PyStr.strip nl = "") by reflexivity.
  assert (H2 : PyStr.strip ("Alice" +:+ nl) ≠ "") by (vm_compute; discriminate).
  split; [exact H1 |].
  split.
  { exact (proj1 (proj2 (proj2 (proj1 handshake_empty_answer_ends_session
                                   server0 w0 nl [] H1)))). }
  split; [exact H2 |].
  exact (proj1 (proj2 (proj2 (proj2 handshake_empty_answer_ends_session
                                 server0 w0 ("Alice" +:+ nl) nl [] H2 H1)))).
Defined.

Lemma membership_count_and_registry_witness :
  (0 < length (room_objs (alice_in_lobby []))
   ∧ proper_ops (members (room_of (alice_in_lobby []) 0)) ([Join 1; Leave 0] ++ []) = true
   ∧ size (members (room_of (run_ops 0 [Join 1; Leave 0] (alice_in_lobby [])).2 0)) + 1
     = size (members (room_of (alice_in_lobby []) 0)) + 1)
  ∧ (current_room (client_of (alice_in_lobby []) 0) = Some 0
     ∧ rooms (alice_in_lobby []) !! name (room_of (alice_in_lobby []) 0) = Some 0
     ∧ (_disconnect_client 0 (alice_in_lobby [])).1 = Ok tt)
  ∧ (registry_ok (accepted_state [Data ("Alice" +:+ nl); Data ("lobby" +:+ nl)] w0 server0)
     ∧ (handshake 0 (accepted_state [Data ("Alice" +:+ nl); Data ("lobby" +:+ nl)]
                       w0 server0)).1 = Ok true).
Proof.
  destruct membership_count_and_registry as (Hcount & Hlast & Hnew).
  split; [| split].
  - assert (H1 : 0 < length (room_objs (alice_in_lobby []))) by (vm_compute; lia).
    assert (H2 : proper_ops (members (room_of (alice_in_lobby []) 0))
                   ([Join 1; Leave 0] ++ []) = true) by (reflexivity).
    split; [exact H1 |]. split; [exact H2 |].
    exact (proj2 (Hcount (alice_in_lobby []) 0 [Join 1; Leave 0] [] H1 H2)).
  - assert (H1 : current_room (client_of (alice_in_lobby []) 0) = Some 0)
      by (reflexivity).
    assert (H2 : rooms (alice_in_lobby []) !! name (room_of (alice_in_lobby []) 0)
                 = Some 0) by (reflexivity).
    split; [exact H1 |]. split; [exact H2 |].
    exact (proj1 (Hlast (alice_in_lobby []) 0 0 H1 H2)).
  - assert (H0 : registry_ok
                   (accepted_state [Data ("Alice" +:+ nl); Data ("lobby" +:+ nl)]
                      w0 server0))
      by (apply registry_ok_accepted, registry_ok_server0).
    split; [exact H0 |].
    refine (proj1 (Hnew _ 0 ("Alice" +:+ nl) ("lobby" +:+ nl) [] H0 _ _ _ _)).
    + reflexivity.
    + vm_compute; discriminate.
    + vm_compute; discriminate.
    + reflexivity.
Defined.


Lemma send_message_swallows_faults_witness :
  1 ≠ 0
  ∧ client_of (send_message 0 request_name late_joiner).2 1 = client_of late_joiner 1.
Proof.
  assert (H : 1 ≠ 0) by lia.
  split; [exact H |].
  exact (proj1 (proj2 (proj2 (send_message_swallows_faults late_joiner 0 request_name)))
           1 H).
Defined.





(** ** The further properties at concrete inputs *)

Lemma registry_ok_alice_in_lobby rest : registry_ok (alice_in_lobby rest).
Proof.
  intros nm r H.
  change (({["lobby" := 0]} : gmap string nat) !! nm = Some r) in H.
  apply lookup_singleton_Some in H as [<- <-]. split; [vm_compute; lia | reflexivity].
Qed.


Lemma handle_client_never_fails_witness :
  registry_ok server0
  ∧ (handle_client [Data ("Alice" +:+ nl); Data ("lobby" +:+ nl); Data "/list"; ReadFault]
       w0 server0).1 = Ok 0.
Proof.
  split; [exact registry_ok_server0 |].
  exact (proj1 (handle_client_never_fails
                  [Data ("Alice" +:+ nl); Data ("lobby" +:+ nl); Data "/list"; ReadFault]
                  w0 server0 registry_ok_server0)).
Defined.



Lemma private_command_delivers_witness :
  has_member_named late_joiner 0 (PyStr.lstrip_at "@Alice")
  ∧ sent_to (_handle_command 1 "/private @Alice hi there" late_joiner).2 1
    = sent_to late_joiner 1 ++ [private_sent "Alice"].
Proof.
  assert (Hm : has_member_named late_joiner 0 (PyStr.lstrip_at "@Alice")).
  { exists 0. split; [by_compute | reflexivity]. }
  split; [exact Hm |].
  refine (proj1 (proj2 (private_command_delivers 1 "/private @Alice hi there"
                          late_joiner "/private" ["@Alice hi there"] "@Alice hi there"
                          "@Alice" "hi there" [] 0 _ _ _ _ _ Hm)));
    reflexivity.
Defined.

Lemma private_loop_delivers_in_order_witness :
  let s := (send_private_message 0 1 "Alice" "two"
              (send_private_message 0 1 "Alice" "one" late_joiner).2).2 in
  length (private_queue (client_of s 0)) < 3
  ∧ sent_to (deliver 3 (_send_private_messages 0) s).2 0
    = sent_to s 0 ++ private_queue (client_of s 0).
Proof.
  cbv zeta.
  set (s := (send_private_message 0 1 "Alice" "two" _).2).
  assert (H : length (private_queue (client_of s 0)) < 3) by (vm_compute; lia).
  split; [exact H |].
  exact (proj1 (proj2 (private_loop_delivers_in_order 0 s 3 H))).
Defined.

Lemma broadcast_loop_takes_whole_queue_witness :
  current_room (client_of late_joiner 1) = Some 0
  ∧ length (message_queue (room_of late_joiner 0)) < 3
  ∧ message_queue (room_of (deliver 3 (_broadcast_room_messages 1) late_joiner).2 0) = [].
Proof.
  assert (H1 : current_room (client_of late_joiner 1) = Some 0) by reflexivity.
  assert (H2 : length (message_queue (room_of late_joiner 0)) < 3)
    by (vm_compute; lia).
  split; [exact H1 |]. split; [exact H2 |].
  exact (proj1 (proj2 (proj2 (broadcast_loop_takes_whole_queue 1 0 late_joiner 3 H1 H2)))).
Defined.

Lemma delivery_moves_messages_only_witness :
  rtc duty_step late_joiner (_broadcast_room_messages 1 late_joiner).2
  ∧ fs (_broadcast_room_messages 1 late_joiner).2 = fs late_joiner.
Proof.
  assert (H : rtc duty_step late_joiner (_broadcast_room_messages 1 late_joiner).2).
  { apply rtc_once, (step_broadcast _ _ 1); [by_compute | vm_compute; reflexivity]. }
  split; [exact H |].
  exact (proj1 (proj2 (delivery_moves_messages_only _ _ H))).
Defined.

Lemma upload_always_answers_witness :
  0 < length (client_objs (alice_in_lobby []))
  ∧ (_upload_file 0 "/nope" (alice_in_lobby [])).1 = Ok tt.
Proof.
  assert (H : 0 < length (client_objs (alice_in_lobby []))) by (vm_compute; lia).
  split; [exact H |].
  exact (proj1 (upload_always_answers 0 "/nope" (alice_in_lobby []) H)).
Defined.

Lemma upload_notifies_room_witness :
  stat (fs (alice_in_lobby [])) (upload_path (alice_in_lobby []) "notes.txt")
  = Some (["srv"; "chat"; "notes.txt"], File [Byte.x68; Byte.x69])
  ∧ message_queue (room_of (_upload_file 0 "notes.txt" (alice_in_lobby [])).2 0)
    = message_queue (room_of (alice_in_lobby []) 0)
      ++ [upload_notice (username (client_of (alice_in_lobby []) 0))
            (path_name (upload_path (alice_in_lobby []) "notes.txt"))].
Proof.
  assert (H1 : stat (fs (alice_in_lobby [])) (upload_path (alice_in_lobby []) "notes.txt")
               = Some (["srv"; "chat"; "notes.txt"], File [Byte.x68; Byte.x69]))
    by reflexivity.
  assert (H2 : open_wb (fs (alice_in_lobby [])) (upload_dest (alice_in_lobby []) "notes.txt")
               = inr (["srv"; "chat"; "uploaded_files"; "notes.txt"],
                      <[["srv"; "chat"; "uploaded_files"; "notes.txt"] := File []]>
                        (fs (alice_in_lobby []))))
    by reflexivity.
  assert (H3 : current_room (client_of (alice_in_lobby []) 0) = Some 0) by reflexivity.
  assert (H4 : 0 < length (room_objs (alice_in_lobby []))) by (vm_compute; lia).
  split; [exact H1 |].
  exact (proj1 (proj1 (upload_notifies_room 0 "notes.txt" (alice_in_lobby []) _ _ _ _
                         H1 H2) 0 H3 H4)).
Defined.

Lemma handshake_joins_existing_room_witness :
  let s := accepted_state [Data ("Bob" +:+ nl); Data ("lobby" +:+ nl)] w0
             (alice_in_lobby []) in
  rooms s !! PyStr.strip ("lobby" +:+ nl) = Some 0
  ∧ members (room_of (handshake 1 s).2 0) = members (room_of s 0) ∪ {[1]}.
Proof.
  cbv zeta.
  set (s := accepted_state [Data ("Bob" +:+ nl); Data ("lobby" +:+ nl)] w0
              (alice_in_lobby [])).
  assert (H0 : registry_ok s)
    by (apply registry_ok_accepted, registry_ok_alice_in_lobby).
  assert (H1 : reader (client_of s 1)
               = [Data ("Bob" +:+ nl); Data ("lobby" +:+ nl)]) by reflexivity.
  assert (H2 : PyStr.strip ("Bob" +:+ nl) ≠ "") by (vm_compute; discriminate).
  assert (H3 : PyStr.strip ("lobby" +:+ nl) ≠ "") by (vm_compute; discriminate).
  assert (H4 : rooms s !! PyStr.strip ("lobby" +:+ nl) = Some 0) by reflexivity.
  split; [exact H4 |].
  exact (proj1 (proj2 (proj2 (proj2 (proj2
           (handshake_joins_existing_room 1 s _ _ [] 0 H0 H1 H2 H3 H4)))))).
Defined.

Lemma handshake_accepts_taken_name_witness :
  let s := accepted_state [Data ("Alice" +:+ nl); Data ("lobby" +:+ nl)] w0
             (alice_in_lobby []) in
  username (client_of s 0) = Some (PyStr.strip ("Alice" +:+ nl))
  ∧ username (client_of (handshake 1 s).2 1) = Some (PyStr.strip ("Alice" +:+ nl))
  ∧ username (client_of (handshake 1 s).2 0) = Some (PyStr.strip ("Alice" +:+ nl)).
Proof.
  cbv zeta.
  set (s := accepted_state [Data ("Alice" +:+ nl); Data ("lobby" +:+ nl)] w0
              (alice_in_lobby [])).
  assert (H0 : registry_ok s)
    by (apply registry_ok_accepted, registry_ok_alice_in_lobby).
  assert (H1 : reader (client_of s 1)
               = [Data ("Alice" +:+ nl); Data ("lobby" +:+ nl)]) by reflexivity.
  assert (H2 : PyStr.strip ("Alice" +:+ nl) ≠ "") by (vm_compute; discriminate).
  assert (H3 : PyStr.strip ("lobby" +:+ nl) ≠ "") by (vm_compute; discriminate).
  assert (H4 : rooms s !! PyStr.strip ("lobby" +:+ nl) = Some 0) by reflexivity.
  assert (H5 : 0 ∈ members (room_of s 0)) by by_compute.
  assert (H6 : username (client_of s 0) = Some (PyStr.strip ("Alice" +:+ nl)))
    by reflexivity.
  assert (H7 : 0 ≠ 1) by lia.
  split; [exact H6 |].
  exact (proj2 (proj2 (handshake_accepts_taken_name 1 0 s _ _ [] 0
                         H0 H1 H2 H3 H4 H5 H6 H7))).
Defined.

Lemma read_loop_terminates_witness :
  let s := alice_in_lobby [Data ("hi" +:+ nl); Data "/help"; ReadFault] in
  length (reader (client_of s 0)) < 7
  ∧ serve 0 s = (Ok tt, (_receive_from_client 7 0 s).2).
Proof.
  cbv zeta.
  set (s := alice_in_lobby [Data ("hi" +:+ nl); Data "/help"; ReadFault]).
  assert (H : length (reader (client_of s 0)) < 7) by (vm_compute; lia).
  split; [exact H |].
  exact (proj2 (proj2 (read_loop_terminates 0 s 7 H))).
Defined.

Lemma file_prompt_takes_next_line_witness :
  let s := alice_in_lobby [Data ("/quit" +:+ nl)] in
  reader (client_of s 0) = [Data ("/quit" +:+ nl)]
  ∧ (_handle_command 0 "/file" s).1 = Ok tt
  ∧ reader (client_of (_handle_command 0 "/file" s).2 0) = [].
Proof.
  cbv zeta.
  set (s := alice_in_lobby [Data ("/quit" +:+ nl)]).
  assert (H1 : PyStr.split_maxsplit1 "/file" = ["/file"]) by reflexivity.
  assert (H2 : PyStr.lower "/file" = "/file") by reflexivity.
  assert (H3 : reader (client_of s 0) = [Data ("/quit" +:+ nl)]) by reflexivity.
  assert (H4 : PyStr.strip ("/quit" +:+ nl) ≠ "") by (vm_compute; discriminate).
  split; [exact H3 |].
  pose proof (file_prompt_takes_next_line 0 "/file" "/file" _ [] s H1 H2 H3 H4)
    as (_ & Ha & Hb & _).
  split; [exact Ha | exact Hb].
Defined.

Lemma second_disconnect_raises_KeyError_witness :
  members (room_of (alice_in_lobby []) 0) = {[0]}
  ∧ (_disconnect_client 0 (_disconnect_client 0 (alice_in_lobby [])).2).1
    = Raise (KeyError "lobby").
Proof.
  assert (H1 : current_room (client_of (alice_in_lobby []) 0) = Some 0) by reflexivity.
  assert (H2 : rooms (alice_in_lobby []) !! name (room_of (alice_in_lobby []) 0) = Some 0)
    by reflexivity.
  assert (H3 : members (room_of (alice_in_lobby []) 0) = {[0]}) by reflexivity.
  split; [exact H3 |].
  exact (proj1 (proj2 (proj2 (second_disconnect_raises_KeyError 0 (alice_in_lobby []) 0
                                H1 H2 H3)))).
Defined.

Lemma sessions_leave_nothing_behind_witness :
  let conns :=
    [([Data ("Alice" +:+ nl); Data ("lobby" +:+ nl); Data ("hi" +:+ nl)], w0);
     ([Data ("Bob" +:+ nl); Data ("lobby" +:+ nl); Data "/quit"], w0);
     ([ReadFault], w0)] in
  rooms server0 = ∅ ∧ clients server0 = ∅
  ∧ rooms (foldl (λ st conn, (handle_client conn.1 conn.2 st).2) server0 conns) = ∅.
Proof.
  cbv zeta.
  assert (H1 : rooms server0 = ∅) by reflexivity.
  assert (H2 : clients server0 = ∅) by reflexivity.
  split; [exact H1 |]. split; [exact H2 |].
  exact (proj1 (proj2 (sessions_leave_nothing_behind _ server0
                         registry_ok_server0 H1 H2))).
Defined.

Lemma members_named_alice_in_lobby rest : members_named (alice_in_lobby rest).
Proof.
  intros r c Hc. destruct r as [|r].
  - change (c ∈ ({[0]} : gset nat)) in Hc. apply elem_of_singleton in Hc as ->.
    by exists "Alice".
  - rewrite room_of_invalid in Hc by (vm_compute; lia). simpl in Hc. set_solver.
Qed.

Lemma members_stay_named_witness :
  let rd := [Data ("Bob" +:+ nl); Data ("lobby" +:+ nl); Data "/list"] in
  members (room_of (alice_in_lobby []) 0) = {[0]}
  ∧ members_named (handle_client rd w0 (alice_in_lobby [])).2
  ∧ (_handle_command 0 "/list" (alice_in_lobby [])).1 ≠ Raise TypeError.
Proof.
  cbv zeta.
  assert (H1 : members (room_of (alice_in_lobby []) 0) = {[0]}) by reflexivity.
  split; [exact H1 |].
  pose proof (members_stay_named
                [Data ("Bob" +:+ nl); Data ("lobby" +:+ nl); Data "/list"] w0
                (alice_in_lobby []) (registry_ok_alice_in_lobby [])
                (members_named_alice_in_lobby [])) as (Ha & _ & Hb & _).
  split; [exact Ha | exact (Hb 0 "/list")].
Defined.

